(** * Journey solar-production simulator

    A shallow embedding of [update_solar_production] and [fetch_cloud_cover]
    from [solar_prod_planner_cloud_cover.py], and the properties of the
    simulation core: segment sampling, the running clock, the date-keyed
    cloud-cover cache, the below-horizon cutoff and the energy total.

    Conventions of the embedding.
    - A Python number is an [int] or a [float] ([num]); arithmetic follows
      Python's promotion rules.  The binary64 operations themselves are the
      fields of [FloatOps]: no algebraic law is assumed of them.  The numbers
      of the form (area, yield, speed) and the coordinates are taken to be
      floats or ints small enough to convert to one; the payload of the
      provider is arbitrary, and [int / int] is Python's there.
    - A [datetime] is its number of microseconds since the epoch and a
      [timedelta] a number of microseconds, both in [Z] and within the
      ranges Python gives them: a [timedelta] or a sum that leaves its range
      raises [OverflowError].
    - [int(td.total_seconds() / 600)] decides how many samples are taken,
      so it is not left to [FloatOps]: it is computed on integers as Python
      computes it, with its two roundings to binary64
      ([steps_of_duration]).
    - The library routines the code calls (geopy, numpy, pvlib, the
      [datetime] conversions, [requests]) are the fields of [Externals].
      Those of numpy and pvlib are total functions: a run in which one of
      them raises is outside the model.
    - Exceptions are values of [exn]; a computation that may call the
      provider is a function of the log of provider calls made so far.
    - The provider answers a request by its latitude, longitude and date
      ([requests_get]); a run never repeats a date, so nothing is lost by
      that.  The [print] calls are left out. *)

From Stdlib Require Import ZArith List String Ascii Bool Lia Sorted.
From Stdlib Require Import Floats.
From stdpp Require Import base option list sorting gmap strings.

Local Open Scope Z_scope.
Local Set Warnings "-register-all".

(** ** Exceptions and the two monads *)

Inductive exn : Type :=
  | KeyError | TypeError | IndexError | ValueError | AttributeError
  | ZeroDivisionError | OverflowError | RequestException.

Inductive result (A : Type) : Type :=
  | Ok (a : A)
  | Raise (e : exn).
Arguments Ok {A} a.
Arguments Raise {A} e.

Definition rbind {A B : Type} (r : result A) (k : A -> result B) : result B :=
  match r with
  | Ok a => k a
  | Raise e => Raise e
  end.

Notation "'do' x <- r ; k" := (rbind r (fun x => k))
  (at level 10, x pattern, r at level 100, k at level 200,
   format "'[v' 'do'  x  <-  r ; '/' k ']'").

Fixpoint mapR {A B : Type} (f : A -> result B) (l : list A) : result (list B) :=
  match l with
  | [] => Ok []
  | a :: r => do b <- f a; do bs <- mapR f r; Ok (b :: bs)
  end.

(** [l[j]] on a Python list. *)
Definition list_index {A : Type} (l : list A) (j : nat) : result A :=
  match l !! j with
  | Some a => Ok a
  | None => Raise IndexError
  end.

(** ** The range of [datetime] and [timedelta] *)

(** 0001-01-01 00:00:00 and 9999-12-31 23:59:59.999999, in microseconds
    since 1970-01-01. *)
Definition datetime_min : Z := -62135596800000000.
Definition datetime_max : Z := 253402300799999999.

(** -999999999 days, and 999999999 days 23:59:59.999999. *)
Definition timedelta_min : Z := -86399999913600000000.
Definition timedelta_max : Z := 86399999999999999999.

(** [t + d] for a datetime [t] and a timedelta [d]. *)
Definition datetime_add (t d : Z) : result Z :=
  if (datetime_min <=? t + d) && (t + d <=? datetime_max) then Ok (t + d)
  else Raise OverflowError.

(** What a [timedelta(...)] constructor makes of the microseconds it has
    computed. *)
Definition checked_timedelta (d : option Z) : result Z :=
  match d with
  | Some us =>
      if (timedelta_min <=? us) && (us <=? timedelta_max) then Ok us
      else Raise OverflowError
  | None => Raise OverflowError
  end.

(** ** Binary64 quotients of integers

    A quotient of two positive integers rounded to binary64 (53 bits, to
    nearest, ties to even), as a mantissa [m] and a shift [s] that stand for
    the float m / 2^s.  The exponent range is not modelled: on the durations
    a [timedelta] can hold the quotients are far from both ends of it. *)

(** [n / d] rounded to the nearest integer, ties to even. *)
Definition rne (n d : Z) : Z :=
  let q := n / d in
  let r := n mod d in
  if 2 * r <? d then q
  else if d <? 2 * r then q + 1
  else if Z.even q then q else q + 1.

(** floor(log2(n / d)) *)
Definition flog2 (n d : Z) : Z :=
  let l := Z.log2 n - Z.log2 d in
  if (if 0 <=? l then d * 2 ^ l <=? n else d <=? n * 2 ^ (- l)) then l
  else l - 1.

(** The float nearest to [n / d]. *)
Definition round53 (n d : Z) : Z * Z :=
  if n =? 0 then (0, 0)
  else
    let s := 52 - flog2 n d in
    if 0 <=? s then (rne (n * 2 ^ s) d, s)
    else (rne n (d * 2 ^ (- s)), s).

(** [x / d] for a float [x] and an int [d] that a float holds exactly. *)
Definition float_quotient (x : Z * Z) (d : Z) : Z * Z :=
  let '(m, s) := x in
  if 0 <=? s then round53 m (d * 2 ^ s) else round53 (m * 2 ^ (- s)) d.

(** [int(x)] for a float [x] that is not negative. *)
Definition float_trunc (x : Z * Z) : Z :=
  let '(m, s) := x in
  if 0 <=? s then m / 2 ^ s else m * 2 ^ (- s).

(** [int(td.total_seconds() / 600)] for a timedelta of [us] microseconds:
    [total_seconds] is the int division of the microseconds by 10**6, the
    quotient by 600 a float division, [int] truncates; all three are odd
    functions. *)
Definition steps_of_duration (us : Z) : Z :=
  Z.sgn us * float_trunc (float_quotient (round53 (Z.abs us) 1000000) 600).

(** ** Python numbers over an abstract binary64 *)

Class FloatOps (F : Type) : Type := {
  of_Z : Z -> F;              (* float(i) for an int i *)
  (* i / j for ints of which one is beyond 2**53: the quotient rounded
     once, None when it is too large for a float *)
  int_truediv : Z -> Z -> option F;
  fadd : F -> F -> F;
  fsub : F -> F -> F;
  fmul : F -> F -> F;
  fdiv : F -> F -> F;         (* divisor known to be non-zero *)
  fgt : F -> F -> bool;       (* x > y *)
  fis_zero : F -> bool        (* x == 0 *)
}.

Section Python.
Context {F : Type} `{!FloatOps F}.

Inductive num : Type :=
  | PInt (z : Z)
  | PFloat (f : F).

Definition to_float (n : num) : F :=
  match n with
  | PInt z => of_Z z
  | PFloat f => f
  end.

Definition py_add (a b : num) : num :=
  match a, b with
  | PInt x, PInt y => PInt (x + y)
  | _, _ => PFloat (fadd (to_float a) (to_float b))
  end.

Definition py_sub (a b : num) : num :=
  match a, b with
  | PInt x, PInt y => PInt (x - y)
  | _, _ => PFloat (fsub (to_float a) (to_float b))
  end.

Definition py_mul (a b : num) : num :=
  match a, b with
  | PInt x, PInt y => PInt (x * y)
  | _, _ => PFloat (fmul (to_float a) (to_float b))
  end.

Definition num_is_zero (n : num) : bool :=
  match n with
  | PInt z => z =? 0
  | PFloat f => fis_zero f
  end.

(** An int that a float holds exactly. *)
Definition exact_int (z : Z) : bool := Z.abs z <=? 2 ^ 53.

(** [a / b]: true division, a float whatever the operands.  Between two
    ints Python rounds the exact quotient once, and raises when it is too
    large; for ints that floats hold exactly this is the division of the
    two floats. *)
Definition py_truediv (a b : num) : result num :=
  if num_is_zero b then Raise ZeroDivisionError
  else
    match a, b with
    | PInt x, PInt y =>
        if exact_int x && exact_int y
        then Ok (PFloat (fdiv (of_Z x) (of_Z y)))
        else
          match int_truediv x y with
          | Some f => Ok (PFloat f)
          | None => Raise OverflowError
          end
    | _, _ => Ok (PFloat (fdiv (to_float a) (to_float b)))
    end.

(** ** JSON values as Python sees them *)

Inductive json : Type :=
  | JNull
  | JBool (b : bool)
  | JNum (n : num)
  | JStr (s : string)
  | JList (l : list json)
  | JDict (d : list (string * json)).

Fixpoint assoc (k : string) (d : list (string * json)) : option json :=
  match d with
  | [] => None
  | (k', v) :: r => if String.eqb k k' then Some v else assoc k r
  end.

(** [bool(v)] *)
Definition truthy (v : json) : bool :=
  match v with
  | JNull => false
  | JBool b => b
  | JNum n => negb (num_is_zero n)
  | JStr s => negb (String.eqb s "")
  | JList l => match l with [] => false | _ => true end
  | JDict d => match d with [] => false | _ => true end
  end.

Definition is_str (k : string) (v : json) : bool :=
  match v with
  | JStr s => String.eqb k s
  | _ => false
  end.

Definition is_substring (k s : string) : bool :=
  match String.index 0 k s with
  | Some _ => true
  | None => false
  end.

(** [k in v] for a string [k] *)
Definition py_contains (k : string) (v : json) : result bool :=
  match v with
  | JDict d => Ok (match assoc k d with Some _ => true | None => false end)
  | JList l => Ok (existsb (is_str k) l)
  | JStr s => Ok (is_substring k s)
  | _ => Raise TypeError
  end.

(** [v[k]] for a string [k] *)
Definition py_getitem (v : json) (k : string) : result json :=
  match v with
  | JDict d => match assoc k d with Some x => Ok x | None => Raise KeyError end
  | _ => Raise TypeError
  end.

(** [v[0]] *)
Definition py_getitem0 (v : json) : result json :=
  match v with
  | JList (x :: _) => Ok x
  | JList [] => Raise IndexError
  | JStr (String c _) => Ok (JStr (String c EmptyString))
  | JStr EmptyString => Raise IndexError
  | JDict _ => Raise KeyError
  | _ => Raise TypeError
  end.

(** [v.get(k, dflt)] *)
Definition py_get (v : json) (k : string) (dflt : json) : result json :=
  match v with
  | JDict d => Ok (match assoc k d with Some x => x | None => dflt end)
  | _ => Raise AttributeError
  end.

Fixpoint chars (s : string) : list json :=
  match s with
  | EmptyString => []
  | String c r => JStr (String c EmptyString) :: chars r
  end.

(** [iter(v)] *)
Definition py_iter (v : json) : result (list json) :=
  match v with
  | JList l => Ok l
  | JStr s => Ok (chars s)
  | JDict d => Ok (map (fun kv => JStr (fst kv)) d)
  | _ => Raise TypeError
  end.

(** [a, b = v] *)
Definition unpack2 (v : json) : result (json * json) :=
  do l <- py_iter v;
  match l with
  | [a; b] => Ok (a, b)
  | _ => Raise ValueError
  end.

(** [v / d] for a JSON value [v] ([bool] is an [int]) *)
Definition json_truediv (v : json) (d : num) : result num :=
  match v with
  | JNum n => py_truediv n d
  | JBool b => py_truediv (PInt (if b then 1 else 0)) d
  | _ => Raise TypeError
  end.

(** A coordinate handed to geopy and numpy must be a number. *)
Definition as_float (v : json) : result F :=
  match v with
  | JNum n => Ok (to_float n)
  | _ => Raise TypeError
  end.

End Python.

Arguments num F : clear implicits.
Arguments json F : clear implicits.

(** ** The external collaborators *)

(** What [requests.get] hands back: a response, or an exception of the
    transport.  [json_body] is [None] when [response.json()] raises. *)
Record response (F : Type) : Type := {
  status_code : Z;
  json_body : option (json F)
}.
Arguments status_code {F} r.
Arguments json_body {F} r.

Inductive http_result (F : Type) : Type :=
  | ConnectionFailed
  | Response (r : response F).
Arguments ConnectionFailed {F}.
Arguments Response {F} r.

Class Externals (F : Type) : Type := {
  (* geodesic((lat1, lon1), (lat2, lon2)).km; None when geopy rejects a point *)
  geodesic_km : F -> F -> F -> F -> option F;
  (* np.linspace(start, stop, num)[j] *)
  np_linspace : F -> F -> Z -> nat -> F;
  np_sin : F -> F;
  np_radians : F -> F;
  (* get_solarposition(DatetimeIndex([t]), lat, lon)["apparent_elevation"].values[0] *)
  apparent_elevation : Z -> F -> F -> F;
  (* the microseconds timedelta(hours=h) computes; None when h is an
     infinity or a NaN, on which the constructor raises *)
  timedelta_hours : F -> option Z;
  (* datetime.strptime(s, "%Y-%m-%d %H:%M").replace(tzinfo=UTC) *)
  strptime : string -> option Z;
  (* t.strftime("%Y-%m-%d") *)
  strftime_date : Z -> string;
  (* requests.get of the NASA POWER url built from latitude, longitude and
     the start/end date *)
  requests_get : F -> F -> string -> http_result F
}.

(** One call of the provider: the arguments of [fetch_cloud_cover], from
    which the url of its single [requests.get] is built. *)
Record call (F : Type) : Type := {
  call_lat : F;
  call_lon : F;
  call_date : string
}.
Arguments call_lat {F} c.
Arguments call_lon {F} c.
Arguments call_date {F} c.

Section Simulator.
Context {F : Type} `{!FloatOps F} `{!Externals F}.

(** A computation that may query the provider: it extends the log of calls
    and returns a value or raises. *)
Definition M (A : Type) : Type := list (call F) -> result A * list (call F).

Definition ret {A : Type} (a : A) : M A := fun log => (Ok a, log).

Definition bind {A B : Type} (m : M A) (k : A -> M B) : M B :=
  fun log =>
    match m log with
    | (Ok a, log') => k a log'
    | (Raise e, log') => (Raise e, log')
    end.

Definition lift {A : Type} (r : result A) : M A := fun log => (r, log).

Notation "'run' x <- m ; k" := (bind m (fun x => k))
  (at level 10, x pattern, m at level 100, k at level 200,
   format "'[v' 'run'  x  <-  m ; '/' k ']'").

Fixpoint foldM {A S : Type} (f : S -> A -> M S) (l : list A) (s : S) : M S :=
  match l with
  | [] => ret s
  | a :: r => run s' <- f s a; foldM f r s'
  end.

(** *** [fetch_cloud_cover] *)

Fixpoint remove_char (c : ascii) (s : string) : string :=
  match s with
  | EmptyString => EmptyString
  | String a r =>
      if Ascii.eqb a c then remove_char c r else String a (remove_char c r)
  end.

(** The body of the [try]: [Ok (Some v)] is [return v], [Ok None] the
    [else] branch that only prints, [Raise] an exception for the handler. *)
Definition parse_cloud_cover (data : json F) (formatted_date : string)
  : result (option (num F)) :=
  do has_properties <- py_contains "properties" data;
  if negb has_properties then Ok None else
  do properties <- py_getitem data "properties";
  do has_parameter <- py_contains "parameter" properties;
  if negb has_parameter then Ok None else
  do parameter <- py_getitem properties "parameter";
  do has_cloud_amt <- py_contains "CLOUD_AMT" parameter;
  if negb has_cloud_amt then Ok None else
  do cloud_amt <- py_getitem parameter "CLOUD_AMT";
  do cloud_cover <- py_get cloud_amt formatted_date (JNum (PInt 0));
  do fraction <- json_truediv cloud_cover (PInt 100);
  Ok (Some fraction).

(** What [fetch_cloud_cover] returns once [requests.get] has answered. *)
Definition cloud_cover_of_response (r : response F) (formatted_date : string)
  : num F :=
  if status_code r =? 200 then
    match json_body r with
    | Some data =>
        match parse_cloud_cover data formatted_date with
        | Ok (Some fraction) => fraction
        | Ok None => PInt 0
        | Raise _ => PInt 0
        end
    | None => PInt 0
    end
  else PInt 0.

Definition fetch_cloud_cover (lat lon : F) (date : string) : M (num F) :=
  fun log =>
    let formatted_date := remove_char "-"%char date in
    let log' := log ++ [ {| call_lat := lat; call_lon := lon; call_date := date |} ] in
    match requests_get lat lon formatted_date with
    | ConnectionFailed => (Raise RequestException, log')
    | Response r => (Ok (cloud_cover_of_response r formatted_date), log')
    end.

(** *** [update_solar_production] *)

Inductive output : Type :=
  (* the empty figure "Invalid Inputs - Please Plot a Route" with the text
     "Total Output: Invalid Route" *)
  | InvalidRoute
  (* the figure over the columns [times] and [production_values], and the
     text of the total *)
  | Production (times : list Z) (production_values : list (num F))
               (total_production : num F).

(** The variables the inner loop updates. *)
Record accum : Type := {
  cloud_cover_cache : gmap string (num F);
  times : list Z;
  production_values : list (num F);
  total_production : num F
}.

(** A sampled point: its timestamp, latitude and longitude. *)
Record sample : Type := {
  s_time : Z;
  s_lat : F;
  s_lon : F
}.

(** Lines 100-108: what is computed for a segment before its samples are
    evaluated. *)
Record segment : Type := {
  seg_start : Z;                (* current_time on entry *)
  segment_duration : Z;
  num_steps : Z;
  lats : nat -> F;
  lons : nat -> F;
  times_segment : list Z
}.

Definition ten_minutes : Z := 600000000.

Definition plan_segment (vessel_speed : num F) (start end_ : json F * json F)
  (current_time : Z) : result segment :=
  do lat1 <- as_float (fst start);
  do lon1 <- as_float (snd start);
  do lat2 <- as_float (fst end_);
  do lon2 <- as_float (snd end_);
  do segment_distance <-
    match geodesic_km lat1 lon1 lat2 lon2 with
    | Some d => Ok d
    | None => Raise ValueError
    end;
  do hours <- py_truediv (PFloat segment_distance) vessel_speed;
  do duration <- checked_timedelta (timedelta_hours (to_float hours));
  let n := Z.max 2 (steps_of_duration duration) in
  do stamps <-
    mapR (fun j : nat => datetime_add current_time (ten_minutes * Z.of_nat j))
         (seq 0 (Z.to_nat n));
  do next_time <- datetime_add current_time duration;
  Ok {| seg_start := current_time;
        segment_duration := duration;
        num_steps := n;
        lats := np_linspace lat1 lat2 n;
        lons := np_linspace lon1 lon2 n;
        times_segment := stamps |}.

Definition ten_over_sixty : num F := PFloat (fdiv (of_Z 10) (of_Z 60)).

Definition sample_date (p : sample) : string := strftime_date (s_time p).

Definition solar_altitude (p : sample) : F :=
  apparent_elevation (s_time p) (s_lat p) (s_lon p).

(** Lines 119-120 *)
Definition segment_production (surface_area kw_per_m2 attenuation : num F)
  (p : sample) : num F :=
  let irradiance_factor := np_sin (np_radians (solar_altitude p)) in
  py_mul (py_mul (py_mul surface_area kw_per_m2) (PFloat irradiance_factor))
         attenuation.

(** Lines 118-123: the sample is kept only above the horizon. *)
Definition record_sample (surface_area kw_per_m2 attenuation : num F)
  (cache : gmap string (num F)) (a : accum) (p : sample) : accum :=
  if fgt (solar_altitude p) (of_Z 0) then
    let v := segment_production surface_area kw_per_m2 attenuation p in
    {| cloud_cover_cache := cache;
       times := times a ++ [s_time p];
       production_values := production_values a ++ [v];
       total_production := py_add (total_production a) (py_mul v ten_over_sixty) |}
  else
    {| cloud_cover_cache := cache;
       times := times a;
       production_values := production_values a;
       total_production := total_production a |}.

(** Line 114 *)
Definition attenuation_of (apply_cloud : bool) (cache : gmap string (num F))
  (date_key : string) : result (num F) :=
  if apply_cloud then
    match cache !! date_key with
    | Some v => Ok (py_sub (PInt 1) v)
    | None => Raise KeyError
    end
  else Ok (PInt 1).

(** Lines 111-123: the body of the inner loop for one sample. *)
Definition evaluate_sample (surface_area kw_per_m2 : num F) (apply_cloud : bool)
  (a : accum) (p : sample) : M accum :=
  let date_key := sample_date p in
  run cache <-
    match cloud_cover_cache a !! date_key with
    | Some _ => ret (cloud_cover_cache a)
    | None =>
        run v <- fetch_cloud_cover (s_lat p) (s_lon p) date_key;
        ret (<[date_key := v]> (cloud_cover_cache a))
    end;
  run attenuation <- lift (attenuation_of apply_cloud cache date_key);
  ret (record_sample surface_area kw_per_m2 attenuation cache a p).

(** Lines 110-123: [for j in range(num_steps)]. *)
Definition sample_step (surface_area kw_per_m2 : num F) (apply_cloud : bool)
  (g : segment) (a : accum) (j : nat) : M accum :=
  run t <- lift (list_index (times_segment g) j);
  evaluate_sample surface_area kw_per_m2 apply_cloud a
    {| s_time := t; s_lat := lats g j; s_lon := lons g j |}.

(** Lines 100-123: the body of the outer loop for one segment; it returns
    the advanced [current_time] with the updated variables. *)
Definition segment_step (surface_area kw_per_m2 vessel_speed : num F)
  (apply_cloud : bool) (start end_ : json F * json F)
  (current_time : Z) (a : accum) : M (Z * accum) :=
  run g <- lift (plan_segment vessel_speed start end_ current_time);
  let current_time' := current_time + segment_duration g in
  run a' <- foldM (sample_step surface_area kw_per_m2 apply_cloud g)
              (seq 0 (Z.to_nat (num_steps g))) a;
  ret (current_time', a').

(** Line 99: [for i in range(len(route_positions) - 1)], on the pairs of
    consecutive positions. *)
Fixpoint route_loop (surface_area kw_per_m2 vessel_speed : num F)
  (apply_cloud : bool) (route_positions : list (json F * json F))
  (current_time : Z) (a : accum) : M accum :=
  match route_positions with
  | start :: ((end_ :: _) as rest) =>
      run (current_time', a') <-
        segment_step surface_area kw_per_m2 vessel_speed apply_cloud
          start end_ current_time a;
      route_loop surface_area kw_per_m2 vessel_speed apply_cloud rest
        current_time' a'
  | _ => ret a
  end.

(** Line 91: [[(lat, lon) for lon, lat in coordinates]]. *)
Definition route_positions_of (coordinates : json F)
  : result (list (json F * json F)) :=
  do items <- py_iter coordinates;
  mapR (fun c => do (lon, lat) <- unpack2 c; Ok (lat, lon)) items.

(** Line 90: [geojson["features"][0]["geometry"]["coordinates"]]. *)
Definition coordinates_of (geojson : json F) : result (json F) :=
  do features <- py_getitem geojson "features";
  do feature <- py_getitem0 features;
  do geometry <- py_getitem feature "geometry";
  py_getitem geometry "coordinates".

(** Line 87: the guard, [Ok true] when the route is refused. *)
Definition no_route (geojson : json F) : result bool :=
  if negb (truthy geojson) then Ok true else
  do has_features <- py_contains "features" geojson;
  if negb has_features then Ok true else
  do features <- py_getitem geojson "features";
  Ok (negb (truthy features)).

Definition parse_start (start_date : string) : result Z :=
  match strptime start_date with
  | Some t => Ok t
  | None => Raise ValueError
  end.

Definition empty_accum : accum :=
  {| cloud_cover_cache := ∅;
     times := [];
     production_values := [];
     total_production := PInt 0 |}.

(** Line 97: ["on" in cloud_toggle]. *)
Definition cloud_enabled (cloud_toggle : list string) : bool :=
  existsb (String.eqb "on") cloud_toggle.

Definition update_solar_production (geojson : json F)
  (surface_area kw_per_m2 : num F) (start_date : string)
  (vessel_speed : num F) (cloud_toggle : list string) : M output :=
  run refused <- lift (no_route geojson);
  if refused then ret InvalidRoute else
  run coordinates <- lift (coordinates_of geojson);
  run route_positions <- lift (route_positions_of coordinates);
  run current_time <- lift (parse_start start_date);
  let apply_cloud := cloud_enabled cloud_toggle in
  run a <- route_loop surface_area kw_per_m2 vessel_speed apply_cloud
             route_positions current_time empty_accum;
  ret (Production (times a) (production_values a) (total_production a)).

(** ** The simulation as a pipeline

    The same run, read as the specification describes it: the segments of
    the route with their clock, the stream of samples they produce, the
    provider calls made for the first sample of every date, and the energy
    total.  The theorems below relate [update_solar_production] to these. *)

(** The segments of a route with the running clock threaded through. *)
Fixpoint route_plan (vessel_speed : num F)
  (route_positions : list (json F * json F)) (current_time : Z)
  : result (list segment) :=
  match route_positions with
  | start :: ((end_ :: _) as rest) =>
      do g <- plan_segment vessel_speed start end_ current_time;
      do gs <- route_plan vessel_speed rest (current_time + segment_duration g);
      Ok (g :: gs)
  | _ => Ok []
  end.

Definition segment_samples (g : segment) : list sample :=
  map (fun j : nat =>
         {| s_time := seg_start g + ten_minutes * Z.of_nat j;
            s_lat := lats g j;
            s_lon := lons g j |})
      (seq 0 (Z.to_nat (num_steps g))).

Definition plan_samples (gs : list segment) : list sample :=
  concat (map segment_samples gs).

Definition journey_positions (geojson : json F)
  : result (list (json F * json F)) :=
  do coordinates <- coordinates_of geojson;
  route_positions_of coordinates.

Definition journey_plan (geojson : json F) (start_date : string)
  (vessel_speed : num F) : result (list segment) :=
  do route_positions <- journey_positions geojson;
  do current_time <- parse_start start_date;
  route_plan vessel_speed route_positions current_time.

Definition journey_samples (geojson : json F) (start_date : string)
  (vessel_speed : num F) : result (list sample) :=
  do gs <- journey_plan geojson start_date vessel_speed;
  Ok (plan_samples gs).

(** Above the horizon: the test of line 118. *)
Definition daylight (p : sample) : bool := fgt (solar_altitude p) (of_Z 0).

(** The samples that meet a date not seen before: those for which the
    provider is called. *)
Fixpoint first_seen (seen : gset string) (ss : list sample) : list sample :=
  match ss with
  | [] => []
  | p :: r =>
      if decide (sample_date p ∈ seen) then first_seen seen r
      else p :: first_seen ({[sample_date p]} ∪ seen) r
  end.

(** The first sample of a date within a stream. *)
Definition first_sample (d : string) (ss : list sample) : option sample :=
  find (fun p => String.eqb (sample_date p) d) ss.

Definition call_of (p : sample) : call F :=
  {| call_lat := s_lat p; call_lon := s_lon p; call_date := sample_date p |}.

(** The cloud fraction [fetch_cloud_cover] returns when called for a sample;
    [None] when [requests.get] raises. *)
Definition fetched (p : sample) : option (num F) :=
  let formatted_date := remove_char "-"%char (sample_date p) in
  match requests_get (s_lat p) (s_lon p) formatted_date with
  | ConnectionFailed => None
  | Response r => Some (cloud_cover_of_response r formatted_date)
  end.

(** The cache entry of a date after a stream of samples: the entry it had,
    or else what was fetched for the first sample of that date. *)
Definition factor_of (cache : gmap string (num F)) (ss : list sample)
  (d : string) : option (num F) :=
  match cache !! d with
  | Some v => Some v
  | None => first_sample d ss ≫= fetched
  end.

(** The attenuation of line 114 for a sample of the stream [ss]. *)
Definition attenuation (apply_cloud : bool) (ss : list sample) (p : sample)
  : num F :=
  if apply_cloud then
    match factor_of ∅ ss (sample_date p) with
    | Some v => py_sub (PInt 1) v
    | None => PInt 1
    end
  else PInt 1.

(** The attenuation of line 114 read off a cache that holds the date. *)
Definition cache_attenuation (apply_cloud : bool) (cache : gmap string (num F))
  (p : sample) : num F :=
  match attenuation_of apply_cloud cache (sample_date p) with
  | Ok v => v
  | Raise _ => PInt 1
  end.

(** One step of the energy total (line 123). *)
Definition add_energy (total v : num F) : num F :=
  py_add total (py_mul v ten_over_sixty).

(** Rectangle rule with the fixed weight 10/60, in the order of the loop. *)
Definition energy (values : list (num F)) : num F :=
  fold_left add_energy values (PInt 0).

(** The provider calls made for a date. *)
Definition calls_for (d : string) (log : list (call F)) : list (call F) :=
  List.filter (fun c => String.eqb (call_date c) d) log.

(** The running clock along the segments: each starts where the one before
    it ended, that is at its start plus its full duration. *)
Fixpoint clock_chain (current_time : Z) (gs : list segment) : Prop :=
  match gs with
  | [] => True
  | g :: r =>
      seg_start g = current_time ∧
      clock_chain (current_time + segment_duration g) r
  end.

(** Every segment that is followed by another one lasts at least the ten
    minutes its second sample is stamped with. *)
Fixpoint no_overrun (gs : list segment) : Prop :=
  match gs with
  | g :: ((_ :: _) as r) => ten_minutes <= segment_duration g ∧ no_overrun r
  | _ => True
  end.

(** The three provider failures the code recovers from. *)
Definition cloud_amt_table (data : json F) : option (json F) :=
  match data with
  | JDict d =>
      match assoc "properties" d with
      | Some (JDict d1) =>
          match assoc "parameter" d1 with
          | Some (JDict d2) => assoc "CLOUD_AMT" d2
          | _ => None
          end
      | _ => None
      end
  | _ => None
  end.

Inductive provider_failure (r : response F) : Prop :=
  | non_success_status : status_code r ≠ 200 -> provider_failure r
  | malformed_payload : json_body r = None -> provider_failure r
  | missing_parameter data :
      json_body r = Some data -> cloud_amt_table data = None ->
      provider_failure r.

(** The provider succeeded with the cloud amount [c] (in percent) for the
    date. *)
Definition provider_success (r : response F) (formatted_date : string)
  (c : num F) : Prop :=
  status_code r = 200 ∧
  ∃ data tbl, json_body r = Some data ∧
              cloud_amt_table data = Some (JDict tbl) ∧
              assoc formatted_date tbl = Some (JNum c).

(** ** Comparing two runs *)

(** Two computations end alike: both raise the same exception or both
    return, with values related by [R]; the provider calls are the same. *)
Definition same_outcome {A B : Type} (R : A -> B -> Prop)
  (x : result A * list (call F)) (y : result B * list (call F)) : Prop :=
  match x, y with
  | (Ok a, log), (Ok b, log') => R a b ∧ log = log'
  | (Raise e, log), (Raise e', log') => e = e' ∧ log = log'
  | _, _ => False
  end.

(** Two outputs show the same timestamps, with a power for each. *)
Definition same_series (o o' : output) : Prop :=
  match o, o' with
  | InvalidRoute, InvalidRoute => True
  | Production ts vs _, Production ts' vs' _ =>
      ts = ts' ∧ length vs = length vs'
  | _, _ => False
  end.

(** The variables of two runs agree on all but the powers and the total. *)
Definition same_clock (a a' : accum) : Prop :=
  cloud_cover_cache a = cloud_cover_cache a' ∧
  times a = times a' ∧
  length (production_values a) = length (production_values a').

(** Every cached cloud fraction is the fallback 0 of a failed fetch. *)
Definition all_fallback (cache : gmap string (num F)) : Prop :=
  ∀ d v, cache !! d = Some v -> v = PInt 0.

(** [Ok] for a JSON array of exactly two components. *)
Definition is_pair (c : json F) : bool :=
  match c with
  | JList [_; _] => true
  | _ => false
  end.

Definition is_array (c : json F) : bool :=
  match c with
  | JList _ => true
  | _ => false
  end.

Definition is_object (v : json F) : bool :=
  match v with
  | JDict _ => true
  | _ => false
  end.

Fixpoint has_char (c : ascii) (s : string) : bool :=
  match s with
  | EmptyString => false
  | String a r => Ascii.eqb a c || has_char c r
  end.

End Simulator.

Arguments M F A : clear implicits.
Arguments output F : clear implicits.
Arguments accum F : clear implicits.
Arguments sample F : clear implicits.
Arguments segment F : clear implicits.

(** ** A concrete platform: binary64 arithmetic and test doubles

    [FloatOps] at Rocq's primitive binary64 floats, which are Python's, and
    stand-ins for the external collaborators: a flat-earth distance, a
    triangular daily course of the sun, the proleptic Gregorian calendar,
    and a provider given as a function. *)

Module Mock.

Definition float_of_Z (z : Z) : float :=
  if z <? 0 then PrimFloat.opp (PrimFloat.of_uint63 (Uint63.of_Z (- z)))
  else PrimFloat.of_uint63 (Uint63.of_Z z).

(** The quotient of two ints, rounded once. *)
Definition int_quotient (a b : Z) : option float :=
  let '(m, s) := round53 (Z.abs a) (Z.abs b) in
  let x := Z.ldexp (PrimFloat.of_uint63 (Uint63.of_Z m)) (- s) in
  if PrimFloat.is_infinity x then None
  else Some (if Z.sgn a * Z.sgn b <? 0 then PrimFloat.opp x else x).

#[export] Instance float_ops : FloatOps float := {|
  of_Z := float_of_Z;
  int_truediv := int_quotient;
  fadd := PrimFloat.add;
  fsub := PrimFloat.sub;
  fmul := PrimFloat.mul;
  fdiv := PrimFloat.div;
  fgt := fun x y => PrimFloat.ltb y x;
  fis_zero := fun x => PrimFloat.eqb x PrimFloat.zero
|}.

(** Truncation of a finite float to an integer. *)
Definition Z_of_float (x : float) : option Z :=
  match Prim2SF x with
  | S754_zero _ => Some 0
  | S754_finite s m e =>
      let v := if 0 <=? e then Zpos m * 2 ^ e else Zpos m / 2 ^ (- e) in
      Some (if s then - v else v)
  | _ => None
  end.

Definition fabs (x : float) : float := PrimFloat.abs x.

(** 111.25 km per degree, on a flat chart. *)
Definition flat_distance (lat1 lon1 lat2 lon2 : float) : option float :=
  if PrimFloat.ltb 90%float (fabs lat1) || PrimFloat.ltb 90%float (fabs lat2)
  then None
  else
    let dlat := PrimFloat.sub lat2 lat1 in
    let dlon := PrimFloat.sub lon2 lon1 in
    Some (PrimFloat.mul 111.25%float
            (PrimFloat.sqrt (PrimFloat.add (PrimFloat.mul dlat dlat)
                                           (PrimFloat.mul dlon dlon)))).

Definition linspace (start stop : float) (n : Z) (j : nat) : float :=
  PrimFloat.add start
    (PrimFloat.mul (float_of_Z (Z.of_nat j))
       (PrimFloat.div (PrimFloat.sub stop start) (float_of_Z (n - 1)))).

Definition radians (x : float) : float :=
  PrimFloat.mul x 0x1.1df46a2529d39p-6%float.

(** The first terms of the sine series. *)
Definition sin5 (x : float) : float :=
  let x2 := PrimFloat.mul x x in
  let x3 := PrimFloat.mul x2 x in
  let x5 := PrimFloat.mul x3 x2 in
  PrimFloat.add (PrimFloat.sub x (PrimFloat.div x3 6%float))
                (PrimFloat.div x5 120%float).

Definition us_per_day : Z := 86400000000.

(** The sun at 90 - |latitude| degrees at local noon, falling by one degree
    every four minutes to either side. *)
Definition triangle_sun (t : Z) (lat lon : float) : float :=
  let seconds := (t mod us_per_day) / 1000000 in
  let hour_angle :=
    PrimFloat.sub
      (PrimFloat.add (PrimFloat.div (float_of_Z seconds) 240%float) lon)
      180%float in
  PrimFloat.sub (PrimFloat.sub 90%float (fabs lat)) (fabs hour_angle).

(** [timedelta(hours=h)] as CPython computes it: the whole hours are
    converted exactly, the fraction of an hour in floating point, and what
    is left of a microsecond is rounded to nearest, ties to even. *)
Definition hours_to_us (h : float) : option Z :=
  whole ← Z_of_float h;
  let fraction :=
    if 2 ^ 53 <=? Z.abs whole then 0%float
    else PrimFloat.sub h (float_of_Z whole) in
  let us := PrimFloat.mul 3600000000%float fraction in
  whole_us ← Z_of_float us;
  let leftover := PrimFloat.sub us (float_of_Z whole_us) in
  let x := whole * 3600000000 + whole_us in
  let up := PrimFloat.ltb 0.5%float leftover
            || (PrimFloat.eqb leftover 0.5%float && Z.odd x) in
  let down := PrimFloat.ltb leftover (-0.5)%float
              || (PrimFloat.eqb leftover (-0.5)%float && Z.odd x) in
  Some (x + (if up then 1 else if down then -1 else 0)).

Definition days_from_civil (y m d : Z) : Z :=
  let y' := if m <=? 2 then y - 1 else y in
  let era := y' / 400 in
  let yoe := y' - era * 400 in
  let doy := (153 * (if 2 <? m then m - 3 else m + 9) + 2) / 5 + d - 1 in
  let doe := yoe * 365 + yoe / 4 - yoe / 100 + doy in
  era * 146097 + doe - 719468.

Definition civil_from_days (z : Z) : Z * Z * Z :=
  let z := z + 719468 in
  let era := z / 146097 in
  let doe := z - era * 146097 in
  let yoe := (doe - doe / 1460 + doe / 36524 - doe / 146096) / 365 in
  let doy := doe - (365 * yoe + yoe / 4 - yoe / 100) in
  let mp := (5 * doy + 2) / 153 in
  let d := doy - (153 * mp + 2) / 5 + 1 in
  let m := if mp <? 10 then mp + 3 else mp - 9 in
  (yoe + era * 400 + (if m <=? 2 then 1 else 0), m, d).

Definition digit (n : Z) : ascii := ascii_of_nat (48 + Z.to_nat (n mod 10)).

Definition two_digits (n : Z) : string :=
  String (digit (n / 10)) (String (digit n) EmptyString).

Definition four_digits (n : Z) : string :=
  String (digit (n / 1000)) (String (digit (n / 100)) (two_digits n)).

Definition format_date (t : Z) : string :=
  let '(y, m, d) := civil_from_days (t / us_per_day) in
  (four_digits y ++ "-" ++ two_digits m ++ "-" ++ two_digits d)%string.

Definition digit_value (c : ascii) : option Z :=
  let n := Z.of_nat (nat_of_ascii c) in
  if (48 <=? n) && (n <=? 57) then Some (n - 48) else None.

Fixpoint number (s : list ascii) (acc : Z) : option Z :=
  match s with
  | [] => Some acc
  | c :: r => v ← digit_value c; number r (10 * acc + v)
  end.

(** "YYYY-MM-DD HH:MM" *)
Definition parse_datetime (s : string) : option Z :=
  match list_ascii_of_string s with
  | [y1; y2; y3; y4; "-"; m1; m2; "-"; d1; d2; " "; h1; h2; ":"; n1; n2]%char =>
      y ← number [y1; y2; y3; y4] 0;
      m ← number [m1; m2] 0;
      d ← number [d1; d2] 0;
      h ← number [h1; h2] 0;
      n ← number [n1; n2] 0;
      if (1 <=? m) && (m <=? 12) && (1 <=? d) && (d <=? 31) && (h <? 24) && (n <? 60)
      then Some (days_from_civil y m d * us_per_day + (h * 60 + n) * 60000000)
      else None
  | _ => None
  end.

Definition platform (provider : float -> float -> string -> http_result float)
  : Externals float := {|
  geodesic_km := flat_distance;
  np_linspace := linspace;
  np_sin := sin5;
  np_radians := radians;
  apparent_elevation := triangle_sun;
  timedelta_hours := hours_to_us;
  strptime := parse_datetime;
  strftime_date := format_date;
  requests_get := provider
|}.

(** A GeoJSON feature collection with one line string. *)
Definition point (lon lat : Z) : json float :=
  JList [JNum (PInt lon); JNum (PInt lat)].

Definition line_string (coordinates : list (json float)) : json float :=
  JDict [("type", JStr "FeatureCollection");
         ("features",
          JList [JDict [("type", JStr "Feature");
                        ("geometry",
                         JDict [("type", JStr "LineString");
                                ("coordinates", JList coordinates)])]])]%string.

(** A NASA POWER payload with one daily value. *)
Definition power_payload (formatted_date : string) (cloud_amt : num float)
  : json float :=
  JDict [("properties",
          JDict [("parameter",
                  JDict [("CLOUD_AMT",
                          JDict [(formatted_date, JNum cloud_amt)])])])]%string.

(** The provider answers every query with the same cloud amount. *)
Definition overcast (cloud_amt : num float) : float -> float -> string -> http_result float :=
  fun _ _ formatted_date =>
    Response {| status_code := 200;
                json_body := Some (power_payload formatted_date cloud_amt) |}.

(** The provider is down: every query gets a 503 without a body. *)
Definition unavailable : float -> float -> string -> http_result float :=
  fun _ _ _ => Response {| status_code := 503; json_body := None |}.

(** The default yield of the form, 0.2 kW per square metre. *)
Definition kw_default : num float := PFloat 0x1.999999999999ap-3%float.

(** One degree of longitude along the equator. *)
Definition equator_leg : json float := line_string [point 0 0; point 1 0].

(** Three times the same waypoint: two segments of length zero. *)
Definition standstill : json float :=
  line_string [point 0 0; point 0 0; point 0 0].

(** Two legs of one degree each. *)
Definition two_legs : json float :=
  line_string [point 0 0; point 1 0; point 2 0].

(** A "route" of a single waypoint. *)
Definition lone_waypoint : json float := line_string [point 0 0].

(** The three platforms of the scenarios: 40 % cloud, 100 % cloud, and a
    provider that is down. *)
Definition partly_cloudy : Externals float := platform (overcast (PInt 40)).
Definition fully_overcast : Externals float := platform (overcast (PInt 100)).
Definition provider_down : Externals float := platform unavailable.

(** A run with the form's defaults: 10 square metres of panels at 0.2 kW per
    square metre, 20 km/h. *)
Definition simulate (E : Externals float)
  (geojson : json float) (start_date : string) (cloud_toggle : list string)
  : result (output float) * list (call float) :=
  update_solar_production (Externals0 := E)
    geojson (PInt 10) kw_default start_date (PInt 20) cloud_toggle [].

Definition times_of (r : result (output float) * list (call float)) : list Z :=
  match r with
  | (Ok (Production ts _ _), _) => ts
  | _ => []
  end.

Definition values_of (r : result (output float) * list (call float))
  : list (num float) :=
  match r with
  | (Ok (Production _ vs _), _) => vs
  | _ => []
  end.

Definition total_of (r : result (output float) * list (call float)) : num float :=
  match r with
  | (Ok (Production _ _ total), _) => total
  | _ => PInt 0
  end.

(** The runs the scenarios below refer to, evaluated. *)
Definition morning_run :=
  Eval vm_compute in
    simulate partly_cloudy equator_leg "2024-06-21 10:00" ["on"%string].

Definition morning_run_flag_off :=
  Eval vm_compute in
    simulate partly_cloudy equator_leg "2024-06-21 10:00" [].

Definition overcast_run :=
  Eval vm_compute in
    simulate fully_overcast equator_leg "2024-06-21 10:00" ["on"%string].

Definition outage_run :=
  Eval vm_compute in
    simulate provider_down equator_leg "2024-06-21 10:00" ["on"%string].

Definition two_legs_run :=
  Eval vm_compute in
    simulate partly_cloudy two_legs "2024-06-21 06:00" ["on"%string].

Definition standstill_run :=
  Eval vm_compute in simulate provider_down standstill "2024-06-21 12:00" [].

Definition night_run :=
  Eval vm_compute in
    simulate partly_cloudy equator_leg "2024-06-21 22:00" ["on"%string].

Definition morning_samples : list (sample float) :=
  Eval vm_compute in
    match journey_samples (Externals0 := provider_down)
            equator_leg "2024-06-21 10:00" (PInt 20) with
    | Ok ss => ss
    | Raise _ => []
    end.

(** ** Further test doubles *)

(** A payload with an arbitrary entry for one date. *)
Definition payload_with (formatted_date : string) (entry : json float)
  : json float :=
  JDict [("properties",
          JDict [("parameter",
                  JDict [("CLOUD_AMT", JDict [(formatted_date, entry)])])])]%string.

(** The provider always answers with the table of 1 January 1999. *)
Definition stale_answer : response float :=
  {| status_code := 200;
     json_body := Some (payload_with "19990101" (JNum (PInt 40))) |}.

Definition stale_table : Externals float :=
  platform (fun _ _ _ => Response stale_answer).

(** The provider has the date, with a null for it. *)
Definition null_answer (formatted_date : string) : response float :=
  {| status_code := 200;
     json_body := Some (payload_with formatted_date JNull) |}.

Definition null_table : Externals float :=
  platform (fun _ _ formatted_date => Response (null_answer formatted_date)).

(** The connection breaks for one date; 40 % cloud on the others. *)
Definition breaks_on (bad : string) : Externals float :=
  platform (fun lat lon formatted_date =>
              if String.eqb formatted_date bad then ConnectionFailed
              else overcast (PInt 40) lat lon formatted_date).

Definition breaks_at_midnight : Externals float := breaks_on "20240622".

(** A feature collection whose only feature has no geometry. *)
Definition no_geometry : json float :=
  JDict [("type", JStr "FeatureCollection");
         ("features", JList [JDict [("type", JStr "Feature")]])]%string.

(** The equator leg followed by a second feature. *)
Definition two_features : json float :=
  JDict [("features",
          JList [JDict [("type", JStr "Feature");
                        ("geometry",
                         JDict [("type", JStr "LineString");
                                ("coordinates",
                                 JList [point 0 0; point 1 0])])];
                 JDict [("type", JStr "Feature");
                        ("geometry",
                         JDict [("type", JStr "Point");
                                ("coordinates", point 5 5)])]])]%string.

(** The equator leg with an altitude on its first position. *)
Definition with_altitude : json float :=
  line_string [JList [JNum (PInt 0); JNum (PInt 0); JNum (PInt 12)];
               point 1 0].

Definition night_samples : list (sample float) :=
  Eval vm_compute in
    match journey_samples (Externals0 := provider_down)
            equator_leg "2024-06-21 22:00" (PInt 20) with
    | Ok ss => ss
    | Raise _ => []
    end.

(** The first sample after midnight on the night run. *)
Definition midnight_sample : sample float :=
  {| s_time := 1719014400000000; s_lat := 0%float; s_lon := 0.375%float |}.

Definition two_legs_samples : list (sample float) :=
  Eval vm_compute in
    match journey_samples (Externals0 := provider_down)
            two_legs "2024-06-21 06:00" (PInt 20) with
    | Ok ss => ss
    | Raise _ => []
    end.

(** Four legs of one degree each: 22 hours and a quarter at 20 km/h. *)
Definition four_legs : json float :=
  line_string [point 0 0; point 1 0; point 2 0; point 3 0; point 4 0].

(** On 21 June 2024 the provider is down, on 22 June it reports 40 % cloud,
    and for any other date the connection breaks. *)
Definition outage_then_clouds : Externals float :=
  platform (fun lat lon formatted_date =>
              if String.eqb formatted_date "20240621"
              then unavailable lat lon formatted_date
              else if String.eqb formatted_date "20240622"
              then overcast (PInt 40) lat lon formatted_date
              else ConnectionFailed).

Definition overnight_samples : list (sample float) :=
  Eval vm_compute in
    match journey_samples (Externals0 := provider_down)
            four_legs "2024-06-21 10:00" (PInt 20) with
    | Ok ss => ss
    | Raise _ => []
    end.

(** A speed of some 23 mm/h, at which the one-degree leg takes
    4772186.333333333 hours. *)
Definition crawl : num float := PFloat 0x1.871cfd96c63fdp-16%float.

End Mock.

(** * Properties *)

(** ** The step count in binary64 *)

Lemma rne_ge n d k : 0 < d -> k * d <= n -> k <= rne n d.
Proof.
  intros Hd Hk. unfold rne.
  assert (k <= n / d) by (apply Z.div_le_lower_bound; lia).
  destruct (2 * (n mod d) <? d); [lia|].
  destruct (d <? 2 * (n mod d)); [lia|]. destruct (Z.even (n / d)); lia.
Qed.

Lemma rne_le n d k : 0 < d -> n <= k * d -> rne n d <= k.
Proof.
  intros Hd Hk. unfold rne.
  pose proof (Z.div_mod n d ltac:(lia)) as Hdm.
  pose proof (Z.mod_pos_bound n d Hd) as Hr.
  assert (Hq : n / d <= k) by (apply Z.div_le_upper_bound; lia).
  destruct (Z.ltb_spec (2 * (n mod d)) d); [lia|].
  assert (n / d < k) by nia.
  destruct (d <? 2 * (n mod d)); [lia|]. destruct (Z.even (n / d)); lia.
Qed.

Lemma rne_half n d : 0 < d -> 2 * d * rne n d <= 2 * n + d.
Proof.
  intros Hd. unfold rne.
  pose proof (Z.div_mod n d ltac:(lia)) as Hdm.
  pose proof (Z.mod_pos_bound n d Hd) as Hr.
  destruct (Z.ltb_spec (2 * (n mod d)) d); [nia|].
  destruct (Z.ltb_spec d (2 * (n mod d))); [nia|].
  destruct (Z.even (n / d)); nia.
Qed.

Lemma pow2_pos (k : Z) : 0 <= k -> 0 < 2 ^ k.
Proof. intros. apply Z.pow_pos_nonneg; lia. Qed.

Lemma flog2_spec n d :
  0 < n -> 0 < d ->
  let f := flog2 n d in
  (0 <= f -> d * 2 ^ f <= n ∧ n < d * 2 ^ (f + 1)) ∧
  (f < 0 -> d <= n * 2 ^ (- f) ∧ n * 2 ^ (- f) < 2 * d).
Proof.
  intros Hn Hd. cbv zeta. unfold flog2.
  destruct (Z.log2_spec n Hn) as [Ha1 Ha2].
  destruct (Z.log2_spec d Hd) as [Hb1 Hb2].
  pose proof (Z.log2_nonneg n) as Ha. pose proof (Z.log2_nonneg d) as Hb.
  set (a := Z.log2 n) in *. set (b := Z.log2 d) in *.
  unfold Z.succ in *.
  destruct (Z.leb_spec 0 (a - b)) as [Hl|Hl].
  - (* a = b + l *)
    assert (Hab : 2 ^ a = 2 ^ b * 2 ^ (a - b))
      by (rewrite <- Z.pow_add_r by lia; f_equal; lia).
    pose proof (pow2_pos (a - b) Hl) as Hp.
    pose proof (pow2_pos b Hb) as Hpb.
    destruct (Z.leb_spec (d * 2 ^ (a - b)) n) as [Ht|Ht].
    + split; [|lia]. intros _. split; [assumption|].
      replace (a - b + 1) with (Z.succ (a - b)) by lia.
      rewrite Z.pow_succ_r by lia.
      rewrite Z.pow_add_r in Ha2 by lia. rewrite Z.pow_1_r in Ha2. nia.
    + split.
      * intros Hf. replace (a - b - 1 + 1) with (a - b) by lia.
        split; [|assumption].
        assert (Hab' : 2 ^ (a - b) = 2 * 2 ^ (a - b - 1))
          by (rewrite <- Z.pow_succ_r by lia; f_equal; lia).
        rewrite Z.pow_add_r, Z.pow_1_r in Hb2 by lia. nia.
      * intros Hf. assert (a - b = 0) as Hz by lia. rewrite Hz in *.
        change (- (0 - 1)) with 1. rewrite Z.pow_1_r.
        rewrite Z.pow_0_r in *. rewrite Z.pow_add_r, Z.pow_1_r in Hb2 by lia.
        lia.
  - assert (Hba : 2 ^ b = 2 ^ a * 2 ^ (- (a - b)))
      by (rewrite <- Z.pow_add_r by lia; f_equal; lia).
    pose proof (pow2_pos (- (a - b)) ltac:(lia)) as Hp.
    pose proof (pow2_pos a Ha) as Hpa.
    rewrite Z.pow_add_r, Z.pow_1_r in Ha2, Hb2 by lia.
    destruct (Z.leb_spec d (n * 2 ^ (- (a - b)))) as [Ht|Ht].
    + split; [lia|]. intros _. split; [assumption|]. nia.
    + split; [lia|]. intros _.
      replace (- (a - b - 1)) with (Z.succ (- (a - b))) by lia.
      rewrite Z.pow_succ_r by lia. split; nia.
Qed.

(** The scaling of [round53]: the quotient is brought between 2^52 and
    2^53. *)
Lemma round53_scale n d :
  0 < n -> 0 < d -> n < 2 ^ 53 * d ->
  let s := 52 - flog2 n d in
  0 <= s ∧ 2 ^ 52 * d <= n * 2 ^ s ∧ n * 2 ^ s < 2 ^ 53 * d.
Proof.
  intros Hn Hd Hlt. cbv zeta.
  destruct (flog2_spec n d Hn Hd) as [Hpos Hneg]. cbv zeta in Hpos, Hneg.
  set (f := flog2 n d) in *.
  destruct (Z.le_gt_cases 0 f) as [Hf|Hf].
  - destruct (Hpos Hf) as [Hlo Hhi].
    assert (Hs : 0 <= 52 - f).
    { destruct (Z.le_gt_cases f 52) as [|Hbig]; [lia|]. exfalso.
      assert (2 ^ 53 <= 2 ^ f) by (apply Z.pow_le_mono_r; lia). nia. }
    split; [assumption|].
    assert (E1 : 2 ^ 52 = 2 ^ f * 2 ^ (52 - f))
      by (rewrite <- Z.pow_add_r by lia; f_equal; lia).
    assert (E2 : 2 ^ 53 = 2 ^ (f + 1) * 2 ^ (52 - f))
      by (rewrite <- Z.pow_add_r by lia; f_equal; lia).
    pose proof (pow2_pos (52 - f) Hs). rewrite E1, E2. split; nia.
  - destruct (Hneg Hf) as [Hlo Hhi].
    split; [lia|].
    assert (E : 2 ^ (52 - f) = 2 ^ 52 * 2 ^ (- f))
      by (rewrite <- Z.pow_add_r by lia; f_equal; lia).
    rewrite E. change (2 ^ 53) with (2 * 2 ^ 52).
    assert (0 < 2 ^ 52) by reflexivity. split; nia.
Qed.

(** [round53] on a quotient below 2^53: a mantissa between 2^52 and 2^53
    over a power of two. *)
Lemma round53_small n d :
  0 < n -> 0 < d -> n < 2 ^ 53 * d ->
  ∃ m s, round53 n d = (m, s) ∧ 0 <= s ∧ m = rne (n * 2 ^ s) d ∧
         2 ^ 52 <= m <= 2 ^ 53 ∧
         2 ^ 52 * d <= n * 2 ^ s.
Proof.
  intros Hn Hd Hlt. destruct (round53_scale n d Hn Hd Hlt) as (Hs & Hlo & Hhi).
  cbv zeta in *. unfold round53.
  destruct (Z.eqb_spec n 0) as [|_]; [lia|].
  destruct (Z.leb_spec 0 (52 - flog2 n d)) as [_|]; [|lia].
  eexists _, _. split; [reflexivity|]. split; [assumption|].
  split; [reflexivity|]. split; [|assumption]. split.
  - apply rne_ge; lia.
  - apply rne_le; lia.
Qed.

(** The quotient as the code computes it, on a duration that is not
    negative. *)
Lemma steps_unfold us :
  0 < us -> us < 2 ^ 53 * 1000000 ->
  ∃ m1 s1 m2 s2,
    steps_of_duration us = m2 / 2 ^ s2 ∧
    0 <= s1 ∧ 0 <= s2 ∧
    m1 = rne (us * 2 ^ s1) 1000000 ∧
    m2 = rne (m1 * 2 ^ s2) (600 * 2 ^ s1) ∧
    2 ^ 52 <= m1 <= 2 ^ 53 ∧
    2 ^ 52 * 1000000 <= us * 2 ^ s1 ∧
    2 ^ 52 * (600 * 2 ^ s1) <= m1 * 2 ^ s2.
Proof.
  intros Hpos Hlt.
  destruct (round53_small us 1000000 Hpos ltac:(lia) Hlt)
    as (m1 & s1 & E1 & Hs1 & Hm1 & Hr1 & Hlo1).
  pose proof (pow2_pos s1 Hs1) as Hp1.
  destruct (round53_small m1 (600 * 2 ^ s1)) as (m2 & s2 & E2 & Hs2 & Hm2 & Hr2 & Hlo2);
    [lia | lia | nia |].
  exists m1, s1, m2, s2.
  unfold steps_of_duration. rewrite Z.abs_eq, E1 by lia.
  unfold float_quotient. destruct (Z.leb_spec 0 s1) as [_|]; [|lia].
  rewrite E2. unfold float_trunc. destruct (Z.leb_spec 0 s2) as [_|]; [|lia].
  rewrite Z.sgn_pos by lia. rewrite Z.mul_1_l. auto 10.
Qed.

Lemma steps_of_duration_bounds us k :
  0 <= us -> us < 2 ^ 53 * 1000000 ->
  (k * 600000000 <= us -> k <= steps_of_duration us) ∧
  (us <= k * 600000000 -> steps_of_duration us <= k).
Proof.
  intros Hpos Hlt. destruct (Z.eq_dec us 0) as [->|Hne].
  { change (steps_of_duration 0) with 0. lia. }
  destruct (steps_unfold us ltac:(lia) Hlt)
    as (m1 & s1 & m2 & s2 & -> & Hs1 & Hs2 & Hm1 & Hm2 & _).
  pose proof (pow2_pos s1 Hs1) as Hp1. pose proof (pow2_pos s2 Hs2) as Hp2.
  split; intros Hk.
  - assert (H1 : 600 * k * 2 ^ s1 <= m1) by (subst m1; apply rne_ge; nia).
    assert (H2 : k * 2 ^ s2 <= m2) by (subst m2; apply rne_ge; nia).
    apply Z.div_le_lower_bound; lia.
  - assert (H1 : m1 <= 600 * k * 2 ^ s1) by (subst m1; apply rne_le; nia).
    assert (H2 : m2 <= k * 2 ^ s2) by (subst m2; apply rne_le; nia).
    apply Z.div_le_upper_bound; lia.
Qed.

(** Below 2^34 seconds the two roundings do not reach the next multiple of
    600: the quotient is the exact one, rounded down. *)
Lemma steps_of_duration_exact us :
  0 <= us -> us < 2 ^ 34 * 1000000 ->
  steps_of_duration us = us / 600000000.
Proof.
  intros Hpos Hlt.
  assert (Hlt' : us < 2 ^ 53 * 1000000) by lia.
  pose proof (Z.div_mod us 600000000 ltac:(lia)) as Hdm.
  pose proof (Z.mod_pos_bound us 600000000 ltac:(lia)) as Hr.
  set (k := us / 600000000) in *.
  apply Z.le_antisymm;
    [|apply (steps_of_duration_bounds us k Hpos Hlt'); lia].
  destruct (Z.eq_dec us 0) as [E|Hne].
  { subst us. change (steps_of_duration 0) with 0. subst k. reflexivity. }
  destruct (steps_unfold us ltac:(lia) Hlt')
    as (m1 & s1 & m2 & s2 & -> & Hs1 & Hs2 & Hm1 & Hm2 & Hr1 & Hlo1 & Hlo2).
  pose proof (pow2_pos s1 Hs1) as Hp1. pose proof (pow2_pos s2 Hs2) as Hp2.
  (* the first rounding stays below 600 (k + 1) *)
  assert (Hbig1 : 2 ^ 19 <= 2 ^ s1).
  { apply Z.pow_le_mono_r; [lia|].
    destruct (Z.le_gt_cases 19 s1) as [|Hsmall]; [assumption|]. exfalso.
    assert (2 ^ s1 <= 2 ^ 18) by (apply Z.pow_le_mono_r; lia). nia. }
  pose proof (rne_half (us * 2 ^ s1) 1000000 ltac:(lia)) as Hh1.
  rewrite <- Hm1 in Hh1.
  assert (H1 : m1 <= 600 * (k + 1) * 2 ^ s1 - 1) by nia.
  (* and so does the second *)
  assert (Hbig2 : 512 * 2 ^ s1 <= 2 ^ s2).
  { change 512 with (2 ^ 9). rewrite <- Z.pow_add_r by lia.
    apply Z.pow_le_mono_r; [lia|].
    destruct (Z.le_gt_cases (9 + s1) s2) as [|Hsmall]; [assumption|]. exfalso.
    assert (2 ^ s2 <= 2 ^ (8 + s1)) by (apply Z.pow_le_mono_r; lia).
    rewrite Z.pow_add_r in H by lia. change (2 ^ 8) with 256 in H. nia. }
  pose proof (rne_half (m1 * 2 ^ s2) (600 * 2 ^ s1) ltac:(lia)) as Hh2.
  rewrite <- Hm2 in Hh2.
  assert (H2 : m2 < (k + 1) * 2 ^ s2).
  { assert (m1 * 2 ^ s2 <= (600 * (k + 1) * 2 ^ s1 - 1) * 2 ^ s2) by nia.
    apply (Z.mul_lt_mono_pos_l (2 * (600 * 2 ^ s1))); [lia|]. nia. }
  assert (m2 / 2 ^ s2 < k + 1); [|lia].
  apply Z.div_lt_upper_bound; lia.
Qed.

Lemma steps_of_duration_opp us :
  steps_of_duration (- us) = - steps_of_duration us.
Proof.
  unfold steps_of_duration. rewrite Z.abs_opp, Z.sgn_opp. lia.
Qed.

(** The count of samples against the exact quotient: never less, at most
    one more. *)
Lemma num_steps_bounds us :
  timedelta_min <= us <= timedelta_max ->
  Z.max 2 (us / 600000000) <= Z.max 2 (steps_of_duration us)
  <= Z.max 2 (us / 600000000 + 1).
Proof.
  unfold timedelta_min, timedelta_max. intros Hrange.
  destruct (Z.le_gt_cases 0 us) as [Hpos|Hneg].
  - pose proof (Z.div_mod us 600000000 ltac:(lia)) as Hdm.
    pose proof (Z.mod_pos_bound us 600000000 ltac:(lia)) as Hr.
    assert (Hlt : us < 2 ^ 53 * 1000000) by lia.
    pose proof (steps_of_duration_bounds us (us / 600000000) Hpos Hlt) as [Hlo _].
    pose proof (steps_of_duration_bounds us (us / 600000000 + 1) Hpos Hlt) as [_ Hhi].
    lia.
  - assert (Hdiv : us / 600000000 < 0) by (apply Z.div_lt_upper_bound; lia).
    assert (Hlt : - us < 2 ^ 53 * 1000000) by lia.
    pose proof (steps_of_duration_bounds (- us) 0 ltac:(lia) Hlt) as [Hlo _].
    rewrite steps_of_duration_opp in Hlo. lia.
Qed.

Lemma num_steps_exact us :
  timedelta_min <= us -> us < 2 ^ 34 * 1000000 ->
  Z.max 2 (steps_of_duration us) = Z.max 2 (us / 600000000).
Proof.
  intros Hmin Hlt. destruct (Z.le_gt_cases 0 us) as [Hpos|Hneg].
  - rewrite steps_of_duration_exact by assumption. reflexivity.
  - pose proof (num_steps_bounds us) as Hb.
    assert (Hdiv : us / 600000000 < 0) by (apply Z.div_lt_upper_bound; lia).
    unfold timedelta_max in Hb. lia.
Qed.

(** ** The monads *)

Lemma rbind_Ok {A B : Type} (r : result A) (k : A -> result B) (b : B) :
  rbind r k = Ok b -> ∃ a, r = Ok a ∧ k a = Ok b.
Proof. destruct r as [a|e]; simpl; [eauto | discriminate]. Qed.

Section Monad.
Context {F : Type}.
Implicit Types log : list (call F).

Lemma bind_Ok {A B : Type} (m : M F A) (k : A -> M F B) log (b : B) log' :
  bind m k log = (Ok b, log') ->
  ∃ a log1, m log = (Ok a, log1) ∧ k a log1 = (Ok b, log').
Proof.
  unfold bind. destruct (m log) as [[a|e] log1]; [eauto | discriminate].
Qed.

Lemma lift_Ok {A : Type} (r : result A) log (a : A) log' :
  @lift F A r log = (Ok a, log') -> r = Ok a ∧ log' = log.
Proof. unfold lift. intros [= -> ->]. auto. Qed.

Lemma ret_Ok {A : Type} (x : A) log (a : A) log' :
  @ret F A x log = (Ok a, log') -> a = x ∧ log' = log.
Proof. unfold ret. intros [= -> ->]. auto. Qed.

Lemma foldM_app {A S : Type} (f : S -> A -> M F S) (l1 l2 : list A) (s : S) log :
  foldM f (l1 ++ l2) s log =
  match foldM f l1 s log with
  | (Ok s', log') => foldM f l2 s' log'
  | (Raise e, log') => (Raise e, log')
  end.
Proof.
  revert s log. induction l1 as [|a l1 IH]; intros s log; simpl; [reflexivity|].
  unfold bind. destruct (f s a log) as [[s'|e] log1]; [apply IH | reflexivity].
Qed.

End Monad.

(** Inversion of a successful computation, one binding at a time. *)
Ltac inv_ok :=
  repeat match goal with
  | H : bind _ _ _ = (Ok _, _) |- _ =>
      let a := fresh "x" in let l := fresh "log" in
      let H1 := fresh H in let H2 := fresh H in
      apply bind_Ok in H; destruct H as (a & l & H1 & H2)
  | H : lift _ _ = (Ok _, _) |- _ =>
      let H1 := fresh H in apply lift_Ok in H; destruct H as [H1 ->]
  | H : ret _ _ = (Ok _, _) |- _ =>
      let H1 := fresh H in
      apply ret_Ok in H; destruct H as [H1 ->];
      first [injection H1; intros; subst | subst]
  | H : rbind _ _ = Ok _ |- _ =>
      let a := fresh "x" in
      let H1 := fresh H in let H2 := fresh H in
      apply rbind_Ok in H; destruct H as (a & H1 & H2)
  | H : Ok _ = Ok _ |- _ => injection H as H; try subst
  end.

Section Facts.
Context {F : Type} `{!FloatOps F} `{!Externals F}.
Implicit Types (log : list (call F)) (a : accum F) (p : sample F)
  (ss : list (sample F)) (cache : gmap string (num F)).

(** ** One sample *)

Lemma fetch_cloud_cover_Ok p log v log' :
  fetch_cloud_cover (s_lat p) (s_lon p) (sample_date p) log = (Ok v, log') ->
  fetched p = Some v ∧ log' = log ++ [call_of p].
Proof.
  unfold fetch_cloud_cover, fetched, call_of.
  destruct (requests_get _ _ _); [discriminate|].
  intros [= <- <-]. auto.
Qed.

Lemma fetch_cloud_cover_fetched p log v :
  fetched p = Some v ->
  fetch_cloud_cover (s_lat p) (s_lon p) (sample_date p) log
  = (Ok v, log ++ [call_of p]).
Proof.
  unfold fetch_cloud_cover, fetched, call_of.
  destruct (requests_get _ _ _); [discriminate|].
  intros [= <-]. reflexivity.
Qed.

Lemma evaluate_sample_Ok area kw apply a p log a' log' :
  evaluate_sample area kw apply a p log = (Ok a', log') ->
  ∃ cache' att,
    attenuation_of apply cache' (sample_date p) = Ok att ∧
    a' = record_sample area kw att cache' a p ∧
    match cloud_cover_cache a !! sample_date p with
    | Some _ => cache' = cloud_cover_cache a ∧ log' = log
    | None => ∃ v, fetched p = Some v ∧
                   cache' = <[sample_date p := v]> (cloud_cover_cache a) ∧
                   log' = log ++ [call_of p]
    end.
Proof.
  unfold evaluate_sample. intros H.
  destruct (cloud_cover_cache a !! sample_date p) as [v0|] eqn:Hc; inv_ok.
  - exists (cloud_cover_cache a), x0. auto.
  - apply fetch_cloud_cover_Ok in H1 as [Hf ->].
    exists (<[sample_date p := x1]> (cloud_cover_cache a)), x0. eauto 6.
Qed.

(** ** A stream of samples *)

Lemma first_sample_cons d p ss :
  first_sample d (p :: ss) =
  if String.eqb (sample_date p) d then Some p else first_sample d ss.
Proof. reflexivity. Qed.

Lemma factor_of_nil cache d : factor_of cache [] d = cache !! d.
Proof. unfold factor_of. destruct (cache !! d); reflexivity. Qed.

Lemma factor_of_cons_hit cache p ss d :
  is_Some (cache !! sample_date p) ->
  factor_of cache (p :: ss) d = factor_of cache ss d.
Proof.
  intros [v Hv]. unfold factor_of. destruct (cache !! d) eqn:Hd; [reflexivity|].
  rewrite first_sample_cons.
  destruct (String.eqb_spec (sample_date p) d) as [Heq|]; [congruence | reflexivity].
Qed.

Lemma factor_of_cons_miss cache p ss d v :
  cache !! sample_date p = None -> fetched p = Some v ->
  factor_of cache (p :: ss) d = factor_of (<[sample_date p := v]> cache) ss d.
Proof.
  intros Hc Hf. unfold factor_of. rewrite first_sample_cons.
  destruct (String.eqb_spec (sample_date p) d) as [Heq|Hne].
  - subst d. rewrite Hc, lookup_insert_eq. simpl. assumption.
  - rewrite lookup_insert_ne by assumption. reflexivity.
Qed.

Lemma factor_of_Some cache ss d v :
  cache !! d = Some v -> factor_of cache ss d = Some v.
Proof. unfold factor_of. intros ->. reflexivity. Qed.

(** What the loop over a stream of samples leaves behind: the cache, the
    two columns, the total and the log of provider calls. *)
Lemma evaluate_all_Ok area kw apply ss : ∀ a log a' log',
  foldM (evaluate_sample area kw apply) ss a log = (Ok a', log') ->
  let power := fun p =>
    segment_production area kw
      (cache_attenuation apply (cloud_cover_cache a') p) p in
  (∀ d, cloud_cover_cache a' !! d = factor_of (cloud_cover_cache a) ss d) ∧
  times a' = times a ++ map s_time (List.filter daylight ss) ∧
  production_values a' =
    production_values a ++ map power (List.filter daylight ss) ∧
  total_production a' =
    fold_left add_energy (map power (List.filter daylight ss))
      (total_production a) ∧
  log' = log ++ map call_of (first_seen (dom (cloud_cover_cache a)) ss).
Proof.
  induction ss as [|p ss IH]; intros a log a' log' H; simpl in H.
  - apply ret_Ok in H as [-> ->]. simpl.
    repeat split; rewrite ?app_nil_r; auto using factor_of_nil.
  - apply bind_Ok in H as (a1 & log1 & Hp & Hss).
    apply evaluate_sample_Ok in Hp as (cache' & att & Hatt & -> & Hlook).
    specialize (IH _ _ _ _ Hss). cbv zeta in IH.
    destruct IH as (Hcache & Htimes & Hvalues & Htotal & Hlog).
    assert (Hc1 : cloud_cover_cache (record_sample area kw att cache' a p) = cache')
      by (unfold record_sample; destruct (fgt _ _); reflexivity).
    rewrite Hc1 in Hcache, Hlog.
    (* the attenuation of [p] is the one the final cache gives *)
    assert (Hfinal : cache_attenuation apply (cloud_cover_cache a') p = att).
    { unfold cache_attenuation, attenuation_of in *. destruct apply; [|congruence].
      destruct (cache' !! sample_date p) as [v|] eqn:Hv; [|discriminate].
      rewrite Hcache, (factor_of_Some _ _ _ _ Hv). congruence. }
    (* the cache and the log *)
    assert (Hfactor : ∀ d, factor_of cache' ss d
                           = factor_of (cloud_cover_cache a) (p :: ss) d).
    { intros d. destruct (cloud_cover_cache a !! sample_date p) as [v0|] eqn:Hc.
      - destruct Hlook as [-> _]. symmetry. apply factor_of_cons_hit. eauto.
      - destruct Hlook as (v & Hf & -> & _). symmetry.
        apply factor_of_cons_miss; assumption. }
    assert (Hfirst : log1 ++ map call_of (first_seen (dom cache') ss)
                     = log ++ map call_of
                         (first_seen (dom (cloud_cover_cache a)) (p :: ss))).
    { simpl. destruct (cloud_cover_cache a !! sample_date p) as [v0|] eqn:Hc.
      - destruct Hlook as [-> ->].
        rewrite decide_True by (apply elem_of_dom; eauto). reflexivity.
      - destruct Hlook as (v & Hf & -> & ->).
        rewrite decide_False by (rewrite elem_of_dom, Hc; intros [? [=]]).
        rewrite dom_insert_L. simpl. rewrite <- app_assoc. reflexivity. }
    cbv zeta. split; [intros d; rewrite Hcache; apply Hfactor|].
    rewrite Htimes, Hvalues, Htotal, Hlog, Hfirst.
    unfold record_sample, daylight. simpl.
    destruct (fgt (solar_altitude p) (of_Z 0)); simpl;
      rewrite ?Hfinal, <- ?app_assoc; auto.
Qed.

(** ** The two loops, flattened *)

Lemma lookup_map_seq {A : Type} (f : nat -> A) (n : nat) : ∀ (i j : nat),
  (j < n)%nat -> map f (seq i n) !! j = Some (f (i + j)%nat).
Proof.
  induction n as [|n IH]; intros i j Hj; [lia|].
  destruct j as [|j]; simpl.
  - rewrite Nat.add_0_r. reflexivity.
  - rewrite IH by lia. f_equal. f_equal. lia.
Qed.

Lemma mapR_Ok_map {A B : Type} (f : A -> result B) (h : A -> B) (l : list A) :
  (∀ x y, f x = Ok y -> y = h x) ->
  ∀ l', mapR f l = Ok l' -> l' = map h l.
Proof.
  intros Hf. induction l as [|x l IH]; intros l' H; simpl in H.
  - injection H as <-. reflexivity.
  - apply rbind_Ok in H as (b & Hb & H).
    apply rbind_Ok in H as (bs & Hbs & [= <-]).
    simpl. rewrite (Hf _ _ Hb), (IH _ Hbs). reflexivity.
Qed.

Lemma mapR_Ok_all {A B : Type} (f : A -> result B) (h : A -> B) (l : list A) :
  (∀ x, In x l -> f x = Ok (h x)) -> mapR f l = Ok (map h l).
Proof.
  induction l as [|x l IH]; intros Hf; simpl; [reflexivity|].
  rewrite (Hf x) by (by left). cbn [rbind].
  rewrite IH by (intros; apply Hf; by right). reflexivity.
Qed.

Lemma datetime_add_Ok (t d t' : Z) :
  datetime_add t d = Ok t' ->
  t' = t + d ∧ datetime_min <= t + d <= datetime_max.
Proof.
  unfold datetime_add.
  destruct (Z.leb_spec datetime_min (t + d)); [|discriminate].
  destruct (Z.leb_spec (t + d) datetime_max); [|discriminate].
  intros [= <-]. auto.
Qed.

Lemma datetime_add_in_range (t d : Z) :
  datetime_min <= t + d <= datetime_max -> datetime_add t d = Ok (t + d).
Proof.
  intros [Hlo Hhi]. unfold datetime_add.
  apply Z.leb_le in Hlo, Hhi. rewrite Hlo, Hhi. reflexivity.
Qed.

Lemma checked_timedelta_Ok (d : option Z) (us : Z) :
  checked_timedelta d = Ok us ->
  d = Some us ∧ timedelta_min <= us <= timedelta_max.
Proof.
  unfold checked_timedelta. destruct d as [x|]; [|discriminate].
  destruct (Z.leb_spec timedelta_min x); [|discriminate].
  destruct (Z.leb_spec x timedelta_max); [|discriminate].
  intros [= <-]. auto.
Qed.

Lemma plan_segment_Ok speed start end_ now g :
  plan_segment speed start end_ now = Ok g ->
  seg_start g = now ∧
  num_steps g = Z.max 2 (steps_of_duration (segment_duration g)) ∧
  times_segment g
  = map (fun j : nat => now + ten_minutes * Z.of_nat j)
        (seq 0 (Z.to_nat (num_steps g))).
Proof.
  unfold plan_segment. intros H.
  apply rbind_Ok in H as (lat1 & _ & H).
  apply rbind_Ok in H as (lon1 & _ & H).
  apply rbind_Ok in H as (lat2 & _ & H).
  apply rbind_Ok in H as (lon2 & _ & H).
  apply rbind_Ok in H as (distance & _ & H).
  apply rbind_Ok in H as (hours & _ & H).
  apply rbind_Ok in H as (duration & _ & H).
  apply rbind_Ok in H as (stamps & Hstamps & H).
  apply rbind_Ok in H as (next_time & _ & [= <-]). simpl.
  repeat split.
  apply (mapR_Ok_map _ _ _ (fun j t Ht => proj1 (datetime_add_Ok _ _ _ Ht)) _ Hstamps).
Qed.

(** A segment that is planned fits the ranges of [timedelta] and
    [datetime]: its duration, its timestamps and the clock after it. *)
Lemma plan_segment_range speed start end_ now g :
  plan_segment speed start end_ now = Ok g ->
  timedelta_min <= segment_duration g <= timedelta_max ∧
  datetime_min <= now + segment_duration g <= datetime_max ∧
  ∀ j : nat, (j < Z.to_nat (num_steps g))%nat ->
    datetime_min <= now + ten_minutes * Z.of_nat j <= datetime_max.
Proof.
  unfold plan_segment. intros H.
  apply rbind_Ok in H as (lat1 & _ & H).
  apply rbind_Ok in H as (lon1 & _ & H).
  apply rbind_Ok in H as (lat2 & _ & H).
  apply rbind_Ok in H as (lon2 & _ & H).
  apply rbind_Ok in H as (distance & _ & H).
  apply rbind_Ok in H as (hours & _ & H).
  apply rbind_Ok in H as (duration & Hdur & H).
  apply rbind_Ok in H as (stamps & Hstamps & H).
  apply rbind_Ok in H as (next_time & Hnext & [= <-]). simpl.
  apply checked_timedelta_Ok in Hdur as [_ Hdur].
  apply datetime_add_Ok in Hnext as [_ Hnext].
  split; [assumption|]. split; [assumption|].
  intros j Hj.
  assert (Hin : In j (seq 0 (Z.to_nat (Z.max 2 (steps_of_duration duration)))))
    by (apply in_seq; lia).
  clear Hj. revert stamps Hstamps Hin.
  generalize (seq 0 (Z.to_nat (Z.max 2 (steps_of_duration duration)))).
  intros js. induction js as [|i js IH]; intros stamps Hstamps Hin; [destruct Hin|].
  simpl in Hstamps.
  apply rbind_Ok in Hstamps as (t & Ht & Hstamps).
  apply rbind_Ok in Hstamps as (ts & Hts & _).
  destruct Hin as [->|Hin]; [|exact (IH _ Hts Hin)].
  apply datetime_add_Ok in Ht as [_ Ht]. exact Ht.
Qed.

Lemma sample_step_lookup area kw apply g a (j : nat) t log :
  times_segment g !! j = Some t ->
  sample_step area kw apply g a j log
  = evaluate_sample area kw apply a
      {| s_time := t; s_lat := lats g j; s_lon := lons g j |} log.
Proof.
  intros Ht. unfold sample_step, bind at 1, lift, list_index.
  rewrite Ht. reflexivity.
Qed.

Lemma sample_steps_flat area kw apply g (js : list nat) : ∀ a log,
  (∀ j, In j js ->
        times_segment g !! j = Some (seg_start g + ten_minutes * Z.of_nat j)) ->
  foldM (sample_step area kw apply g) js a log
  = foldM (evaluate_sample area kw apply)
      (map (fun j : nat =>
              {| s_time := seg_start g + ten_minutes * Z.of_nat j;
                 s_lat := lats g j;
                 s_lon := lons g j |}) js) a log.
Proof.
  induction js as [|j js IH]; intros a log Hjs; simpl; [reflexivity|].
  unfold bind.
  rewrite (sample_step_lookup _ _ _ _ _ _ _ _ (Hjs j (or_introl eq_refl))).
  destruct (evaluate_sample _ _ _ _ _ _) as [[a1|e] log1]; [|reflexivity].
  apply IH. intros; apply Hjs; right; assumption.
Qed.

Lemma sample_loop_flat area kw apply speed start end_ now g a log :
  plan_segment speed start end_ now = Ok g ->
  foldM (sample_step area kw apply g) (seq 0 (Z.to_nat (num_steps g))) a log
  = foldM (evaluate_sample area kw apply) (segment_samples g) a log.
Proof.
  intros Hg. apply plan_segment_Ok in Hg as (Hstart & _ & Htimes).
  apply sample_steps_flat. intros j Hj. apply in_seq in Hj.
  rewrite Htimes, lookup_map_seq by lia. rewrite Hstart. reflexivity.
Qed.

Lemma route_plan_cons speed (start end_ : json F * json F) rest now :
  route_plan speed (start :: end_ :: rest) now
  = (do g <- plan_segment speed start end_ now;
     do gs <- route_plan speed (end_ :: rest) (now + segment_duration g);
     Ok (g :: gs)).
Proof. reflexivity. Qed.

Lemma route_loop_cons area kw speed apply (start end_ : json F * json F)
  rest now a :
  route_loop area kw speed apply (start :: end_ :: rest) now a
  = bind (segment_step area kw speed apply start end_ now a)
      (fun '(now', a') => route_loop area kw speed apply (end_ :: rest) now' a').
Proof. reflexivity. Qed.

Lemma route_loop_flat area kw speed apply (ps : list (json F * json F)) :
  ∀ now a log gs,
  route_plan speed ps now = Ok gs ->
  route_loop area kw speed apply ps now a log
  = foldM (evaluate_sample area kw apply) (plan_samples gs) a log.
Proof.
  induction ps as [|start ps IH]; intros now a log gs Hgs.
  - injection Hgs as <-. reflexivity.
  - destruct ps as [|end_ rest].
    + injection Hgs as <-. reflexivity.
    + rewrite route_plan_cons in Hgs. inv_ok.
      rewrite route_loop_cons. unfold bind at 1. unfold segment_step.
      unfold bind at 1, lift. rewrite Hgs0. unfold bind at 1.
      rewrite (sample_loop_flat _ _ _ _ _ _ _ _ _ _ Hgs0).
      unfold plan_samples. cbn [map concat]. rewrite foldM_app.
      destruct (foldM _ (segment_samples x) a log) as [[a1|e] log1];
        [|reflexivity].
      unfold ret. apply IH. assumption.
Qed.

Lemma route_loop_plan area kw speed apply (ps : list (json F * json F)) :
  ∀ now a log a' log',
  route_loop area kw speed apply ps now a log = (Ok a', log') ->
  ∃ gs, route_plan speed ps now = Ok gs.
Proof.
  induction ps as [|start ps IH]; intros now a log a' log' H.
  - exists []. reflexivity.
  - destruct ps as [|end_ rest]; [exists []; reflexivity|].
    rewrite route_loop_cons in H.
    apply bind_Ok in H as ([now1 a1] & log1 & Hseg & Hrest).
    unfold segment_step in Hseg. inv_ok.
    destruct (IH _ _ _ _ _ Hrest) as [gs Hgs].
    exists (x :: gs). rewrite route_plan_cons, Hseg1. cbn [rbind].
    rewrite Hgs. reflexivity.
Qed.

Lemma route_loop_Ok area kw speed apply (ps : list (json F * json F))
  now a log a' log' :
  route_loop area kw speed apply ps now a log = (Ok a', log') ->
  ∃ gs, route_plan speed ps now = Ok gs ∧
        foldM (evaluate_sample area kw apply) (plan_samples gs) a log
        = (Ok a', log').
Proof.
  intros H. destruct (route_loop_plan _ _ _ _ _ _ _ _ _ _ H) as [gs Hgs].
  exists gs. split; [assumption|].
  rewrite <- (route_loop_flat area kw speed apply ps now a log gs Hgs).
  assumption.
Qed.

(** ** A whole run *)

Lemma update_solar_production_Ok geojson area kw start_date speed toggle
  log out log' :
  update_solar_production geojson area kw start_date speed toggle log
  = (Ok out, log') ->
  (no_route geojson = Ok true ∧ out = InvalidRoute ∧ log' = log) ∨
  (no_route geojson = Ok false ∧
   ∃ gs a',
     journey_plan geojson start_date speed = Ok gs ∧
     foldM (evaluate_sample area kw (cloud_enabled toggle)) (plan_samples gs)
       empty_accum log = (Ok a', log') ∧
     out = Production (times a') (production_values a') (total_production a')).
Proof.
  unfold update_solar_production. intros H.
  apply bind_Ok in H as (refused & log1 & Hguard & H).
  apply lift_Ok in Hguard as [Hguard ->].
  destruct refused.
  - apply ret_Ok in H as [-> ->]. left. auto.
  - right. split; [assumption|].
    apply bind_Ok in H as (coordinates & log1 & Hcoord & H).
    apply lift_Ok in Hcoord as [Hcoord ->].
    apply bind_Ok in H as (ps & log1 & Hps & H).
    apply lift_Ok in Hps as [Hps ->].
    apply bind_Ok in H as (now & log1 & Hnow & H).
    apply lift_Ok in Hnow as [Hnow ->].
    apply bind_Ok in H as (a' & log1 & Hloop & H).
    apply ret_Ok in H as [-> ->].
    apply route_loop_Ok in Hloop as (gs & Hgs & Hfold).
    exists gs, a'. repeat split; [|assumption].
    unfold journey_plan, journey_positions. rewrite Hcoord. cbn [rbind].
    rewrite Hps. cbn [rbind]. rewrite Hnow. assumption.
Qed.

Lemma evaluate_all_cached area kw apply ss : ∀ a log a' log' p,
  foldM (evaluate_sample area kw apply) ss a log = (Ok a', log') ->
  p ∈ ss -> is_Some (cloud_cover_cache a' !! sample_date p).
Proof.
  induction ss as [|q ss IH]; intros a log a' log' p H Hp.
  - apply elem_of_nil in Hp as [].
  - simpl in H. apply bind_Ok in H as (a1 & log1 & Hq & Hss).
    apply elem_of_cons in Hp as [->|Hp]; [|eauto].
    apply evaluate_sample_Ok in Hq as (cache' & att & _ & -> & Hlook).
    apply evaluate_all_Ok in Hss as (Hcache & _). rewrite Hcache.
    assert (Hc1 : cloud_cover_cache (record_sample area kw att cache' a q) = cache')
      by (unfold record_sample; destruct (fgt _ _); reflexivity).
    rewrite Hc1. clear Hcache Hc1.
    destruct (cloud_cover_cache a !! sample_date q) as [v0|] eqn:Hc.
    + destruct Hlook as [-> _]. erewrite factor_of_Some; eauto.
    + destruct Hlook as (v & _ & -> & _).
      erewrite factor_of_Some; [eauto | apply lookup_insert_eq].
Qed.

(** The attenuation read off the final cache of a run is the one of the
    pipeline. *)
Lemma cache_attenuation_final apply cache ss p :
  (∀ d, cache !! d = factor_of ∅ ss d) ->
  cache_attenuation apply cache p = attenuation apply ss p.
Proof.
  intros Hcache. unfold cache_attenuation, attenuation, attenuation_of.
  destruct apply; [|reflexivity]. rewrite Hcache.
  destruct (factor_of ∅ ss (sample_date p)); reflexivity.
Qed.

Lemma journey_samples_plan geojson start_date speed gs :
  journey_plan geojson start_date speed = Ok gs ->
  journey_samples geojson start_date speed = Ok (plan_samples gs).
Proof. unfold journey_samples. intros ->. reflexivity. Qed.

Lemma run_pipeline geojson area kw start_date speed toggle ts vs total log :
  update_solar_production geojson area kw start_date speed toggle []
  = (Ok (Production ts vs total), log) ->
  ∃ gs,
    journey_plan geojson start_date speed = Ok gs ∧
    ts = map s_time (List.filter daylight (plan_samples gs)) ∧
    vs = map (fun p => segment_production area kw
                         (attenuation (cloud_enabled toggle) (plan_samples gs) p) p)
             (List.filter daylight (plan_samples gs)) ∧
    total = energy vs ∧
    log = map call_of (first_seen ∅ (plan_samples gs)) ∧
    ∀ p, p ∈ plan_samples gs ->
         ∃ q v, first_sample (sample_date p) (plan_samples gs) = Some q ∧
                fetched q = Some v.
Proof.
  intros H. apply update_solar_production_Ok in H as [(_ & [=] & _)|(_ & H)].
  destruct H as (gs & a' & Hplan & Hfold & [= -> -> ->]).
  exists gs. split; [assumption|].
  pose proof (evaluate_all_Ok _ _ _ _ _ _ _ _ Hfold) as Hall. cbv zeta in Hall.
  destruct Hall as (Hcache & Htimes & Hvalues & Htotal & Hlog).
  change (cloud_cover_cache empty_accum) with (∅ : gmap string (num F)) in *.
  assert (Hpow : map (fun p => segment_production area kw
                     (cache_attenuation (cloud_enabled toggle)
                        (cloud_cover_cache a') p) p)
                   (List.filter daylight (plan_samples gs))
               = map (fun p => segment_production area kw
                     (attenuation (cloud_enabled toggle) (plan_samples gs) p) p)
                   (List.filter daylight (plan_samples gs))).
  { apply map_ext. intros p. f_equal. apply cache_attenuation_final, Hcache. }
  rewrite Hpow in Hvalues, Htotal. simpl in Htimes, Hvalues, Htotal, Hlog.
  rewrite dom_empty_L in Hlog.
  repeat split; try assumption.
  - rewrite Htotal, Hvalues. reflexivity.
  - intros p Hp.
    destruct (evaluate_all_cached _ _ _ _ _ _ _ _ p Hfold Hp) as [v Hv].
    rewrite Hcache in Hv. unfold factor_of in Hv. rewrite lookup_empty in Hv.
    destruct (first_sample (sample_date p) (plan_samples gs)) as [q|];
      [|discriminate].
    exists q, v. auto.
Qed.

(** ** The samples that cost a provider call *)

Lemma first_seen_first seen ss : ∀ q,
  q ∈ first_seen seen ss ->
  (sample_date q ∉ seen) ∧ q ∈ ss ∧ first_sample (sample_date q) ss = Some q.
Proof.
  revert seen. induction ss as [|p ss IH]; intros seen q Hq; simpl in Hq.
  - apply elem_of_nil in Hq as [].
  - rewrite first_sample_cons. destruct (decide (sample_date p ∈ seen)) as [Hin|Hout].
    + destruct (IH _ _ Hq) as (Hq1 & Hq2 & Hq3).
      repeat split; [assumption | by right |].
      destruct (String.eqb_spec (sample_date p) (sample_date q)) as [Heq|];
        [congruence | assumption].
    + apply elem_of_cons in Hq as [->|Hq].
      * rewrite String.eqb_refl. repeat split; [assumption | by left].
      * destruct (IH _ _ Hq) as (Hq1 & Hq2 & Hq3).
        repeat split;
          [intros ?; apply Hq1, elem_of_union; by right | by right |].
        destruct (String.eqb_spec (sample_date p) (sample_date q)) as [Heq|];
          [|assumption].
        exfalso. apply Hq1, elem_of_union. left. by apply elem_of_singleton.
Qed.

Lemma first_seen_NoDup seen ss :
  NoDup (map sample_date (first_seen seen ss)).
Proof.
  revert seen. induction ss as [|p ss IH]; intros seen; simpl.
  - constructor.
  - destruct (decide (sample_date p ∈ seen)); [apply IH|].
    simpl. constructor; [|apply IH].
    intros Hin.
    change (map sample_date ?l) with (sample_date <$> l) in Hin.
    apply list_elem_of_fmap in Hin as (q & Heq & Hq).
    apply first_seen_first in Hq as (Hq & _). rewrite <- Heq in Hq.
    apply Hq, elem_of_union. left. by apply elem_of_singleton.
Qed.

(** The lookups of a stream are all answered when every sample of it would
    be: a test that can be run. *)
Lemma answered_stream (ss : list (sample F)) :
  forallb (fun q => match fetched q with Some _ => true | None => false end) ss
  = true ->
  ∀ q, q ∈ first_seen ∅ ss ->
       ∃ r, requests_get (s_lat q) (s_lon q) (remove_char "-" (sample_date q))
            = Response r.
Proof.
  intros Hall q Hq. apply first_seen_first in Hq as (_ & Hq & _).
  rewrite forallb_forall in Hall. apply list_elem_of_In, Hall in Hq.
  unfold fetched in Hq.
  destruct (requests_get _ _ _) as [|r]; [discriminate | eauto].
Qed.
(** Every date of the stream not seen before gets its call. *)
Lemma first_seen_covers seen ss : ∀ p,
  p ∈ ss -> sample_date p ∉ seen ->
  ∃ q, q ∈ first_seen seen ss ∧ sample_date q = sample_date p.
Proof.
  revert seen. induction ss as [|p0 ss IH]; intros seen p Hp Hout; simpl.
  - apply elem_of_nil in Hp as [].
  - destruct (decide (sample_date p0 ∈ seen)) as [Hin0|Hout0].
    + apply elem_of_cons in Hp as [->|Hp]; [contradiction | eauto].
    + destruct (decide (sample_date p0 = sample_date p)) as [Heq|Hne].
      * exists p0. split; [by left | assumption].
      * apply elem_of_cons in Hp as [->|Hp]; [congruence|].
        destruct (IH ({[sample_date p0]} ∪ seen) p Hp) as (q & Hq & Hd).
        { intros [Hx%elem_of_singleton|Hx]%elem_of_union;
            [congruence | contradiction]. }
        exists q. split; [by right | assumption].
Qed.

(** ** Segments and the clock *)

Lemma plan_segment_inv speed start end_ now g :
  plan_segment speed start end_ now = Ok g ->
  ∃ lat1 lon1 lat2 lon2 distance,
    as_float (fst start) = Ok lat1 ∧ as_float (snd start) = Ok lon1 ∧
    as_float (fst end_) = Ok lat2 ∧ as_float (snd end_) = Ok lon2 ∧
    geodesic_km lat1 lon1 lat2 lon2 = Some distance ∧
    num_is_zero speed = false ∧
    timedelta_hours (fdiv distance (to_float speed))
    = Some (segment_duration g) ∧
    lats g = np_linspace lat1 lat2 (num_steps g) ∧
    lons g = np_linspace lon1 lon2 (num_steps g).
Proof.
  unfold plan_segment. intros H.
  apply rbind_Ok in H as (lat1 & Hlat1 & H).
  apply rbind_Ok in H as (lon1 & Hlon1 & H).
  apply rbind_Ok in H as (lat2 & Hlat2 & H).
  apply rbind_Ok in H as (lon2 & Hlon2 & H).
  apply rbind_Ok in H as (distance & Hdist & H).
  apply rbind_Ok in H as (hours & Hhours & H).
  apply rbind_Ok in H as (duration & Hdur & H).
  apply rbind_Ok in H as (stamps & _ & H).
  apply rbind_Ok in H as (next_time & _ & H).
  injection H as <-. simpl.
  exists lat1, lon1, lat2, lon2, distance.
  destruct (geodesic_km lat1 lon1 lat2 lon2) as [d|]; [|discriminate].
  injection Hdist as ->.
  unfold py_truediv in Hhours.
  destruct (num_is_zero speed); [discriminate|].
  assert (Hh : hours = PFloat (fdiv distance (to_float speed)))
    by (destruct speed; injection Hhours as <-; reflexivity).
  subst hours. simpl in Hdur.
  apply checked_timedelta_Ok in Hdur as [Hdur _].
  repeat split; auto.
Qed.

Lemma segment_samples_length (g : segment F) :
  length (segment_samples g) = Z.to_nat (num_steps g).
Proof. unfold segment_samples. rewrite length_map, length_seq. reflexivity. Qed.

Lemma segment_samples_lookup (g : segment F) (j : nat) :
  (j < Z.to_nat (num_steps g))%nat ->
  segment_samples g !! j
  = Some {| s_time := seg_start g + ten_minutes * Z.of_nat j;
            s_lat := lats g j;
            s_lon := lons g j |}.
Proof.
  intros Hj. unfold segment_samples.
  rewrite (lookup_map_seq _ _ 0%nat j Hj). reflexivity.
Qed.

Lemma segment_step_flat area kw speed apply start end_ now g a log :
  plan_segment speed start end_ now = Ok g ->
  segment_step area kw speed apply start end_ now a log
  = match foldM (evaluate_sample area kw apply) (segment_samples g) a log with
    | (Ok a', log') => (Ok (now + segment_duration g, a'), log')
    | (Raise e, log') => (Raise e, log')
    end.
Proof.
  intros Hg. unfold segment_step, bind at 1, lift. rewrite Hg.
  unfold bind. rewrite (sample_loop_flat _ _ _ _ _ _ _ _ _ _ Hg).
  destruct (foldM _ _ _ _) as [[a'|e] log']; reflexivity.
Qed.

Lemma route_plan_chain speed (ps : list (json F * json F)) : ∀ now gs,
  route_plan speed ps now = Ok gs ->
  clock_chain now gs ∧
  Forall (fun g => ∃ start end_ t, plan_segment speed start end_ t = Ok g) gs.
Proof.
  induction ps as [|start ps IH]; intros now gs Hgs.
  - injection Hgs as <-. simpl. auto.
  - destruct ps as [|end_ rest]; [injection Hgs as <-; simpl; auto|].
    rewrite route_plan_cons in Hgs.
    apply rbind_Ok in Hgs as (g & Hg & Hgs).
    apply rbind_Ok in Hgs as (gs' & Hgs' & [= <-]).
    destruct (IH _ _ Hgs') as [Hchain Hall].
    split.
    + simpl. split; [apply (plan_segment_Ok _ _ _ _ _ Hg) | exact Hchain].
    + constructor; eauto.
Qed.

Lemma route_plan_length speed (ps : list (json F * json F)) : ∀ now gs,
  route_plan speed ps now = Ok gs -> length gs = pred (length ps).
Proof.
  induction ps as [|start ps IH]; intros now gs Hgs.
  - injection Hgs as <-. reflexivity.
  - destruct ps as [|end_ rest]; [injection Hgs as <-; reflexivity|].
    rewrite route_plan_cons in Hgs.
    apply rbind_Ok in Hgs as (g & _ & Hgs).
    apply rbind_Ok in Hgs as (gs' & Hgs' & [= <-]).
    simpl. rewrite (IH _ _ Hgs'). reflexivity.
Qed.

(** The segment at index [k] runs between the waypoints at [k] and
    [k + 1]. *)
Lemma route_plan_lookup speed (ps : list (json F * json F)) :
  ∀ now gs (k : nat) g,
  route_plan speed ps now = Ok gs -> gs !! k = Some g ->
  ∃ start end_,
    ps !! k = Some start ∧ ps !! S k = Some end_ ∧
    plan_segment speed start end_ (seg_start g) = Ok g.
Proof.
  induction ps as [|start ps IH]; intros now gs k g Hgs Hk.
  - injection Hgs as <-. discriminate.
  - destruct ps as [|end_ rest]; [injection Hgs as <-; discriminate|].
    rewrite route_plan_cons in Hgs.
    apply rbind_Ok in Hgs as (g0 & Hg0 & Hgs).
    apply rbind_Ok in Hgs as (gs' & Hgs' & [= <-]).
    destruct k as [|k].
    + injection Hk as <-. exists start, end_.
      destruct (plan_segment_Ok _ _ _ _ _ Hg0) as (-> & _). auto.
    + destruct (IH _ _ _ _ Hgs' Hk) as (start' & end' & H1 & H2 & H3).
      exists start', end'. auto.
Qed.

(** When does the planning of a segment return: the coordinates are
    numbers, geopy accepts them, the speed is not zero, and the duration,
    the timestamps and the clock after the segment fit their ranges. *)
Lemma plan_segment_planned speed start end_ now lat1 lon1 lat2 lon2 distance us :
  as_float (fst start) = Ok lat1 -> as_float (snd start) = Ok lon1 ->
  as_float (fst end_) = Ok lat2 -> as_float (snd end_) = Ok lon2 ->
  geodesic_km lat1 lon1 lat2 lon2 = Some distance ->
  num_is_zero speed = false ->
  timedelta_hours (fdiv distance (to_float speed)) = Some us ->
  timedelta_min <= us <= timedelta_max ->
  datetime_min <= now ->
  now + ten_minutes * (Z.max 2 (steps_of_duration us) - 1) <= datetime_max ->
  datetime_min <= now + us <= datetime_max ->
  ∃ g, plan_segment speed start end_ now = Ok g ∧
       seg_start g = now ∧ segment_duration g = us ∧
       num_steps g = Z.max 2 (steps_of_duration us).
Proof.
  intros H1 H2 H3 H4 Hdist Hspeed Hdur [Hlo Hhi] Hnow Hlast Hnext.
  unfold plan_segment. rewrite H1, H2, H3, H4. cbn [rbind]. rewrite Hdist.
  cbn [rbind].
  assert (Hh : py_truediv (PFloat distance) speed
               = Ok (PFloat (fdiv distance (to_float speed)))).
  { unfold py_truediv. rewrite Hspeed. destruct speed; reflexivity. }
  rewrite Hh. cbn [rbind to_float]. rewrite Hdur. unfold checked_timedelta.
  apply Z.leb_le in Hlo, Hhi. rewrite Hlo, Hhi. cbn [andb rbind].
  rewrite (mapR_Ok_all _ (fun j : nat => now + ten_minutes * Z.of_nat j)).
  - cbn [rbind]. rewrite (datetime_add_in_range _ _ Hnext). cbn [rbind].
    eexists. split; [reflexivity|]. auto.
  - intros j Hj. apply in_seq in Hj. apply datetime_add_in_range.
    unfold ten_minutes in *. lia.
Qed.

Lemma times_strictly_increasing (start : Z) (n : nat) : ∀ i : nat,
  StronglySorted Z.lt
    (map (fun j : nat => start + ten_minutes * Z.of_nat j) (seq i n)).
Proof.
  induction n as [|n IH]; intros i; simpl; constructor; [apply IH|].
  apply Forall_forall. intros t Ht.
  apply list_elem_of_In, in_map_iff in Ht as (j & <- & Hj).
  apply in_seq in Hj. unfold ten_minutes. lia.
Qed.

Lemma segment_times_sorted (g : segment F) :
  StronglySorted Z.lt (map s_time (segment_samples g)).
Proof.
  unfold segment_samples. rewrite map_map. simpl.
  apply times_strictly_increasing.
Qed.

(** The samples of a segment that lasts ten minutes or more all fall
    within its traversal. *)
Lemma segment_times_within speed start end_ now g :
  plan_segment speed start end_ now = Ok g ->
  ten_minutes <= segment_duration g ->
  Forall (fun t => seg_start g <= t <= seg_start g + segment_duration g)
    (map s_time (segment_samples g)).
Proof.
  intros Hg Hdur.
  pose proof (plan_segment_range _ _ _ _ _ Hg) as (Hrange & _).
  apply plan_segment_Ok in Hg as (_ & Hn & _).
  apply num_steps_bounds in Hrange as [_ Hmax]. rewrite <- Hn in Hmax.
  apply Forall_forall. intros t Ht. unfold segment_samples in Ht.
  rewrite map_map in Ht. simpl in Ht.
  apply list_elem_of_In, in_map_iff in Ht as (j & <- & Hj).
  apply in_seq in Hj.
  unfold ten_minutes in *.
  assert (600000000 * (segment_duration g / 600000000) <= segment_duration g)
    by (apply Z.mul_div_le; lia).
  lia.
Qed.

Lemma segment_times_from speed start end_ now g :
  plan_segment speed start end_ now = Ok g ->
  Forall (fun t => seg_start g <= t) (map s_time (segment_samples g)).
Proof.
  intros _. apply Forall_forall. intros t Ht. unfold segment_samples in Ht.
  rewrite map_map in Ht. simpl in Ht.
  apply list_elem_of_In, in_map_iff in Ht as (j & <- & Hj).
  unfold ten_minutes. lia.
Qed.

Lemma sorted_lt_le (l : list Z) :
  StronglySorted Z.lt l -> StronglySorted Z.le l.
Proof.
  induction 1 as [|t l _ IHl Hhd]; constructor; [assumption|].
  eapply Forall_impl; [exact Hhd|]. intros; lia.
Qed.

Lemma plan_samples_cons (g : segment F) gs :
  plan_samples (g :: gs) = segment_samples g ++ plan_samples gs.
Proof. reflexivity. Qed.

Lemma plan_times_sorted speed (gs : list (segment F)) : ∀ now,
  clock_chain now gs ->
  Forall (fun g => ∃ start end_ t, plan_segment speed start end_ t = Ok g) gs ->
  no_overrun gs ->
  Forall (fun t => now <= t) (map s_time (plan_samples gs)) ∧
  StronglySorted Z.le (map s_time (plan_samples gs)).
Proof.
  induction gs as [|g gs IH]; intros now Hchain Hall Hdur.
  - split; constructor.
  - destruct Hchain as [Hstart Hchain].
    apply Forall_cons in Hall as [(start & end_ & t0 & Hg) Hall].
    rewrite plan_samples_cons, map_app.
    pose proof (segment_times_from _ _ _ _ _ Hg) as Hfrom.
    rewrite Hstart in Hfrom.
    assert (Hsorted_g : StronglySorted Z.le (map s_time (segment_samples g))).
    { apply sorted_lt_le, segment_times_sorted. }
    destruct gs as [|g' gs'].
    { simpl. rewrite app_nil_r. split; assumption. }
    destruct Hdur as [Hten Hdur].
    destruct (IH _ Hchain Hall Hdur) as [Hnext Hsorted].
    pose proof (segment_times_within _ _ _ _ _ Hg Hten) as Hwithin.
    rewrite Hstart in Hwithin.
    assert (0 <= segment_duration g) by (unfold ten_minutes in Hten; lia).
    split.
    + apply Forall_app. split; [assumption|].
      eapply Forall_impl; [exact Hnext|]. intros t Ht. simpl in Ht. lia.
    + apply StronglySorted_app. repeat split; [|assumption..].
      intros t1 t2 Ht1 Ht2.
      rewrite Forall_forall in Hwithin, Hnext.
      specialize (Hwithin _ Ht1). specialize (Hnext _ Ht2).
      simpl in Hwithin, Hnext. lia.
Qed.

Lemma filter_keeps_sorted {A : Type} (R : relation Z) (f : A -> Z)
  (keep : A -> bool) (l : list A) :
  StronglySorted R (map f l) -> StronglySorted R (map f (List.filter keep l)).
Proof.
  induction l as [|x l IH]; intros Hl; simpl; [constructor|].
  simpl in Hl. apply StronglySorted_inv in Hl as [Hl Hx].
  destruct (keep x); [|auto]. simpl. constructor; [auto|].
  rewrite Forall_forall in Hx |- *. intros y Hy. apply Hx.
  apply list_elem_of_In, in_map_iff in Hy as (z & <- & Hz).
  apply filter_In in Hz as [Hz _].
  apply list_elem_of_In, in_map. assumption.
Qed.

Lemma segment_time_elem (g : segment F) (j : nat) :
  (j < Z.to_nat (num_steps g))%nat ->
  seg_start g + ten_minutes * Z.of_nat j ∈ map s_time (segment_samples g).
Proof.
  intros Hj. apply segment_samples_lookup in Hj.
  apply list_elem_of_lookup_2 in Hj.
  change (map s_time ?l) with (s_time <$> l).
  apply list_elem_of_fmap. eexists. split; [|exact Hj]. reflexivity.
Qed.

(** Conversely, a segment cut short shows in the order of the stream: its
    second sample comes after the first sample of the next segment. *)
Lemma plan_times_sorted_inv speed (gs : list (segment F)) : ∀ now,
  clock_chain now gs ->
  Forall (fun g => ∃ start end_ t, plan_segment speed start end_ t = Ok g) gs ->
  StronglySorted Z.le (map s_time (plan_samples gs)) ->
  no_overrun gs.
Proof.
  induction gs as [|g gs IH]; intros now Hchain Hall Hsorted; [exact I|].
  destruct gs as [|g' gs']; [exact I|].
  destruct Hchain as [Hstart Hchain].
  apply Forall_cons in Hall as [(start & end_ & t0 & Hg) Hall].
  rewrite plan_samples_cons, map_app in Hsorted.
  split.
  - pose proof Hall as Hall'.
    apply Forall_cons in Hall' as [(start' & end' & t1 & Hg') _].
    apply plan_segment_Ok in Hg as (_ & Hn & _).
    apply plan_segment_Ok in Hg' as (_ & Hn' & _).
    destruct Hchain as [Hstart' _].
    assert (H1 : seg_start g + ten_minutes * Z.of_nat 1
                 ∈ map s_time (segment_samples g))
      by (apply segment_time_elem; lia).
    assert (H2 : seg_start g' + ten_minutes * Z.of_nat 0
                 ∈ map s_time (plan_samples (g' :: gs'))).
    { rewrite plan_samples_cons, map_app. apply elem_of_app. left.
      apply segment_time_elem. lia. }
    pose proof (StronglySorted_app_1_elem_of _ _ _ _ _ Hsorted H1 H2) as Hle.
    rewrite Hstart, Hstart' in Hle. unfold ten_minutes in *. lia.
  - apply (IH _ Hchain Hall). eapply StronglySorted_app_1_r. exact Hsorted.
Qed.

(** ** What the provider's answer becomes *)

Lemma py_getitem_Ok (v : json F) (k : string) (x : json F) :
  py_getitem v k = Ok x -> ∃ d, v = JDict d ∧ assoc k d = Some x.
Proof.
  destruct v; try discriminate. simpl.
  destruct (assoc k d) as [y|] eqn:Hy; [|discriminate].
  intros [= <-]. eauto.
Qed.

(** Only a payload that holds properties.parameter.CLOUD_AMT makes the
    [try] block return. *)
Lemma parse_cloud_cover_Some data fd (v : num F) :
  parse_cloud_cover data fd = Ok (Some v) ->
  ∃ tbl, cloud_amt_table data = Some tbl.
Proof.
  unfold parse_cloud_cover. intros H.
  apply rbind_Ok in H as ([|] & _ & H); [|discriminate]. cbn [negb] in H.
  apply rbind_Ok in H as (properties & Hp & H).
  apply rbind_Ok in H as ([|] & _ & H); [|discriminate]. cbn [negb] in H.
  apply rbind_Ok in H as (parameter & Hq & H).
  apply rbind_Ok in H as ([|] & _ & H); [|discriminate]. cbn [negb] in H.
  apply rbind_Ok in H as (cloud_amt & Hc & _).
  apply py_getitem_Ok in Hp as (d & -> & Hd).
  apply py_getitem_Ok in Hq as (d1 & -> & Hd1).
  apply py_getitem_Ok in Hc as (d2 & -> & Hd2).
  exists cloud_amt. simpl. rewrite Hd, Hd1. exact Hd2.
Qed.

Lemma failure_returns_zero (r : response F) fd :
  provider_failure r -> cloud_cover_of_response r fd = PInt 0.
Proof.
  unfold cloud_cover_of_response.
  intros [Hstatus | Hbody | data Hbody Htable].
  - apply Z.eqb_neq in Hstatus. rewrite Hstatus. reflexivity.
  - rewrite Hbody. destruct (status_code r =? 200); reflexivity.
  - rewrite Hbody. destruct (status_code r =? 200); [|reflexivity].
    destruct (parse_cloud_cover data fd) as [[v|]|e] eqn:Hparse; try reflexivity.
    apply parse_cloud_cover_Some in Hparse as [tbl Htbl]. congruence.
Qed.

(** On a successful answer the function returns the quotient of line 66,
    or the 0 of the handler when that division raises. *)
Lemma success_returns_fraction (r : response F) fd c :
  provider_success r fd c ->
  cloud_cover_of_response r fd
  = match py_truediv c (PInt 100) with
    | Ok fraction => fraction
    | Raise _ => PInt 0
    end.
Proof.
  intros (Hstatus & data & tbl & Hbody & Htable & Hdate).
  unfold cloud_cover_of_response. rewrite Hstatus, Hbody. simpl.
  destruct data as [| | | | |d]; try discriminate. simpl in Htable.
  destruct (assoc "properties" d) as [[| | | | |d1]|] eqn:Hd; try discriminate.
  destruct (assoc "parameter" d1) as [[| | | | |d2]|] eqn:Hd1; try discriminate.
  unfold parse_cloud_cover. cbn -[py_truediv]. rewrite Hd. cbn -[py_truediv].
  rewrite Hd1. cbn -[py_truediv]. rewrite Htable. cbn -[py_truediv].
  rewrite Hdate. cbn -[py_truediv].
  destruct (py_truediv c (PInt 100)); reflexivity.
Qed.

Lemma py_truediv_exact (c : num F) :
  match c with PInt z => exact_int z = true | PFloat _ => True end ->
  py_truediv c (PInt 100) = Ok (PFloat (fdiv (to_float c) (of_Z 100))).
Proof.
  unfold py_truediv. destruct c as [z|f]; [|reflexivity].
  intros ->. reflexivity.
Qed.

(** ** Runs that complete *)

Lemma evaluate_sample_hit area kw apply a p log v :
  cloud_cover_cache a !! sample_date p = Some v ->
  evaluate_sample area kw apply a p log
  = (Ok (record_sample area kw
           (if apply then py_sub (PInt 1) v else PInt 1)
           (cloud_cover_cache a) a p), log).
Proof.
  intros Hc. unfold evaluate_sample. rewrite Hc.
  unfold bind, ret, lift, attenuation_of. rewrite Hc.
  destruct apply; reflexivity.
Qed.

Lemma evaluate_sample_miss area kw apply a p log v :
  cloud_cover_cache a !! sample_date p = None ->
  fetched p = Some v ->
  evaluate_sample area kw apply a p log
  = (Ok (record_sample area kw
           (if apply then py_sub (PInt 1) v else PInt 1)
           (<[sample_date p := v]> (cloud_cover_cache a)) a p),
     log ++ [call_of p]).
Proof.
  intros Hc Hv. unfold evaluate_sample. rewrite Hc.
  unfold bind at 1. unfold bind at 1.
  rewrite (fetch_cloud_cover_fetched _ _ _ Hv).
  unfold ret at 1. unfold bind, lift, attenuation_of.
  rewrite lookup_insert_eq. destruct apply; reflexivity.
Qed.

Lemma record_sample_cache area kw att cache a p :
  cloud_cover_cache (record_sample area kw att cache a p) = cache.
Proof. unfold record_sample. destruct (fgt _ _); reflexivity. Qed.

(** The loop over a stream returns when every call it makes is
    answered. *)
Lemma evaluate_all_answered area kw apply ss : ∀ a log,
  (∀ q, q ∈ first_seen (dom (cloud_cover_cache a)) ss -> is_Some (fetched q)) ->
  ∃ a' log', foldM (evaluate_sample area kw apply) ss a log = (Ok a', log').
Proof.
  induction ss as [|p ss IH]; intros a log Hans; simpl.
  - unfold ret. eauto.
  - simpl in Hans.
    destruct (decide (sample_date p ∈ dom (cloud_cover_cache a))) as [Hin|Hout].
    + apply elem_of_dom in Hin as [v Hv].
      unfold bind. rewrite (evaluate_sample_hit _ _ _ _ _ _ _ Hv).
      apply IH. rewrite record_sample_cache. exact Hans.
    + apply not_elem_of_dom in Hout.
      destruct (Hans p) as [v Hp]; [by left|].
      unfold bind. rewrite (evaluate_sample_miss _ _ _ _ _ _ _ Hout Hp).
      apply IH. rewrite record_sample_cache, dom_insert_L.
      intros q Hq. apply Hans. by right.
Qed.

Lemma journey_plan_Ok geojson start_date speed gs :
  journey_plan geojson start_date speed = Ok gs ->
  ∃ coordinates ps t0,
    coordinates_of geojson = Ok coordinates ∧
    route_positions_of coordinates = Ok ps ∧
    parse_start start_date = Ok t0 ∧
    route_plan speed ps t0 = Ok gs.
Proof.
  unfold journey_plan, journey_positions. intros H.
  apply rbind_Ok in H as (ps & Hps & H).
  apply rbind_Ok in Hps as (coordinates & Hc & Hps).
  apply rbind_Ok in H as (t0 & Ht0 & H).
  exists coordinates, ps, t0. auto.
Qed.

Lemma update_solar_production_flat geojson area kw start_date speed toggle
  gs log :
  no_route geojson = Ok false ->
  journey_plan geojson start_date speed = Ok gs ->
  update_solar_production geojson area kw start_date speed toggle log
  = match foldM (evaluate_sample area kw (cloud_enabled toggle))
            (plan_samples gs) empty_accum log with
    | (Ok a, log') =>
        (Ok (Production (times a) (production_values a) (total_production a)),
         log')
    | (Raise e, log') => (Raise e, log')
    end.
Proof.
  intros Hguard Hplan.
  apply journey_plan_Ok in Hplan as (coordinates & ps & t0 & Hc & Hps & Ht0 & Hgs).
  unfold update_solar_production, bind, lift.
  rewrite Hguard, Hc, Hps, Ht0, (route_loop_flat _ _ _ _ _ _ _ _ _ Hgs).
  destruct (foldM _ _ _ _) as [[a|e] log']; reflexivity.
Qed.

Lemma first_sample_exists ss p :
  p ∈ ss ->
  ∃ q, first_sample (sample_date p) ss = Some q ∧
       sample_date q = sample_date p ∧ q ∈ ss.
Proof.
  induction ss as [|p0 ss IH]; intros Hp; [apply elem_of_nil in Hp as []|].
  rewrite first_sample_cons.
  destruct (String.eqb_spec (sample_date p0) (sample_date p)) as [Heq|Hne].
  - exists p0. repeat split; [assumption | by left].
  - apply elem_of_cons in Hp as [->|Hp]; [congruence|].
    destruct (IH Hp) as (q & Hq & Hd & Hin). exists q.
    repeat split; [assumption.. | by right].
Qed.

(** A date is called for once when the log holds no date twice. *)
Lemma calls_for_NoDup (log : list (call F)) (c : call F) :
  NoDup (map call_date log) -> c ∈ log ->
  calls_for (call_date c) log = [c].
Proof.
  unfold calls_for. induction log as [|c0 log IH]; intros Hnd Hc;
    [apply elem_of_nil in Hc as []|].
  simpl in Hnd. apply NoDup_cons in Hnd as [Hc0 Hnd]. simpl.
  assert (Hrest : ∀ c' : call F, call_date c' ∉ map call_date log ->
            List.filter (fun x => String.eqb (call_date x) (call_date c')) log = []).
  { intros c' Hout. clear -Hout. induction log as [|x log IH]; [reflexivity|].
    simpl. destruct (String.eqb_spec (call_date x) (call_date c')) as [Heq|_].
    - exfalso. apply Hout. simpl. rewrite Heq. by left.
    - apply IH. intros Hin. apply Hout. simpl. by right. }
  apply elem_of_cons in Hc as [->|Hc].
  - rewrite String.eqb_refl, Hrest by assumption. reflexivity.
  - destruct (String.eqb_spec (call_date c0) (call_date c)) as [Heq|_];
      [|apply IH; assumption].
    exfalso. apply Hc0. rewrite Heq.
    change (map call_date log) with (call_date <$> log).
    apply list_elem_of_fmap. eauto.
Qed.

(** The calls made over a stream: one for the date of every sample, with
    the first sample of that date. *)
Lemma calls_of_stream ss p :
  p ∈ ss ->
  ∃ q, first_sample (sample_date p) ss = Some q ∧
       calls_for (sample_date p) (map call_of (first_seen ∅ ss)) = [call_of q].
Proof.
  intros Hp.
  destruct (first_seen_covers ∅ ss p Hp) as (q & Hq & Hd);
    [apply not_elem_of_empty|].
  pose proof (first_seen_first _ _ _ Hq) as (_ & _ & Hfirst).
  exists q. rewrite <- Hd. split; [assumption|].
  apply (calls_for_NoDup _ (call_of q)).
  - rewrite map_map. apply first_seen_NoDup.
  - change (map call_of ?l) with (call_of <$> l).
    apply list_elem_of_fmap. eauto.
Qed.

(** ** Routes without a segment *)

Lemma route_loop_short area kw speed apply (ps : list (json F * json F))
  now a log :
  (length ps < 2)%nat ->
  route_loop area kw speed apply ps now a log = (Ok a, log).
Proof.
  destruct ps as [|start [|end_ rest]]; simpl; intros Hlen;
    [reflexivity | reflexivity | lia].
Qed.

Lemma update_solar_production_refused geojson area kw start_date speed toggle
  log :
  no_route geojson = Ok true ->
  update_solar_production geojson area kw start_date speed toggle log
  = (Ok InvalidRoute, log).
Proof.
  intros H. unfold update_solar_production, bind, lift. rewrite H. reflexivity.
Qed.

Lemma update_solar_production_short geojson area kw start_date speed toggle
  log ps t0 :
  no_route geojson = Ok false ->
  journey_positions geojson = Ok ps -> (length ps < 2)%nat ->
  parse_start start_date = Ok t0 ->
  update_solar_production geojson area kw start_date speed toggle log
  = (Ok (Production [] [] (PInt 0)), log).
Proof.
  intros Hguard Hps Hlen Ht0. unfold journey_positions in Hps.
  apply rbind_Ok in Hps as (coordinates & Hc & Hps).
  unfold update_solar_production, bind, lift.
  rewrite Hguard, Hc, Hps, Ht0, route_loop_short by assumption. reflexivity.
Qed.

(** Nothing but the loop over the segments calls the provider. *)
Lemma update_solar_production_no_calls geojson area kw start_date speed toggle
  log :
  (∀ ps, journey_positions geojson = Ok ps -> (length ps < 2)%nat) ->
  snd (update_solar_production geojson area kw start_date speed toggle log)
  = log.
Proof.
  intros Hshort. unfold update_solar_production, bind, lift.
  destruct (no_route geojson) as [[|]|e]; try reflexivity.
  unfold journey_positions in Hshort.
  destruct (coordinates_of geojson) as [coordinates|e]; [|reflexivity].
  simpl in Hshort.
  destruct (route_positions_of coordinates) as [ps|e]; [|reflexivity].
  destruct (parse_start start_date) as [t0|e]; [|reflexivity].
  rewrite route_loop_short by (apply Hshort; reflexivity). reflexivity.
Qed.

End Facts.

(** * The claims *)

Section Claims.
Context {F : Type} `{!FloatOps F} `{!Externals F}.
Implicit Types (log : list (call F)) (p q : sample F)
  (ss : list (sample F)) (gs : list (segment F)).

(** C1. The total energy a run reports is the sum, over the retained samples
    in the order they were recorded, of the sample's power times the fixed
    weight 10/60; the timestamps, and so the gaps between them, play no
    part in it.  Every retained sample has one timestamp and one power. *)
Theorem total_energy_is_rectangle_sum geojson area kw start_date speed toggle
  ts vs total log :
  update_solar_production geojson area kw start_date speed toggle []
  = (Ok (Production ts vs total), log) ->
  total
  = fold_left
      (fun acc power =>
         py_add acc (py_mul power (PFloat (fdiv (of_Z 10) (of_Z 60)))))
      vs (PInt 0)
  ∧ length ts = length vs.
Proof.
  intros H. apply run_pipeline in H as (gs & _ & -> & -> & -> & _).
  split; [reflexivity|]. rewrite !length_map. reflexivity.
Qed.

(** C2, as the code has it.  With the cloud-attenuation flag false every
    retained sample is evaluated with attenuation = 1.  The provider is
    queried all the same: once for the first sample of every date of the
    sampled stream, whatever the flag. *)
Theorem disabled_flag_attenuation_is_one geojson area kw start_date speed
  toggle ts vs total log :
  cloud_enabled toggle = false ->
  update_solar_production geojson area kw start_date speed toggle []
  = (Ok (Production ts vs total), log) ->
  ∃ ss,
    journey_samples geojson start_date speed = Ok ss ∧
    ts = map s_time (List.filter daylight ss) ∧
    vs = map (segment_production area kw (PInt 1)) (List.filter daylight ss) ∧
    log = map call_of (first_seen ∅ ss).
Proof.
  intros Hoff H. apply run_pipeline in H as (gs & Hgs & -> & -> & _ & -> & _).
  exists (plan_samples gs). rewrite Hoff.
  split; [apply journey_samples_plan, Hgs|]. auto.
Qed.

(** C3, as the code has it.  The result series holds exactly the samples of
    the stream whose solar elevation is > 0, in order: a sample whose
    elevation is not > 0 is left out altogether, and every sample present
    has elevation strictly > 0.  The power recorded for it is
    surface_area * kw_per_m2 * sin(elevation) * attenuation, which the test
    does not look at. *)
Theorem retained_samples_are_above_horizon geojson area kw start_date speed
  toggle ts vs total log :
  update_solar_production geojson area kw start_date speed toggle []
  = (Ok (Production ts vs total), log) ->
  ∃ ss kept,
    journey_samples geojson start_date speed = Ok ss ∧
    ts = map s_time kept ∧
    vs = map (fun p => segment_production area kw
                         (attenuation (cloud_enabled toggle) ss p) p) kept ∧
    kept = List.filter (fun p => fgt (solar_altitude p) (of_Z 0)) ss ∧
    ∀ p, p ∈ kept <-> p ∈ ss ∧ fgt (solar_altitude p) (of_Z 0) = true.
Proof.
  intros H. apply run_pipeline in H as (gs & Hgs & -> & -> & _).
  exists (plan_samples gs), (List.filter daylight (plan_samples gs)).
  split; [apply journey_samples_plan, Hgs|].
  do 3 (split; [reflexivity|]).
  intros p. unfold daylight. rewrite !list_elem_of_In. apply filter_In.
Qed.

(** C4, as the code has it.  Within a segment the timestamps increase
    strictly, by ten minutes per sample.  Across the route the timestamps of
    the samples are in non-decreasing order exactly when every segment that
    is followed by another one lasts at least ten minutes: the first sample
    of a segment is then not earlier than the last sample of the segment
    before it, and the output series is in non-decreasing order too. *)
Theorem timestamps_sorted_without_overrun geojson area kw start_date speed
  toggle ts vs total log :
  update_solar_production geojson area kw start_date speed toggle []
  = (Ok (Production ts vs total), log) ->
  ∃ gs,
    journey_plan geojson start_date speed = Ok gs ∧
    ts = map s_time (List.filter daylight (plan_samples gs)) ∧
    Forall (fun g => StronglySorted Z.lt (map s_time (segment_samples g))) gs ∧
    (no_overrun gs <-> StronglySorted Z.le (map s_time (plan_samples gs))) ∧
    (no_overrun gs -> StronglySorted Z.le ts).
Proof.
  intros H. apply run_pipeline in H as (gs & Hgs & -> & _).
  exists gs. split; [assumption|]. split; [reflexivity|]. split.
  { apply Forall_forall. intros g _. apply segment_times_sorted. }
  unfold journey_plan in Hgs.
  apply rbind_Ok in Hgs as (ps & _ & Hgs).
  apply rbind_Ok in Hgs as (t0 & _ & Hgs).
  apply route_plan_chain in Hgs as [Hchain Hall].
  split; [split|].
  - intros Hdur. apply (plan_times_sorted _ _ _ Hchain Hall Hdur).
  - apply (plan_times_sorted_inv _ _ _ Hchain Hall).
  - intros Hdur. apply filter_keeps_sorted.
    apply (plan_times_sorted _ _ _ Hchain Hall Hdur).
Qed.

(** C8, as the code has it.  For a segment between two consecutive
    waypoints, with the distance the great-circle distance in km and the
    duration distance / speed hours (held in microseconds), the number of
    samples is max(2, n), where n is int(total_seconds() / 600) as binary64
    arithmetic gives it: floor(duration / 600 s) for every duration below
    2^34 s (some 544 years), and that floor or one more beyond.  It is at
    least 2 whatever the length of the segment, exactly 2 on a segment of
    length zero, and the inner loop evaluates exactly these samples. *)
Theorem segment_sample_count area kw speed apply start end_ now g :
  plan_segment speed start end_ now = Ok g ->
  (∃ lat1 lon1 lat2 lon2 distance,
     as_float (fst start) = Ok lat1 ∧ as_float (snd start) = Ok lon1 ∧
     as_float (fst end_) = Ok lat2 ∧ as_float (snd end_) = Ok lon2 ∧
     geodesic_km lat1 lon1 lat2 lon2 = Some distance ∧
     timedelta_hours (fdiv distance (to_float speed))
     = Some (segment_duration g)) ∧
  num_steps g = Z.max 2 (steps_of_duration (segment_duration g)) ∧
  (segment_duration g < 2 ^ 34 * 1000000 ->
   num_steps g = Z.max 2 (segment_duration g / 600000000)) ∧
  Z.max 2 (segment_duration g / 600000000) <= num_steps g
  <= Z.max 2 (segment_duration g / 600000000 + 1) ∧
  2 <= num_steps g ∧
  (segment_duration g = 0 -> num_steps g = 2) ∧
  length (segment_samples g) = Z.to_nat (num_steps g) ∧
  length (times_segment g) = Z.to_nat (num_steps g) ∧
  ∀ a log,
    segment_step area kw speed apply start end_ now a log
    = match foldM (evaluate_sample area kw apply) (segment_samples g) a log with
      | (Ok a', log') => (Ok (now + segment_duration g, a'), log')
      | (Raise e, log') => (Raise e, log')
      end.
Proof.
  intros Hg.
  destruct (plan_segment_inv _ _ _ _ _ Hg)
    as (lat1 & lon1 & lat2 & lon2 & distance & H1 & H2 & H3 & H4 & H5 & _ & H6 & _).
  destruct (plan_segment_Ok _ _ _ _ _ Hg) as (_ & Hn & Htimes).
  destruct (plan_segment_range _ _ _ _ _ Hg) as (Hrange & _).
  split; [exists lat1, lon1, lat2, lon2, distance; auto 10|].
  split; [assumption|]. split.
  { intros Hshort. rewrite Hn. apply num_steps_exact; [apply Hrange | exact Hshort]. }
  split; [rewrite Hn; apply num_steps_bounds, Hrange|].
  split; [lia|]. split.
  { intros H0. rewrite Hn, H0. reflexivity. }
  split; [apply segment_samples_length|]. split.
  { rewrite Htimes, length_map, length_seq. reflexivity. }
  intros a log. apply segment_step_flat. assumption.
Qed.

(** C9. In a run, the sample at index j of a segment is stamped with the
    segment's start time plus j times ten minutes.  The first segment starts
    at the configured start time, and every further segment starts at the
    start of the one before it plus that segment's full traversal duration:
    the timedelta of (great-circle distance between its two waypoints) /
    speed hours, whatever the number of samples taken on it. *)
Theorem clock_advances_by_segment_duration geojson area kw start_date speed
  toggle ts vs total log :
  update_solar_production geojson area kw start_date speed toggle []
  = (Ok (Production ts vs total), log) ->
  ∃ ps gs t0,
    journey_positions geojson = Ok ps ∧
    journey_plan geojson start_date speed = Ok gs ∧
    strptime start_date = Some t0 ∧
    ts = map s_time (List.filter daylight (plan_samples gs)) ∧
    length gs = pred (length ps) ∧
    (∀ g, gs !! 0%nat = Some g -> seg_start g = t0) ∧
    (∀ (k : nat) g g',
       gs !! k = Some g -> gs !! S k = Some g' ->
       seg_start g' = seg_start g + segment_duration g) ∧
    (∀ (k : nat) g,
       gs !! k = Some g ->
       ∃ start end_ lat1 lon1 lat2 lon2 distance,
         ps !! k = Some start ∧ ps !! S k = Some end_ ∧
         as_float (fst start) = Ok lat1 ∧ as_float (snd start) = Ok lon1 ∧
         as_float (fst end_) = Ok lat2 ∧ as_float (snd end_) = Ok lon2 ∧
         geodesic_km lat1 lon1 lat2 lon2 = Some distance ∧
         timedelta_hours (fdiv distance (to_float speed))
         = Some (segment_duration g)) ∧
    ∀ g (j : nat),
      g ∈ gs -> (j < Z.to_nat (num_steps g))%nat ->
      times_segment g !! j = Some (seg_start g + Z.of_nat j * 600000000) ∧
      ∃ p, segment_samples g !! j = Some p ∧
           s_time p = seg_start g + Z.of_nat j * 600000000.
Proof.
  intros H. apply run_pipeline in H as (gs & Hgs & -> & _).
  pose proof Hgs as Hplan.
  apply journey_plan_Ok in Hplan as (coordinates & ps & t0 & Hc & Hps & Ht0 & Hplan).
  unfold parse_start in Ht0.
  destruct (strptime start_date) as [t|] eqn:Hparse; [|discriminate].
  injection Ht0 as ->.
  pose proof (route_plan_length _ _ _ _ Hplan) as Hlen.
  pose proof (fun k g => route_plan_lookup _ _ _ _ k g Hplan) as Hlookup.
  apply route_plan_chain in Hplan as [Hchain Hall].
  exists ps, gs, t0.
  split; [unfold journey_positions; rewrite Hc; exact Hps|].
  do 4 (split; [auto|]). split; [|split; [|split]].
  - intros g Hg. destruct gs as [|g0 gs']; [discriminate|].
    injection Hg as ->. apply Hchain.
  - clear Hgs Hall Hparse Hlen Hlookup. revert t0 Hchain.
    induction gs as [|g0 gs' IH]; intros t0 Hchain k g g' Hk Hk'; [discriminate|].
    destruct Hchain as [Hstart Hchain]. destruct k as [|k].
    + injection Hk as ->. destruct gs' as [|g1 gs'']; [discriminate|].
      injection Hk' as ->. destruct Hchain as [-> _]. rewrite Hstart. reflexivity.
    + exact (IH _ Hchain k g g' Hk Hk').
  - intros k g Hk.
    destruct (Hlookup k g Hk) as (start & end_ & Hs & He & Hg).
    destruct (plan_segment_inv _ _ _ _ _ Hg)
      as (lat1 & lon1 & lat2 & lon2 & distance
          & H1 & H2 & H3 & H4 & H5 & _ & H6 & _).
    exists start, end_, lat1, lon1, lat2, lon2, distance. auto 10.
  - intros g j Hg Hj. rewrite Forall_forall in Hall.
    destruct (Hall g Hg) as (start & end_ & t & Hplan).
    apply plan_segment_Ok in Hplan as (Hstart & _ & Htimes).
    split.
    + rewrite Htimes, (lookup_map_seq _ _ 0%nat j Hj), Hstart.
      unfold ten_minutes. f_equal. simpl. lia.
    + eexists. split; [apply segment_samples_lookup, Hj|].
      simpl. unfold ten_minutes. lia.
Qed.

(** C5, as the code has it.  On a valid route whose plan is computed, a
    run in which [requests.get] answers every lookup returns its result
    whatever the answers are, after one lookup for the first sample of
    every date.  Every sample is evaluated with the attenuation decided by
    the answer to the lookup of its date: exactly 1 when that answer is a
    failure (a status other than 200, a body that is not JSON, or a payload
    without properties.parameter.CLOUD_AMT); 1 - c/100, with the cloud
    toggle on, when the payload gives the cloud amount c for the date (1
    again if that division overflows); and 1 whatever the answer with the
    toggle off. *)
Theorem answered_lookup_decides_attenuation geojson area kw start_date speed
  toggle ss :
  no_route geojson = Ok false ->
  journey_samples geojson start_date speed = Ok ss ->
  (∀ q, q ∈ first_seen ∅ ss ->
        ∃ r, requests_get (s_lat q) (s_lon q) (remove_char "-" (sample_date q))
             = Response r) ->
  ∃ ts vs total log,
    update_solar_production geojson area kw start_date speed toggle []
    = (Ok (Production ts vs total), log) ∧
    log = map call_of (first_seen ∅ ss) ∧
    ts = map s_time (List.filter daylight ss) ∧
    vs = map (fun p => segment_production area kw
                         (attenuation (cloud_enabled toggle) ss p) p)
             (List.filter daylight ss) ∧
    ∀ p, p ∈ ss ->
      ∃ q r,
        first_sample (sample_date p) ss = Some q ∧
        requests_get (s_lat q) (s_lon q) (remove_char "-" (sample_date p))
        = Response r ∧
        (cloud_enabled toggle = false ->
         attenuation (cloud_enabled toggle) ss p = PInt 1) ∧
        (provider_failure r ->
         attenuation (cloud_enabled toggle) ss p = PInt 1) ∧
        (∀ c, provider_success r (remove_char "-" (sample_date p)) c ->
              cloud_enabled toggle = true ->
              attenuation (cloud_enabled toggle) ss p
              = match py_truediv c (PInt 100) with
                | Ok fraction => py_sub (PInt 1) fraction
                | Raise _ => PInt 1
                end) ∧
        (∀ c, provider_success r (remove_char "-" (sample_date p)) c ->
              cloud_enabled toggle = true ->
              match c with PInt z => exact_int z = true | PFloat _ => True end ->
              attenuation (cloud_enabled toggle) ss p
              = PFloat (fsub (of_Z 1) (fdiv (to_float c) (of_Z 100)))).
Proof.
  intros Hguard Hss Hget. unfold journey_samples in Hss.
  apply rbind_Ok in Hss as (gs & Hgs & [= <-]).
  assert (Hans : ∀ q, q ∈ first_seen
                            (dom (cloud_cover_cache (empty_accum (F := F))))
                            (plan_samples gs) -> is_Some (fetched q)).
  { change (cloud_cover_cache empty_accum) with (∅ : gmap string (num F)).
    rewrite dom_empty_L. intros q Hq. destruct (Hget q Hq) as [r Hr].
    unfold fetched. rewrite Hr. eauto. }
  destruct (evaluate_all_answered area kw (cloud_enabled toggle) _ _ [] Hans)
    as (a' & log & Hfold).
  assert (Hrun : update_solar_production geojson area kw start_date speed
                   toggle []
                 = (Ok (Production (times a') (production_values a')
                          (total_production a')), log)).
  { rewrite (update_solar_production_flat _ _ _ _ _ _ _ _ Hguard Hgs), Hfold.
    reflexivity. }
  exists (times a'), (production_values a'), (total_production a'), log.
  split; [exact Hrun|].
  apply run_pipeline in Hrun as (gs' & Hgs' & Hts & Hvs & _ & Hlog & Hfetched).
  rewrite Hgs in Hgs'. injection Hgs' as <-.
  do 3 (split; [assumption|]). intros p Hp.
  destruct (first_sample_exists _ _ Hp) as (q & Hq & Hdate & _).
  destruct (Hfetched p Hp) as (q' & v & Hq' & Hv).
  rewrite Hq in Hq'. injection Hq' as <-.
  unfold fetched in Hv. rewrite Hdate in Hv.
  destruct (requests_get (s_lat q) (s_lon q) (remove_char "-" (sample_date p)))
    as [|r] eqn:Hreq; [discriminate|].
  exists q, r. split; [assumption|]. split; [exact Hreq|].
  assert (Hatt : attenuation true (plan_samples gs) p
                 = py_sub (PInt 1)
                     (cloud_cover_of_response r
                        (remove_char "-" (sample_date p)))).
  { unfold attenuation, factor_of. rewrite lookup_empty, Hq. simpl.
    unfold fetched. rewrite Hdate, Hreq. reflexivity. }
  split; [intros ->; reflexivity|]. split; [|split].
  - intros Hfail. destruct (cloud_enabled toggle); [|reflexivity].
    rewrite Hatt, (failure_returns_zero _ _ Hfail). reflexivity.
  - intros c Hc ->. rewrite Hatt, (success_returns_fraction _ _ _ Hc).
    destruct (py_truediv c (PInt 100)); reflexivity.
  - intros c Hc -> Hexact.
    rewrite Hatt, (success_returns_fraction _ _ _ Hc),
      (py_truediv_exact _ Hexact).
    reflexivity.
Qed.

(** C6. Within a run no date is queried twice; every call carries the
    coordinates of the first sample of its date in the sampled stream; and
    every sample, whichever its position, is evaluated with the factor
    fetched by the call made for the first sample of its date. *)
Theorem one_query_per_date geojson area kw start_date speed toggle
  ts vs total log :
  update_solar_production geojson area kw start_date speed toggle []
  = (Ok (Production ts vs total), log) ->
  ∃ ss,
    journey_samples geojson start_date speed = Ok ss ∧
    NoDup (map call_date log) ∧
    (∀ c, c ∈ log ->
          ∃ q, first_sample (call_date c) ss = Some q ∧ c = call_of q) ∧
    (∀ p, p ∈ ss ->
          ∃ q v, first_sample (sample_date p) ss = Some q ∧
                 calls_for (sample_date p) log = [call_of q] ∧
                 fetched q = Some v ∧
                 attenuation (cloud_enabled toggle) ss p
                 = if cloud_enabled toggle then py_sub (PInt 1) v else PInt 1) ∧
    vs = map (fun p => segment_production area kw
                         (attenuation (cloud_enabled toggle) ss p) p)
             (List.filter daylight ss).
Proof.
  intros H. apply run_pipeline in H as (gs & Hgs & _ & -> & _ & -> & Hfetched).
  exists (plan_samples gs). split; [apply journey_samples_plan, Hgs|].
  set (ss := plan_samples gs) in *.
  assert (Hnd : NoDup (map call_date (map call_of (first_seen ∅ ss)))).
  { rewrite map_map. apply first_seen_NoDup. }
  split; [assumption|]. split; [|split; [|reflexivity]].
  - intros c Hc. change (map call_of ?l) with (call_of <$> l) in Hc.
    apply list_elem_of_fmap in Hc as (q & -> & Hq).
    apply first_seen_first in Hq as (_ & _ & Hq). exists q. auto.
  - intros p Hp. destruct (Hfetched p Hp) as (q & v & Hq & Hv).
    exists q, v. split; [assumption|]. split; [|split; [assumption|]].
    + destruct (calls_of_stream ss p Hp) as (q' & Hq' & Hcalls).
      rewrite Hq in Hq'. injection Hq' as <-. exact Hcalls.
    + unfold attenuation, factor_of. rewrite lookup_empty, Hq. simpl.
      rewrite Hv. reflexivity.
Qed.

(** C10. With the cloud attenuation applied, the provider calls of a run are
    decided on the dates of the sampled stream alone, before any elevation
    is looked at: the log is the first sample of every date, in order, with
    that sample's coordinates, and every sample's date has exactly one call.
    So a date all of whose samples are at or below the horizon, which
    leaves nothing in the output series, still has its one call. *)
Theorem lookup_precedes_horizon_test geojson area kw start_date speed toggle
  ts vs total log :
  cloud_enabled toggle = true ->
  update_solar_production geojson area kw start_date speed toggle []
  = (Ok (Production ts vs total), log) ->
  ∃ ss,
    journey_samples geojson start_date speed = Ok ss ∧
    log = map call_of (first_seen ∅ ss) ∧
    (∀ p, p ∈ ss ->
          ∃ q, first_sample (sample_date p) ss = Some q ∧
               calls_for (sample_date p) log = [call_of q]) ∧
    ∀ d,
      (∃ p, p ∈ ss ∧ sample_date p = d) ->
      (∀ p, p ∈ ss -> sample_date p = d ->
            fgt (solar_altitude p) (of_Z 0) = false) ->
      Forall (fun t => strftime_date t ≠ d) ts ∧
      length (calls_for d log) = 1%nat.
Proof.
  intros _ H.
  apply run_pipeline in H as (gs & Hgs & -> & _ & _ & -> & _).
  exists (plan_samples gs). split; [apply journey_samples_plan, Hgs|].
  pose proof (calls_of_stream (plan_samples gs)) as Hone.
  split; [reflexivity|]. split; [exact Hone|].
  intros d (p & Hp & Hd) Hdark. split.
  - apply Forall_forall. intros t Ht.
    apply list_elem_of_In, in_map_iff in Ht as (q & <- & Hq).
    apply filter_In in Hq as [Hq Hday]. intros Hdate.
    apply list_elem_of_In in Hq.
    unfold daylight in Hday. rewrite (Hdark q Hq Hdate) in Hday. discriminate.
  - destruct (Hone p Hp) as (q & _ & Hcalls).
    rewrite <- Hd, Hcalls. reflexivity.
Qed.

(** C7, as the code has it.  When the GeoJSON is absent or empty, or has no
    or an empty "features" entry, the simulation refuses to run and returns
    the invalid result.  A route with fewer than 2 waypoints is not refused:
    the loop over the segments has nothing to do and the run returns the
    empty series with the total 0.  In either case, and whenever the input
    does not yield two waypoints, the provider is never called. *)
Theorem short_route_makes_no_calls geojson area kw start_date speed toggle :
  (no_route geojson = Ok true ->
   update_solar_production geojson area kw start_date speed toggle []
   = (Ok InvalidRoute, [])) ∧
  (∀ ps t0,
     no_route geojson = Ok false ->
     journey_positions geojson = Ok ps -> (length ps < 2)%nat ->
     parse_start start_date = Ok t0 ->
     update_solar_production geojson area kw start_date speed toggle []
     = (Ok (Production [] [] (PInt 0)), [])) ∧
  ((∀ ps, journey_positions geojson = Ok ps -> (length ps < 2)%nat) ->
   snd (update_solar_production geojson area kw start_date speed toggle [])
   = []).
Proof.
  split; [|split].
  - apply update_solar_production_refused.
  - intros ps t0. apply update_solar_production_short.
  - apply update_solar_production_no_calls.
Qed.

End Claims.

(** * Further properties of the two functions *)

Section Further.
Context {F : Type} `{!FloatOps F} `{!Externals F}.
Implicit Types (log : list (call F)) (a : accum F) (p q : sample F)
  (ss : list (sample F)) (gs : list (segment F))
  (cache : gmap string (num F)).

(** ** A run as the loop over its stream *)

Lemma evaluate_sample_unanswered area kw apply a p log :
  cloud_cover_cache a !! sample_date p = None ->
  fetched p = None ->
  evaluate_sample area kw apply a p log
  = (Raise RequestException, log ++ [call_of p]).
Proof.
  intros Hc Hv. unfold evaluate_sample. rewrite Hc.
  unfold bind at 1. unfold bind at 1.
  unfold fetch_cloud_cover, fetched, call_of in *.
  destruct (requests_get _ _ _); [reflexivity | discriminate].
Qed.

(** The loop stops at the first call that [requests.get] does not answer,
    with that call as the last of the log. *)
Lemma evaluate_all_unanswered area kw apply ss : ∀ a log q,
  q ∈ first_seen (dom (cloud_cover_cache a)) ss -> fetched q = None ->
  ∃ answered q' rest,
    first_seen (dom (cloud_cover_cache a)) ss = answered ++ q' :: rest ∧
    Forall (fun p => is_Some (fetched p)) answered ∧
    fetched q' = None ∧
    foldM (evaluate_sample area kw apply) ss a log
    = (Raise RequestException, log ++ map call_of (answered ++ [q'])).
Proof.
  induction ss as [|p ss IH]; intros a log q Hq Hfail; simpl in Hq.
  - apply elem_of_nil in Hq as [].
  - simpl. destruct (decide (sample_date p ∈ dom (cloud_cover_cache a)))
      as [Hin|Hout].
    + apply elem_of_dom in Hin as [v Hv].
      unfold bind. rewrite (evaluate_sample_hit _ _ _ _ _ _ _ Hv).
      destruct (IH (record_sample area kw
                      (if apply then py_sub (PInt 1) v else PInt 1)
                      (cloud_cover_cache a) a p) log q)
        as (answered & q' & rest & Hsplit & Hans & Hq' & Hrun);
        [rewrite record_sample_cache; assumption | assumption |].
      rewrite record_sample_cache in Hsplit.
      exists answered, q', rest. auto.
    + apply not_elem_of_dom in Hout.
      destruct (fetched p) as [v|] eqn:Hp.
      * unfold bind. rewrite (evaluate_sample_miss _ _ _ _ _ _ _ Hout Hp).
        apply elem_of_cons in Hq as [->|Hq]; [congruence|].
        destruct (IH (record_sample area kw
                        (if apply then py_sub (PInt 1) v else PInt 1)
                        (<[sample_date p := v]> (cloud_cover_cache a)) a p)
                     (log ++ [call_of p]) q)
          as (answered & q' & rest & Hsplit & Hans & Hq' & Hrun);
          [rewrite record_sample_cache, dom_insert_L; assumption | assumption |].
        rewrite record_sample_cache, dom_insert_L in Hsplit.
        exists (p :: answered), q', rest. rewrite Hsplit, Hrun.
        repeat split; [constructor; eauto | assumption |].
        simpl. rewrite <- app_assoc. reflexivity.
      * exists [], p, (first_seen ({[sample_date p]} ∪ dom (cloud_cover_cache a)) ss).
        unfold bind. rewrite (evaluate_sample_unanswered _ _ _ _ _ _ Hout Hp).
        repeat split; auto.
Qed.

(** X3. When [requests.get] raises for the call of some date, the run gives
    no result: it raises that exception at the first such call, after the
    calls answered before it, and makes no further call. *)
Theorem connection_failure_aborts_run geojson area kw start_date speed toggle
  ss q :
  no_route geojson = Ok false ->
  journey_samples geojson start_date speed = Ok ss ->
  first_sample (sample_date q) ss = Some q ->
  requests_get (s_lat q) (s_lon q) (remove_char "-" (sample_date q))
  = ConnectionFailed ->
  ∃ answered q' rest,
    first_seen ∅ ss = answered ++ q' :: rest ∧
    Forall (fun p => is_Some (fetched p)) answered ∧
    fetched q' = None ∧
    update_solar_production geojson area kw start_date speed toggle []
    = (Raise RequestException, map call_of (answered ++ [q'])).
Proof.
  intros Hguard Hss Hfirst Hreq. unfold journey_samples in Hss.
  apply rbind_Ok in Hss as (gs & Hgs & [= <-]).
  assert (Hq : q ∈ first_seen ∅ (plan_samples gs)).
  { assert (Hin : q ∈ plan_samples gs).
    { apply list_elem_of_In. unfold first_sample in Hfirst.
      apply find_some in Hfirst as [Hin _]. exact Hin. }
    destruct (first_seen_covers ∅ _ q Hin) as (q' & Hq' & Hd);
      [apply not_elem_of_empty|].
    apply first_seen_first in Hq' as Hq''. destruct Hq'' as (_ & _ & Hf).
    rewrite Hd, Hfirst in Hf. injection Hf as <-. exact Hq'. }
  assert (Hfail : fetched q = None) by (unfold fetched; rewrite Hreq; reflexivity).
  destruct (evaluate_all_unanswered area kw (cloud_enabled toggle)
              (plan_samples gs) empty_accum [] q)
    as (answered & q' & rest & Hsplit & Hans & Hq' & Hrun);
    [change (cloud_cover_cache empty_accum) with (∅ : gmap string (num F));
     rewrite dom_empty_L; exact Hq | exact Hfail |].
  change (cloud_cover_cache empty_accum) with (∅ : gmap string (num F)) in Hsplit.
  rewrite dom_empty_L in Hsplit.
  exists answered, q', rest. repeat split; try assumption.
  rewrite (update_solar_production_flat _ _ _ _ _ _ _ _ Hguard Hgs), Hrun.
  reflexivity.
Qed.

(** ** Two runs side by side *)

Lemma same_outcome_eq {A : Type} (x y : result A * list (call F)) :
  same_outcome eq x y -> x = y.
Proof.
  destruct x as [[a|e] l], y as [[b|e'] l']; simpl;
    intros H; try contradiction; destruct H as [-> ->]; reflexivity.
Qed.

Lemma foldM_same {A S S' : Type} (R : S -> S' -> Prop)
  (f : S -> A -> M F S) (f' : S' -> A -> M F S') (l : list A) :
  (∀ s s' x log, R s s' -> same_outcome R (f s x log) (f' s' x log)) ->
  ∀ s s' log, R s s' ->
    same_outcome R (foldM f l s log) (foldM f' l s' log).
Proof.
  intros Hstep. induction l as [|x l IH]; intros s s' log HR; simpl.
  - unfold ret. simpl. auto.
  - unfold bind. specialize (Hstep s s' x log HR).
    destruct (f s x log) as [[s1|e] log1], (f' s' x log) as [[s1'|e'] log1'];
      simpl in Hstep; try contradiction.
    + destruct Hstep as [HR1 <-]. apply IH. assumption.
    + exact Hstep.
Qed.

Lemma bind_same {A A' B B' : Type} (R : A -> A' -> Prop) (R' : B -> B' -> Prop)
  (m : M F A) (m' : M F A') (k : A -> M F B) (k' : A' -> M F B') log :
  same_outcome R (m log) (m' log) ->
  (∀ x x' l, R x x' -> same_outcome R' (k x l) (k' x' l)) ->
  same_outcome R' (bind m k log) (bind m' k' log).
Proof.
  intros Hm Hk. unfold bind.
  destruct (m log) as [[x|e] l], (m' log) as [[x'|e'] l'];
    simpl in Hm; try contradiction.
  - destruct Hm as [HR <-]. apply Hk. assumption.
  - exact Hm.
Qed.

Lemma lift_same {A : Type} (r : result A) log :
  same_outcome eq (lift (F := F) r log) (lift r log).
Proof. unfold lift. destruct r; simpl; auto. Qed.

Lemma route_loop_same (R : accum F -> accum F -> Prop)
  area kw apply area' kw' apply' speed :
  (∀ a a' p log, R a a' ->
     same_outcome R (evaluate_sample area kw apply a p log)
                    (evaluate_sample area' kw' apply' a' p log)) ->
  ∀ (ps : list (json F * json F)) now a a' log, R a a' ->
    same_outcome R (route_loop area kw speed apply ps now a log)
                   (route_loop area' kw' speed apply' ps now a' log).
Proof.
  intros Hstep. induction ps as [|start ps IH]; intros now a a' log HR.
  - simpl. auto.
  - destruct ps as [|end_ rest]; [simpl; auto|].
    rewrite !route_loop_cons.
    apply (bind_same (fun x x' => fst x = fst x' ∧ R (snd x) (snd x'))).
    + unfold segment_step. apply (bind_same eq); [apply lift_same|].
      intros g ? l <-. apply (bind_same R).
      * apply foldM_same; [|assumption]. intros s s' j l' Hs.
        unfold sample_step. apply (bind_same eq); [apply lift_same|].
        intros t ? l'' <-. apply Hstep. assumption.
      * intros a1 a1' l' H1. unfold ret. simpl. auto.
    + intros [now1 a1] [now1' a1'] l [Hnow H1]. simpl in Hnow, H1. subst now1'.
      apply IH. assumption.
Qed.

Lemma update_solar_production_same (R : accum F -> accum F -> Prop)
  (Rout : output F -> output F -> Prop)
  geojson area kw toggle area' kw' toggle' start_date speed log :
  (∀ a a' p log, R a a' ->
     same_outcome R
       (evaluate_sample area kw (cloud_enabled toggle) a p log)
       (evaluate_sample area' kw' (cloud_enabled toggle') a' p log)) ->
  R empty_accum empty_accum ->
  Rout InvalidRoute InvalidRoute ->
  (∀ a a', R a a' ->
     Rout (Production (times a) (production_values a) (total_production a))
          (Production (times a') (production_values a') (total_production a'))) ->
  same_outcome Rout
    (update_solar_production geojson area kw start_date speed toggle log)
    (update_solar_production geojson area' kw' start_date speed toggle' log).
Proof.
  intros Hstep Hinit Hinvalid Hout. unfold update_solar_production.
  apply (bind_same eq); [apply lift_same|]. intros refused ? l <-.
  destruct refused; [unfold ret; simpl; auto|].
  apply (bind_same eq); [apply lift_same|]. intros coordinates ? l1 <-.
  apply (bind_same eq); [apply lift_same|]. intros ps ? l2 <-.
  apply (bind_same eq); [apply lift_same|]. intros t0 ? l3 <-.
  apply (bind_same R); [apply route_loop_same; assumption|].
  intros a a' l4 HR. unfold ret. simpl. auto.
Qed.

Lemma record_sample_same_clock area kw att area' kw' att' cache a a' p :
  same_clock a a' ->
  same_clock (record_sample area kw att cache a p)
             (record_sample area' kw' att' cache a' p).
Proof.
  intros (_ & Ht & Hv). unfold record_sample, same_clock.
  destruct (fgt _ _); simpl; rewrite ?Ht, ?length_app, ?Hv; auto.
Qed.

Lemma evaluate_sample_same_clock area kw apply area' kw' apply' a a' p log :
  same_clock a a' ->
  same_outcome same_clock (evaluate_sample area kw apply a p log)
                          (evaluate_sample area' kw' apply' a' p log).
Proof.
  intros Hs. pose proof Hs as (Hc & _).
  destruct (cloud_cover_cache a !! sample_date p) as [v|] eqn:Hv.
  - rewrite (evaluate_sample_hit _ _ _ a _ _ _ Hv).
    rewrite Hc in Hv. rewrite (evaluate_sample_hit _ _ _ a' _ _ _ Hv).
    simpl. split; [|reflexivity]. rewrite Hc.
    apply record_sample_same_clock. assumption.
  - destruct (fetched p) as [v|] eqn:Hp.
    + rewrite (evaluate_sample_miss _ _ _ a _ _ _ Hv Hp).
      rewrite Hc in Hv. rewrite (evaluate_sample_miss _ _ _ a' _ _ _ Hv Hp).
      simpl. split; [|reflexivity]. rewrite Hc.
      apply record_sample_same_clock. assumption.
    + rewrite (evaluate_sample_unanswered _ _ _ a _ _ Hv Hp).
      rewrite Hc in Hv. rewrite (evaluate_sample_unanswered _ _ _ a' _ _ Hv Hp).
      simpl. auto.
Qed.

(** X4. The panel area, the yield and the cloud toggle decide nothing but
    the powers and the total: two runs that differ only in them show the
    same timestamps, make the same provider calls in the same order, and
    raise the same exception if either raises. *)
Theorem panel_and_toggle_change_only_power geojson start_date speed
  area kw toggle area' kw' toggle' :
  same_outcome same_series
    (update_solar_production geojson area kw start_date speed toggle [])
    (update_solar_production geojson area' kw' start_date speed toggle' []).
Proof.
  apply (update_solar_production_same same_clock).
  - intros a a' p log. apply evaluate_sample_same_clock.
  - repeat split.
  - exact I.
  - intros a a' (_ & Ht & Hv). simpl. auto.
Qed.

Lemma evaluate_sample_fallback area kw apply apply' a p log :
  (∀ lat lon d, ∃ r, requests_get lat lon d = Response r ∧ provider_failure r) ->
  all_fallback (cloud_cover_cache a) ->
  same_outcome (fun a1 a2 => a1 = a2 ∧ all_fallback (cloud_cover_cache a1))
    (evaluate_sample area kw apply a p log)
    (evaluate_sample area kw apply' a p log).
Proof.
  intros Hdown Hzero.
  assert (Hatt : (if apply then py_sub (PInt 1) (PInt 0) else PInt 1)
                 = (if apply' then py_sub (PInt 1) (PInt 0) else PInt 1 : num F))
    by (destruct apply, apply'; reflexivity).
  destruct (cloud_cover_cache a !! sample_date p) as [v|] eqn:Hv.
  - rewrite !(evaluate_sample_hit _ _ _ a _ _ _ Hv).
    rewrite (Hzero _ _ Hv), Hatt. simpl. rewrite record_sample_cache. auto.
  - destruct (Hdown (s_lat p) (s_lon p) (remove_char "-" (sample_date p)))
      as (r & Hr & Hfail).
    assert (Hp : fetched p = Some (PInt 0)).
    { unfold fetched. rewrite Hr, (failure_returns_zero _ _ Hfail). reflexivity. }
    rewrite !(evaluate_sample_miss _ _ _ a _ _ _ Hv Hp), Hatt. simpl.
    rewrite record_sample_cache. repeat split.
    intros d v. destruct (decide (sample_date p = d)) as [<-|Hne].
    + rewrite lookup_insert_eq. congruence.
    + rewrite lookup_insert_ne by assumption. apply Hzero.
Qed.

(** X5. While the provider answers every query with a failure, the cloud
    toggle makes no difference at all: the run with the attenuation applied
    returns the very result, and makes the very calls, of the run without. *)
Theorem failing_provider_equals_disabled geojson area kw start_date speed
  toggle toggle' :
  (∀ lat lon d, ∃ r, requests_get lat lon d = Response r ∧ provider_failure r) ->
  update_solar_production geojson area kw start_date speed toggle []
  = update_solar_production geojson area kw start_date speed toggle' [].
Proof.
  intros Hdown. apply same_outcome_eq.
  apply (update_solar_production_same
           (fun a1 a2 => a1 = a2 ∧ all_fallback (cloud_cover_cache a1))).
  - intros a a' p log [<- Hzero]. apply evaluate_sample_fallback; assumption.
  - split; [reflexivity|]. intros d v. simpl. rewrite lookup_empty. discriminate.
  - reflexivity.
  - intros a a' [<- _]. reflexivity.
Qed.

(** ** [fetch_cloud_cover] on odd payloads *)

(** Once the payload holds properties.parameter.CLOUD_AMT, the [try] block
    is down to the entry of the date. *)
Lemma parse_cloud_cover_table (data cloud_amt : json F) fd :
  cloud_amt_table data = Some cloud_amt ->
  parse_cloud_cover data fd
  = (do cloud_cover <- py_get cloud_amt fd (JNum (PInt 0));
     do fraction <- json_truediv cloud_cover (PInt 100);
     Ok (Some fraction)).
Proof.
  intros Htable. destruct data as [| | | | |d]; try discriminate.
  simpl in Htable.
  destruct (assoc "properties" d) as [[| | | | |d1]|] eqn:Hd; try discriminate.
  destruct (assoc "parameter" d1) as [[| | | | |d2]|] eqn:Hd1; try discriminate.
  unfold parse_cloud_cover. simpl. rewrite Hd. simpl. rewrite Hd1. simpl.
  rewrite Htable. reflexivity.
Qed.

Lemma fetch_cloud_cover_response lat lon date log (r : response F) :
  requests_get lat lon (remove_char "-" date) = Response r ->
  fetch_cloud_cover lat lon date log
  = (Ok (cloud_cover_of_response r (remove_char "-" date)),
     log ++ [ {| call_lat := lat; call_lon := lon; call_date := date |} ]).
Proof. unfold fetch_cloud_cover. intros ->. reflexivity. Qed.

(** X1. A successful answer whose CLOUD_AMT table has no entry for the
    requested date is not treated as a failure: [.get(date, 0)] supplies 0
    and the function returns the float 0/100, a clear sky. *)
Theorem missing_date_counts_as_clear lat lon date log (r : response F) data tbl :
  requests_get lat lon (remove_char "-" date) = Response r ->
  status_code r = 200 ->
  json_body r = Some data ->
  cloud_amt_table data = Some (JDict tbl) ->
  assoc (remove_char "-" date) tbl = None ->
  fetch_cloud_cover lat lon date log
  = (Ok (PFloat (fdiv (of_Z 0) (of_Z 100))),
     log ++ [ {| call_lat := lat; call_lon := lon; call_date := date |} ]).
Proof.
  intros Hreq Hstatus Hbody Htable Hdate.
  rewrite (fetch_cloud_cover_response _ _ _ _ _ Hreq).
  unfold cloud_cover_of_response.
  rewrite Hstatus, Hbody, (parse_cloud_cover_table _ _ _ Htable). simpl.
  rewrite Hdate. reflexivity.
Qed.

(** X2. A successful answer whose CLOUD_AMT is not an object, or whose
    entry for the date is neither a number nor a boolean (a null, a string,
    an array, an object), ends in the exception handler: the function
    returns the integer 0 and does not raise. *)
Theorem unusable_entry_falls_back_to_zero lat lon date log (r : response F)
  data cloud_amt :
  requests_get lat lon (remove_char "-" date) = Response r ->
  status_code r = 200 ->
  json_body r = Some data ->
  cloud_amt_table data = Some cloud_amt ->
  (is_object cloud_amt = false ∨
   ∃ tbl v, cloud_amt = JDict tbl ∧
            assoc (remove_char "-" date) tbl = Some v ∧
            match v with JNum _ | JBool _ => False | _ => True end) ->
  fetch_cloud_cover lat lon date log
  = (Ok (PInt 0),
     log ++ [ {| call_lat := lat; call_lon := lon; call_date := date |} ]).
Proof.
  intros Hreq Hstatus Hbody Htable Hbad.
  rewrite (fetch_cloud_cover_response _ _ _ _ _ Hreq).
  unfold cloud_cover_of_response.
  rewrite Hstatus, Hbody, (parse_cloud_cover_table _ _ _ Htable). simpl.
  destruct Hbad as [Hobj | (tbl & v & -> & Hv & Hkind)].
  - destruct cloud_amt; try discriminate; reflexivity.
  - simpl. rewrite Hv. destruct v; try contradiction; reflexivity.
Qed.

Lemma remove_char_clean (c : ascii) (s : string) :
  has_char c s = false -> remove_char c s = s.
Proof.
  induction s as [|a s IH]; simpl; [reflexivity|].
  destruct (Ascii.eqb a c); simpl; [discriminate|].
  intros Hs. rewrite IH by assumption. reflexivity.
Qed.

Lemma remove_char_app (c : ascii) (s t : string) :
  remove_char c (s ++ t) = (remove_char c s ++ remove_char c t)%string.
Proof.
  induction s as [|a s IH]; simpl; [reflexivity|].
  destruct (Ascii.eqb a c); simpl; rewrite IH; reflexivity.
Qed.

(** X18. For a date key made of three dash-free parts joined by dashes (the
    YYYY-MM-DD of the caller), the request and the lookup in the payload
    both use the three parts run together (YYYYMMDD). *)
Theorem request_uses_compact_date lat lon (y m d : string) log :
  has_char "-" y = false -> has_char "-" m = false -> has_char "-" d = false ->
  fetch_cloud_cover lat lon (y ++ "-" ++ m ++ "-" ++ d)%string log
  = match requests_get lat lon (y ++ m ++ d)%string with
    | ConnectionFailed =>
        (Raise RequestException,
         log ++ [ {| call_lat := lat; call_lon := lon;
                     call_date := (y ++ "-" ++ m ++ "-" ++ d)%string |} ])
    | Response r =>
        (Ok (cloud_cover_of_response r (y ++ m ++ d)%string),
         log ++ [ {| call_lat := lat; call_lon := lon;
                     call_date := (y ++ "-" ++ m ++ "-" ++ d)%string |} ])
    end.
Proof.
  intros Hy Hm Hd. unfold fetch_cloud_cover.
  assert (Hfd : remove_char "-" (y ++ "-" ++ m ++ "-" ++ d)%string
                = (y ++ m ++ d)%string).
  { rewrite !remove_char_app, (remove_char_clean _ y Hy),
      (remove_char_clean _ m Hm), (remove_char_clean _ d Hd).
    reflexivity. }
  rewrite Hfd. destruct (requests_get _ _ _); reflexivity.
Qed.

(** ** The guard and the decoding of the input *)

Lemma no_route_object (d : list (string * json F)) :
  no_route (JDict d)
  = Ok (match assoc "features" d with
        | Some features => negb (truthy features)
        | None => true
        end).
Proof.
  unfold no_route. destruct d as [|kv d']; [reflexivity|].
  cbn [truthy negb py_contains py_getitem rbind].
  destruct (assoc "features" (kv :: d')); reflexivity.
Qed.

(** X8. A GeoJSON object is refused exactly when it has no "features"
    member or that member is falsy (an empty array, null, ...); the guard
    itself never raises on an object. *)
Theorem object_refused_iff_no_features (d : list (string * json F))
  area kw start_date speed toggle :
  update_solar_production (JDict d) area kw start_date speed toggle []
  = (Ok InvalidRoute, [])
  <-> (assoc "features" d = None ∨
       ∃ features, assoc "features" d = Some features ∧
                   truthy features = false).
Proof.
  split.
  - intros Hrun.
    apply update_solar_production_Ok in Hrun as [(Hguard & _)|(_ & Hrun)].
    + rewrite no_route_object in Hguard. injection Hguard as Hguard.
      destruct (assoc "features" d) as [features|]; [|auto].
      right. exists features. split; [reflexivity|].
      apply negb_true_iff. assumption.
    + destruct Hrun as (gs & a' & _ & _ & [=]).
  - intros H. apply update_solar_production_refused.
    rewrite no_route_object.
    destruct H as [->|(features & -> & ->)]; reflexivity.
Qed.

(** X9. A GeoJSON value that is not an object never yields a series: the
    run is refused (null, false, 0, an empty string or array, a string or
    array that does not hold "features") or the guard raises TypeError; in
    neither case is the provider called. *)
Theorem non_object_never_simulated (geojson : json F)
  area kw start_date speed toggle :
  is_object geojson = false ->
  update_solar_production geojson area kw start_date speed toggle []
  = (Ok InvalidRoute, []) ∨
  update_solar_production geojson area kw start_date speed toggle []
  = (Raise TypeError, []).
Proof.
  intros Hobj. unfold update_solar_production, bind, lift, no_route.
  destruct geojson as [|b|n|s|l|d]; try discriminate; simpl.
  - left. reflexivity.
  - destruct b; simpl; [right | left]; reflexivity.
  - destruct (num_is_zero n); simpl; [left | right]; reflexivity.
  - destruct (String.eqb s ""); simpl; [left; reflexivity|].
    destruct (is_substring "features" s); simpl; [right | left]; reflexivity.
  - destruct l as [|x l']; simpl; [left; reflexivity|].
    destruct (is_str "features" x || existsb (is_str "features") l'); simpl;
      [right | left]; reflexivity.
Qed.

(** X10. When the first feature is an object without "geometry", or its
    geometry is an object without "coordinates", the run raises KeyError
    (it is not reported as an invalid route) and the provider is not
    called. *)
Theorem missing_geometry_raises_KeyError (d feature : list (string * json F))
  rest area kw start_date speed toggle :
  assoc "features" d = Some (JList (JDict feature :: rest)) ->
  (assoc "geometry" feature = None ∨
   ∃ geometry, assoc "geometry" feature = Some (JDict geometry) ∧
               assoc "coordinates" geometry = None) ->
  update_solar_production (JDict d) area kw start_date speed toggle []
  = (Raise KeyError, []).
Proof.
  intros Hfeatures Hmissing.
  unfold update_solar_production, bind, lift.
  rewrite no_route_object, Hfeatures. simpl.
  unfold coordinates_of. simpl. rewrite Hfeatures. simpl.
  destruct Hmissing as [->|(geometry & -> & Hc)]; [reflexivity|].
  simpl. rewrite Hc. reflexivity.
Qed.

(** X11. Only the first feature is read: two GeoJSON objects whose
    "features" arrays start with the same feature give the same run,
    whatever follows it and whatever else the objects hold. *)
Theorem only_first_feature_is_read (d d' : list (string * json F))
  (feature : json F) rest rest' area kw start_date speed toggle log :
  assoc "features" d = Some (JList (feature :: rest)) ->
  assoc "features" d' = Some (JList (feature :: rest')) ->
  update_solar_production (JDict d) area kw start_date speed toggle log
  = update_solar_production (JDict d') area kw start_date speed toggle log.
Proof.
  intros Hd Hd'. unfold update_solar_production, bind, lift.
  rewrite !no_route_object, Hd, Hd'. simpl.
  unfold coordinates_of. simpl. rewrite Hd, Hd'. reflexivity.
Qed.

(** X12. The start date is parsed after the coordinates are decoded and
    before the loop: on a route that is not refused and whose positions
    decode, a start date that does not parse raises ValueError, and the
    provider is not called. *)
Theorem bad_start_date_raises_ValueError geojson area kw start_date speed
  toggle (ps : list (json F * json F)) :
  no_route geojson = Ok false ->
  journey_positions geojson = Ok ps ->
  strptime start_date = None ->
  update_solar_production geojson area kw start_date speed toggle []
  = (Raise ValueError, []).
Proof.
  intros Hguard Hps Hdate. unfold journey_positions in Hps.
  apply rbind_Ok in Hps as (coordinates & Hc & Hps).
  unfold update_solar_production, bind, lift, parse_start.
  rewrite Hguard, Hc, Hps, Hdate. reflexivity.
Qed.

(** X13. With a vessel speed of zero and a route of at least two numeric
    waypoints that geopy accepts, the division of line 102 raises
    ZeroDivisionError on the first segment, before any provider call. *)
Theorem zero_speed_raises_ZeroDivisionError geojson area kw start_date speed
  toggle (start end_ : json F * json F) rest t0 lat1 lon1 lat2 lon2 distance :
  no_route geojson = Ok false ->
  journey_positions geojson = Ok (start :: end_ :: rest) ->
  strptime start_date = Some t0 ->
  as_float (fst start) = Ok lat1 -> as_float (snd start) = Ok lon1 ->
  as_float (fst end_) = Ok lat2 -> as_float (snd end_) = Ok lon2 ->
  geodesic_km lat1 lon1 lat2 lon2 = Some distance ->
  num_is_zero speed = true ->
  update_solar_production geojson area kw start_date speed toggle []
  = (Raise ZeroDivisionError, []).
Proof.
  intros Hguard Hps Hdate H1 H2 H3 H4 Hdist Hzero.
  unfold journey_positions in Hps.
  apply rbind_Ok in Hps as (coordinates & Hc & Hps).
  unfold update_solar_production, bind at 1 2 3 4 5, lift, parse_start.
  rewrite Hguard, Hc, Hps, Hdate, route_loop_cons.
  unfold bind, segment_step, bind, lift, plan_segment, py_truediv.
  rewrite H1, H2, H3, H4. simpl. rewrite Hdist. simpl. rewrite Hzero.
  reflexivity.
Qed.

Lemma mapR_unpack_bad (items : list (json F)) :
  Forall (fun c => is_array c = true) items ->
  Exists (fun c => is_pair c = false) items ->
  mapR (fun c => do (lon, lat) <- unpack2 c; Ok (lat, lon)) items
  = Raise ValueError.
Proof.
  intros Harr Hbad. induction items as [|c items IH]; [inversion Hbad|].
  apply Forall_cons in Harr as [Hc Harr]. simpl.
  destruct c as [| | | |l|]; try discriminate.
  destruct l as [|x [|y [|z l']]]; try reflexivity.
  simpl. rewrite IH; [reflexivity | assumption |].
  apply Exists_cons in Hbad as [Hbad|Hbad]; [discriminate | assumption].
Qed.

(** X14. When the coordinates are an array of arrays and one of them does
    not have exactly two components (a position with an altitude, say), the
    unpacking of line 91 raises ValueError: the run gives no result and
    makes no provider call, however many well-formed positions there are. *)
Theorem odd_position_raises_ValueError geojson area kw start_date speed toggle
  (items : list (json F)) :
  no_route geojson = Ok false ->
  coordinates_of geojson = Ok (JList items) ->
  Forall (fun c => is_array c = true) items ->
  Exists (fun c => is_pair c = false) items ->
  update_solar_production geojson area kw start_date speed toggle []
  = (Raise ValueError, []).
Proof.
  intros Hguard Hc Harr Hbad.
  unfold update_solar_production, bind, lift, route_positions_of.
  rewrite Hguard, Hc. simpl. rewrite (mapR_unpack_bad _ Harr Hbad).
  reflexivity.
Qed.

(** ** Sizes and bounds *)

Lemma plan_samples_at_least_two speed gs :
  Forall (fun g => ∃ start end_ t, plan_segment speed start end_ t = Ok g) gs ->
  (2 * length gs <= length (plan_samples gs))%nat.
Proof.
  induction 1 as [|g gs (start & end_ & t & Hg) _ IH]; [simpl; lia|].
  rewrite plan_samples_cons, length_app, segment_samples_length.
  apply plan_segment_Ok in Hg as (_ & Hn & _). simpl. lia.
Qed.

Lemma filter_length_le {A : Type} (f : A -> bool) (l : list A) :
  (length (List.filter f l) <= length l)%nat.
Proof.
  induction l as [|x l IH]; simpl; [lia|]. destruct (f x); simpl; lia.
Qed.

(** The dates called for are the dates of the stream, each once. *)
Lemma first_seen_dates ss :
  map sample_date (first_seen ∅ ss) ≡ₚ remove_dups (map sample_date ss).
Proof.
  apply NoDup_Permutation.
  - apply first_seen_NoDup.
  - apply NoDup_remove_dups.
  - intros d. rewrite elem_of_remove_dups.
    change (map sample_date ?l) with (sample_date <$> l).
    rewrite !list_elem_of_fmap. split.
    + intros (q & -> & Hq). apply first_seen_first in Hq as (_ & Hq & _). eauto.
    + intros (p & -> & Hp).
      destruct (first_seen_covers ∅ ss p Hp) as (q & Hq & Hd);
        [apply not_elem_of_empty|]. eauto.
Qed.

(** X7. A run over n waypoints goes through n - 1 segments and evaluates at
    least two samples on each of them, so at least 2 (n - 1) in all; the
    output series is never longer than the stream of evaluated samples. *)
Theorem series_no_longer_than_stream geojson area kw start_date speed toggle
  ts vs total log :
  update_solar_production geojson area kw start_date speed toggle []
  = (Ok (Production ts vs total), log) ->
  ∃ ps gs,
    journey_positions geojson = Ok ps ∧
    journey_plan geojson start_date speed = Ok gs ∧
    length gs = pred (length ps) ∧
    Forall (fun g => (2 <= length (segment_samples g))%nat) gs ∧
    (2 * length gs <= length (plan_samples gs))%nat ∧
    (length ts <= length (plan_samples gs))%nat ∧
    length vs = length ts.
Proof.
  intros H. apply run_pipeline in H as (gs & Hgs & -> & -> & _).
  pose proof Hgs as Hplan.
  apply journey_plan_Ok in Hplan as (coordinates & ps & t0 & Hc & Hps & _ & Hroute).
  exists ps, gs. split.
  { unfold journey_positions. rewrite Hc. exact Hps. }
  split; [assumption|]. split; [apply (route_plan_length _ _ _ _ Hroute)|].
  apply route_plan_chain in Hroute as [_ Hall].
  split.
  { eapply Forall_impl; [exact Hall|]. intros g (start & end_ & t & Hg).
    simpl. rewrite segment_samples_length.
    apply plan_segment_Ok in Hg as (_ & Hn & _). lia. }
  split; [apply (plan_samples_at_least_two _ _ Hall)|].
  rewrite !length_map. split; [apply filter_length_le | reflexivity].
Qed.

(** X17. The number of provider calls of a run is the number of distinct
    dates among the evaluated samples (retained or not), hence at most the
    number of samples. *)
Theorem calls_count_distinct_dates geojson area kw start_date speed toggle
  ts vs total log :
  update_solar_production geojson area kw start_date speed toggle []
  = (Ok (Production ts vs total), log) ->
  ∃ ss,
    journey_samples geojson start_date speed = Ok ss ∧
    length log = length (remove_dups (map sample_date ss)) ∧
    map call_date log ≡ₚ remove_dups (map sample_date ss) ∧
    (length log <= length ss)%nat.
Proof.
  intros H. apply run_pipeline in H as (gs & Hgs & _ & _ & _ & -> & _).
  exists (plan_samples gs). split; [apply journey_samples_plan, Hgs|].
  pose proof (first_seen_dates (plan_samples gs)) as Hperm.
  assert (Hlen : length (map call_of (first_seen ∅ (plan_samples gs)))
                 = length (remove_dups (map sample_date (plan_samples gs)))).
  { rewrite length_map, <- (length_map sample_date).
    apply Permutation_length. exact Hperm. }
  split; [exact Hlen|]. split; [rewrite map_map; exact Hperm|].
  rewrite Hlen, <- (length_map sample_date (plan_samples gs)).
  apply submseteq_length, NoDup_submseteq; [apply NoDup_remove_dups|].
  intros d. apply elem_of_remove_dups.
Qed.

(** X6. When no evaluated sample is above the horizon, the run still
    completes: the series is empty and the total is the integer 0 it was
    initialised with. *)
Theorem dark_journey_yields_nothing geojson area kw start_date speed toggle
  ss ts vs total log :
  journey_samples geojson start_date speed = Ok ss ->
  (∀ p, p ∈ ss -> fgt (solar_altitude p) (of_Z 0) = false) ->
  update_solar_production geojson area kw start_date speed toggle []
  = (Ok (Production ts vs total), log) ->
  ts = [] ∧ vs = [] ∧ total = PInt 0.
Proof.
  intros Hss Hdark H. apply run_pipeline in H as (gs & Hgs & -> & -> & -> & _).
  rewrite (journey_samples_plan _ _ _ _ Hgs) in Hss. injection Hss as <-.
  assert (Hnone : List.filter daylight (plan_samples gs) = []).
  { induction (plan_samples gs) as [|p l IH]; [reflexivity|].
    simpl. unfold daylight at 1. rewrite (Hdark p) by (by left).
    apply IH. intros q Hq. apply Hdark. by right. }
  rewrite Hnone. auto.
Qed.

Lemma plan_times_from_start gs : ∀ now,
  clock_chain now gs ->
  Forall (fun g => 0 <= segment_duration g) gs ->
  Forall (fun t => now <= t) (map s_time (plan_samples gs)).
Proof.
  induction gs as [|g gs IH]; intros now Hchain Hdur; [constructor|].
  destruct Hchain as [Hstart Hchain].
  apply Forall_cons in Hdur as [Hg Hdur].
  rewrite plan_samples_cons, map_app. apply Forall_app. split.
  - apply Forall_forall. intros t Ht. unfold segment_samples in Ht.
    rewrite map_map in Ht. simpl in Ht.
    apply list_elem_of_In, in_map_iff in Ht as (j & <- & _).
    unfold ten_minutes. lia.
  - eapply Forall_impl; [apply (IH _ Hchain Hdur)|].
    intros t Ht. simpl in Ht. lia.
Qed.

(** X15. As long as no segment has a negative duration (the speed is
    positive), no sample is stamped before the configured start time: every
    timestamp of the output series is at or after it. *)
Theorem no_sample_before_start geojson area kw start_date speed toggle
  ts vs total log :
  update_solar_production geojson area kw start_date speed toggle []
  = (Ok (Production ts vs total), log) ->
  ∃ gs t0,
    journey_plan geojson start_date speed = Ok gs ∧
    strptime start_date = Some t0 ∧
    (Forall (fun g => 0 <= segment_duration g) gs ->
     Forall (fun t => t0 <= t) (map s_time (plan_samples gs)) ∧
     Forall (fun t => t0 <= t) ts).
Proof.
  intros H. apply run_pipeline in H as (gs & Hgs & -> & _).
  pose proof Hgs as Hplan.
  apply journey_plan_Ok in Hplan as (coordinates & ps & t0 & _ & _ & Ht0 & Hroute).
  unfold parse_start in Ht0.
  destruct (strptime start_date) as [t|]; [|discriminate]. injection Ht0 as ->.
  exists gs, t0. do 2 (split; [auto|]). intros Hdur.
  apply route_plan_chain in Hroute as [Hchain _].
  pose proof (plan_times_from_start _ _ Hchain Hdur) as Hfrom.
  split; [exact Hfrom|].
  rewrite Forall_forall in Hfrom |- *. intros t Ht. apply Hfrom.
  apply list_elem_of_In, in_map_iff in Ht as (p & <- & Hp).
  apply filter_In in Hp as [Hp _]. apply list_elem_of_In, in_map. exact Hp.
Qed.

(** X16. On a segment that lasts twenty minutes or more, the last sample
    is stamped less than twenty minutes before the end of the traversal and
    not after it; when the segment lasts less than 2^34 s (some 544 years)
    it is stamped ten minutes or more before the end, so that the closing
    stretch of the segment is not sampled.  No sample of the segment is
    later than that last one. *)
Theorem segment_tail_is_not_sampled speed start end_ now g :
  plan_segment speed start end_ now = Ok g ->
  2 * 600000000 <= segment_duration g ->
  let last_stamp := now + 600000000 * (num_steps g - 1) in
  times_segment g !! (Z.to_nat (num_steps g) - 1)%nat = Some last_stamp ∧
  now + segment_duration g - 2 * 600000000 < last_stamp ∧
  last_stamp <= now + segment_duration g ∧
  (segment_duration g < 2 ^ 34 * 1000000 ->
   last_stamp <= now + segment_duration g - 600000000) ∧
  Forall (fun t => t <= last_stamp) (times_segment g).
Proof.
  intros Hg Hdur. cbv zeta.
  pose proof (plan_segment_range _ _ _ _ _ Hg) as (Hrange & _).
  apply plan_segment_Ok in Hg as (_ & Hn & Htimes).
  pose proof (num_steps_bounds _ Hrange) as Hbounds.
  pose proof (fun H => num_steps_exact _ (proj1 Hrange) H) as Hexact.
  rewrite <- Hn in Hbounds, Hexact.
  change ten_minutes with 600000000 in *.
  pose proof (Z.mul_div_le (segment_duration g) 600000000 ltac:(lia)) as Hlo.
  pose proof (Z.mul_succ_div_gt (segment_duration g) 600000000 ltac:(lia)) as Hhi.
  assert (Hq : 2 <= segment_duration g / 600000000)
    by (apply Z.div_le_lower_bound; lia).
  split; [|split; [lia | split; [lia | split]]].
  - rewrite Htimes, lookup_map_seq by lia. f_equal. simpl. lia.
  - intros Hshort. specialize (Hexact Hshort). lia.
  - rewrite Htimes. apply Forall_forall. intros t Ht.
    apply list_elem_of_In, in_map_iff in Ht as (j & <- & Hj).
    apply in_seq in Hj. lia.
Qed.

(** X19. A run that evaluates any sample calls the provider first for its
    very first sample: the call carries the start date and the first
    interpolated point of the first segment.  A run without a segment makes
    no call. *)
Theorem first_call_is_for_start_date geojson area kw start_date speed toggle
  ts vs total log :
  update_solar_production geojson area kw start_date speed toggle []
  = (Ok (Production ts vs total), log) ->
  ∃ gs t0,
    journey_plan geojson start_date speed = Ok gs ∧
    strptime start_date = Some t0 ∧
    match gs with
    | [] => log = []
    | g :: _ =>
        ∃ rest, log = {| call_lat := lats g 0%nat;
                         call_lon := lons g 0%nat;
                         call_date := strftime_date t0 |} :: rest
    end.
Proof.
  intros H. apply run_pipeline in H as (gs & Hgs & _ & _ & _ & -> & _).
  pose proof Hgs as Hplan.
  apply journey_plan_Ok in Hplan as (coordinates & ps & t0 & _ & _ & Ht0 & Hroute).
  unfold parse_start in Ht0.
  destruct (strptime start_date) as [t|]; [|discriminate]. injection Ht0 as ->.
  exists gs, t0. do 2 (split; [auto|]).
  apply route_plan_chain in Hroute as [Hchain Hall].
  destruct gs as [|g gs']; [reflexivity|].
  destruct Hchain as [Hstart _].
  apply Forall_cons in Hall as [(start & end_ & t & Hg) _].
  apply plan_segment_Ok in Hg as (_ & Hn & _).
  rewrite plan_samples_cons. unfold segment_samples.
  destruct (Z.to_nat (num_steps g)) as [|n] eqn:Hsteps; [lia|].
  simpl. rewrite decide_False by apply not_elem_of_empty.
  eexists. simpl. unfold call_of, sample_date. simpl.
  rewrite Hstart, Z.mul_0_r, Z.add_0_r. reflexivity.
Qed.

End Further.

(** * The claims on concrete runs

    Each theorem above that has a hypothesis is applied here to a run of the
    concrete platform, and each claim the code does not meet as stated is
    refuted on one. *)

Ltac by_evaluation := vm_compute; reflexivity.

Section PartlyCloudy.
Import Mock.
Local Open Scope string_scope.
#[local] Existing Instance partly_cloudy.

(** C1 on the morning run along the equator: 33 samples, 5.94 kWh. *)
Lemma total_energy_is_rectangle_sum_witness :
  total_of morning_run
  = fold_left
      (fun acc power =>
         py_add acc (py_mul power (PFloat (fdiv (of_Z 10) (of_Z 60)))))
      (values_of morning_run) (PInt 0)
  ∧ length (times_of morning_run) = length (values_of morning_run).
Proof.
  apply (total_energy_is_rectangle_sum
           equator_leg (PInt 10) kw_default "2024-06-21 10:00" (PInt 20) ["on"]
           (times_of morning_run) (values_of morning_run)
           (total_of morning_run) (snd morning_run)).
  by_evaluation.
Defined.

(** C2 fails as stated: with the flag off the provider is queried. *)
Lemma cloud_flag_off_still_queries :
  cloud_enabled [] = false ∧
  ∃ out,
    update_solar_production equator_leg (PInt 10) kw_default
      "2024-06-21 10:00" (PInt 20) [] []
    = (Ok out,
       [ {| call_lat := 0%float; call_lon := 0%float;
            call_date := "2024-06-21" |} ]).
Proof. split; [reflexivity|]. eexists. by_evaluation. Qed.

(** C2 as amended, on the same run. *)
Lemma disabled_flag_attenuation_is_one_witness :
  ∃ ss,
    journey_samples equator_leg "2024-06-21 10:00" (PInt 20) = Ok ss ∧
    times_of morning_run_flag_off = map s_time (List.filter daylight ss) ∧
    values_of morning_run_flag_off
    = map (segment_production (PInt 10) kw_default (PInt 1))
          (List.filter daylight ss) ∧
    snd morning_run_flag_off = map call_of (first_seen ∅ ss).
Proof.
  apply (disabled_flag_attenuation_is_one
           equator_leg (PInt 10) kw_default "2024-06-21 10:00" (PInt 20) []
           (times_of morning_run_flag_off) (values_of morning_run_flag_off)
           (total_of morning_run_flag_off) (snd morning_run_flag_off)).
  - reflexivity.
  - by_evaluation.
Defined.

(** C4 as amended, on a run over two legs of five and a half hours each. *)
Lemma timestamps_sorted_without_overrun_witness :
  ∃ gs,
    journey_plan two_legs "2024-06-21 06:00" (PInt 20) = Ok gs ∧
    length gs = 2%nat ∧
    no_overrun gs ∧
    StronglySorted Z.le (map s_time (plan_samples gs)) ∧
    StronglySorted Z.le (times_of two_legs_run).
Proof.
  assert (Hrun : update_solar_production two_legs (PInt 10) kw_default
                    "2024-06-21 06:00" (PInt 20) ["on"] []
                  = (Ok (Production (times_of two_legs_run)
                           (values_of two_legs_run) (total_of two_legs_run)),
                     snd two_legs_run)) by by_evaluation.
  apply timestamps_sorted_without_overrun in Hrun
    as (gs & Hgs & _ & _ & [Hstream _] & Hsorted).
  exists gs. split; [exact Hgs|].
  assert (Hplan : ∃ g1 g2, gs = [g1; g2] ∧
                           segment_duration g1 = 20025000000).
  { vm_compute in Hgs. injection Hgs as <-. eauto. }
  destruct Hplan as (g1 & g2 & -> & Hd1).
  assert (Hdur : no_overrun [g1; g2]).
  { simpl. rewrite Hd1. unfold ten_minutes. split; [lia | exact I]. }
  split; [reflexivity|]. split; [exact Hdur|].
  split; [exact (Hstream Hdur) | exact (Hsorted Hdur)].
Defined.

(** C6 on the run over two legs: 66 samples of one date, one call. *)
Lemma one_query_per_date_witness :
  ∃ ss,
    journey_samples two_legs "2024-06-21 06:00" (PInt 20) = Ok ss ∧
    NoDup (map call_date (snd two_legs_run)) ∧
    (∀ c, c ∈ snd two_legs_run ->
          ∃ q, first_sample (call_date c) ss = Some q ∧ c = call_of q) ∧
    (∀ p, p ∈ ss ->
          ∃ q v, first_sample (sample_date p) ss = Some q ∧
                 calls_for (sample_date p) (snd two_legs_run) = [call_of q] ∧
                 fetched q = Some v ∧
                 attenuation (cloud_enabled ["on"]) ss p
                 = if cloud_enabled ["on"] then py_sub (PInt 1) v else PInt 1) ∧
    values_of two_legs_run
    = map (fun p => segment_production (PInt 10) kw_default
                      (attenuation (cloud_enabled ["on"]) ss p) p)
          (List.filter daylight ss).
Proof.
  apply (one_query_per_date
           two_legs (PInt 10) kw_default "2024-06-21 06:00" (PInt 20) ["on"]
           (times_of two_legs_run) (values_of two_legs_run)
           (total_of two_legs_run) (snd two_legs_run)).
  by_evaluation.
Defined.

(** C9 on the run over two legs: the second leg starts 20025 s after the
    first, the time 111.25 km take at 20 km/h, and not the 19800 s that the
    33 samples of the first leg stand for. *)
Lemma clock_advances_by_segment_duration_witness :
  ∃ g1 g2 t0,
    journey_plan two_legs "2024-06-21 06:00" (PInt 20) = Ok [g1; g2] ∧
    strptime "2024-06-21 06:00" = Some t0 ∧
    seg_start g1 = t0 ∧
    seg_start g2 = seg_start g1 + segment_duration g1 ∧
    (∃ distance,
       geodesic_km (of_Z 0) (of_Z 0) (of_Z 0) (of_Z 1) = Some distance ∧
       timedelta_hours (fdiv distance (of_Z 20)) = Some (segment_duration g1)) ∧
    segment_duration g1 = 20025000000 ∧
    num_steps g1 = 33 ∧
    seg_start g2 ≠ seg_start g1 + 600000000 * num_steps g1 ∧
    times_segment g1 !! 32%nat = Some (seg_start g1 + 32 * 600000000).
Proof.
  assert (Hrun : update_solar_production two_legs (PInt 10) kw_default
                    "2024-06-21 06:00" (PInt 20) ["on"] []
                  = (Ok (Production (times_of two_legs_run)
                           (values_of two_legs_run) (total_of two_legs_run)),
                     snd two_legs_run)) by by_evaluation.
  apply clock_advances_by_segment_duration in Hrun
    as (ps & gs & t0 & Hps & Hgs & Ht0 & _ & _ & Hfirst & Hnext & Hdur & Hstamp).
  assert (Hplan : ∃ g1 g2, gs = [g1; g2] ∧
                           segment_duration g1 = 20025000000 ∧
                           num_steps g1 = 33).
  { vm_compute in Hgs. injection Hgs as <-. eauto. }
  destruct Hplan as (g1 & g2 & -> & Hd1 & Hn1).
  assert (Hps' : ps = [(JNum (PInt 0), JNum (PInt 0));
                       (JNum (PInt 0), JNum (PInt 1));
                       (JNum (PInt 0), JNum (PInt 2))]).
  { vm_compute in Hps. injection Hps as <-. reflexivity. }
  subst ps.
  exists g1, g2, t0. split; [exact Hgs|]. split; [exact Ht0|].
  split; [exact (Hfirst g1 eq_refl)|].
  pose proof (Hnext 0%nat g1 g2 eq_refl eq_refl) as Hclock.
  split; [exact Hclock|]. split.
  { destruct (Hdur 0%nat g1 eq_refl)
      as (start & end_ & lat1 & lon1 & lat2 & lon2 & distance
          & [= <-] & [= <-] & [= <-] & [= <-] & [= <-] & [= <-] & Hkm & Htime).
    exists distance. split; assumption. }
  split; [exact Hd1|]. split; [exact Hn1|]. split.
  { rewrite Hclock, Hd1, Hn1. lia. }
  destruct (Hstamp g1 32%nat) as [Hlast _]; [by left | rewrite Hn1; lia |].
  exact Hlast.
Defined.

(** C10 on a run through the night: nothing is retained, and each of the
    two dates has its call. *)
Lemma lookup_precedes_horizon_test_witness :
  times_of night_run = [] ∧
  ∃ ss,
    journey_samples equator_leg "2024-06-21 22:00" (PInt 20) = Ok ss ∧
    snd night_run = map call_of (first_seen ∅ ss) ∧
    length (snd night_run) = 2%nat ∧
    (∀ p, p ∈ ss ->
          ∃ q, first_sample (sample_date p) ss = Some q ∧
               calls_for (sample_date p) (snd night_run) = [call_of q]).
Proof.
  split; [reflexivity|].
  assert (Hrun : update_solar_production equator_leg (PInt 10) kw_default
                    "2024-06-21 22:00" (PInt 20) ["on"] []
                  = (Ok (Production (times_of night_run)
                           (values_of night_run) (total_of night_run)),
                     snd night_run)) by by_evaluation.
  apply lookup_precedes_horizon_test in Hrun
    as (ss & Hss & Hlog & Hone & _); [|reflexivity].
  exists ss. repeat split; assumption || reflexivity.
Defined.

(** C5 fails as stated, twice.  With the toggle off the provider's 40 % of
    cloud are fetched and the attenuation used is 1 all the same: the powers
    are those of attenuation 1, higher than with the toggle on.  And when
    the connection breaks, on the night run for 22 June, the exception
    reaches the caller after the two calls made. *)
Lemma fraction_ignored_or_exception_raised :
  (fetch_cloud_cover 0%float 0%float "2024-06-21" []
   = (Ok (PFloat 0x1.999999999999ap-2%float),
      [ {| call_lat := 0%float; call_lon := 0%float;
           call_date := "2024-06-21" |} ]) ∧
   py_sub (PInt 1) (PFloat 0x1.999999999999ap-2%float)
   = PFloat 0x1.3333333333333p-1%float ∧
   values_of morning_run_flag_off
   = map (segment_production (PInt 10) kw_default (PInt 1))
         (List.filter daylight morning_samples) ∧
   ∃ v v', head (values_of morning_run_flag_off) = Some (PFloat v) ∧
           head (values_of morning_run) = Some (PFloat v') ∧
           PrimFloat.ltb v' v = true) ∧
  simulate breaks_at_midnight equator_leg "2024-06-21 22:00" ["on"]
  = (Raise RequestException,
     [ {| call_lat := 0%float; call_lon := 0%float;
          call_date := "2024-06-21" |};
       {| call_lat := 0%float; call_lon := 0.375%float;
          call_date := "2024-06-22" |} ]).
Proof.
  split; [|by_evaluation].
  split; [by_evaluation|]. split; [by_evaluation|]. split; [by_evaluation|].
  do 2 eexists. split; [reflexivity|]. split; reflexivity.
Qed.

(** [steps_of_duration] against the primitive floats, on durations that a
    float holds exactly, so that both divisions are float divisions. *)
Lemma steps_of_duration_on_floats :
  Forall (fun us =>
            Z_of_float (PrimFloat.div
                          (PrimFloat.div (float_of_Z us) 1000000%float)
                          600%float)
            = Some (steps_of_duration us))
    [0; 1; 599999999; 600000000; 1199999999; 20025000000; 86400000000;
     3599999999999; 123456789012345; 8999999999999999; -700000000]%Z.
Proof. repeat (constructor; [by_evaluation|]). constructor. Qed.

(** C8 fails as stated: at 23 mm/h the one-degree leg takes
    17179870799.999999 s, which [total_seconds] rounds to 17179870800.0, and
    the segment gets 28633118 samples where floor(duration / 600) is
    28633117. *)
Lemma centuries_long_segment_gets_one_sample_more :
  ∃ g,
    plan_segment crawl (JNum (PInt 0), JNum (PInt 0))
      (JNum (PInt 0), JNum (PInt 1)) 1718964000000000 = Ok g ∧
    segment_duration g = 17179870799999999 ∧
    num_steps g = 28633118 ∧
    Z.max 2 (segment_duration g / 600000000) = 28633117.
Proof.
  destruct (plan_segment_planned crawl (JNum (PInt 0), JNum (PInt 0))
              (JNum (PInt 0), JNum (PInt 1)) 1718964000000000
              0%float 0%float 0%float 1%float 111.25%float 17179870799999999)
    as (g & Hg & _ & Hdur & Hn);
    try reflexivity; try (apply Z.leb_le; by_evaluation);
    try (split; apply Z.leb_le; by_evaluation).
  exists g. split; [exact Hg|]. split; [exact Hdur|].
  rewrite Hn, Hdur. split; by_evaluation.
Qed.

End PartlyCloudy.

Section FullyOvercast.
Import Mock.
Local Open Scope string_scope.
#[local] Existing Instance fully_overcast.

(** C3 fails as stated: under full cloud cover the samples above the
    horizon are kept with the power 0. *)
Lemma overcast_samples_have_zero_power :
  ∃ ts vs total log,
    update_solar_production equator_leg (PInt 10) kw_default
      "2024-06-21 10:00" (PInt 20) ["on"] []
    = (Ok (Production ts vs total), log) ∧
    length ts = 33%nat ∧
    Forall (fun v => v = PFloat 0%float ∧ fgt (to_float v) (of_Z 0) = false) vs.
Proof.
  exists (times_of overcast_run), (values_of overcast_run),
         (total_of overcast_run), (snd overcast_run).
  split; [by_evaluation|]. split; [reflexivity|].
  repeat constructor.
Qed.

(** C3 as amended, on the same run. *)
Lemma retained_samples_are_above_horizon_witness :
  ∃ ss kept,
    journey_samples equator_leg "2024-06-21 10:00" (PInt 20) = Ok ss ∧
    times_of overcast_run = map s_time kept ∧
    values_of overcast_run
    = map (fun p => segment_production (PInt 10) kw_default
                      (attenuation (cloud_enabled ["on"]) ss p) p) kept ∧
    kept = List.filter (fun p => fgt (solar_altitude p) (of_Z 0)) ss ∧
    ∀ p, p ∈ kept <-> p ∈ ss ∧ fgt (solar_altitude p) (of_Z 0) = true.
Proof.
  apply (retained_samples_are_above_horizon
           equator_leg (PInt 10) kw_default "2024-06-21 10:00" (PInt 20) ["on"]
           (times_of overcast_run) (values_of overcast_run)
           (total_of overcast_run) (snd overcast_run)).
  by_evaluation.
Defined.

End FullyOvercast.

Section ProviderDown.
Import Mock.
Local Open Scope string_scope.
#[local] Existing Instance provider_down.

(** C4 fails as stated: after a segment of length zero the clock has not
    moved, and the first sample of the next segment is stamped ten minutes
    before the last sample of the one before. *)
Lemma zero_length_segment_steps_back :
  ∃ vs total log,
    update_solar_production standstill (PInt 10) kw_default
      "2024-06-21 12:00" (PInt 20) [] []
    = (Ok (Production [1718971200000000; 1718971800000000;
                       1718971200000000; 1718971800000000] vs total), log) ∧
    1718971200000000 < 1718971800000000.
Proof.
  exists (values_of standstill_run), (total_of standstill_run),
         (snd standstill_run).
  split; [by_evaluation | reflexivity].
Qed.

(** C7 fails as stated: a route of one waypoint is not refused, it yields
    the empty series with the total 0. *)
Lemma lone_waypoint_is_not_refused :
  ∃ ps,
    journey_positions lone_waypoint = Ok ps ∧ length ps = 1%nat ∧
    update_solar_production lone_waypoint (PInt 10) kw_default
      "2024-06-21 12:00" (PInt 20) ["on"] []
    = (Ok (Production [] [] (PInt 0)), []) ∧
    Production (F := float) [] [] (PInt 0) ≠ InvalidRoute.
Proof.
  eexists. split; [by_evaluation|]. split; [reflexivity|].
  split; [by_evaluation | discriminate].
Qed.

(** C7 as amended: an empty GeoJSON object is refused, the lone waypoint
    gives the empty series, and neither calls the provider. *)
Lemma short_route_makes_no_calls_witness :
  update_solar_production (JDict []) (PInt 10) kw_default
    "2024-06-21 12:00" (PInt 20) ["on"] []
  = (Ok InvalidRoute, []) ∧
  update_solar_production lone_waypoint (PInt 10) kw_default
    "2024-06-21 12:00" (PInt 20) ["on"] []
  = (Ok (Production [] [] (PInt 0)), []) ∧
  snd (update_solar_production lone_waypoint (PInt 10) kw_default
         "not a date" (PInt 20) ["on"] [])
  = [].
Proof.
  destruct (short_route_makes_no_calls (JDict []) (PInt 10) kw_default
              "2024-06-21 12:00" (PInt 20) ["on"]) as (Hrefused & _ & _).
  destruct (short_route_makes_no_calls lone_waypoint (PInt 10) kw_default
              "2024-06-21 12:00" (PInt 20) ["on"]) as (_ & Hshort & _).
  destruct (short_route_makes_no_calls lone_waypoint (PInt 10) kw_default
              "not a date" (PInt 20) ["on"]) as (_ & _ & Hcalls).
  split; [exact (Hrefused eq_refl)|]. split.
  - apply (Hshort [(JNum (PInt 0), JNum (PInt 0))] 1718971200000000);
      [reflexivity | reflexivity | simpl; lia | by_evaluation].
  - apply Hcalls. intros ps Hps. vm_compute in Hps. injection Hps as <-.
    simpl. lia.
Defined.

(** C8 on the one-degree leg, 20025 s at 20 km/h: 33 samples, the floor of
    33.375; and on a segment between two identical waypoints: no distance,
    no duration, two samples. *)
Lemma segment_sample_count_witness :
  ∃ g g0,
    plan_segment (PInt 20) (JNum (PInt 0), JNum (PInt 0))
      (JNum (PInt 0), JNum (PInt 1)) 1718971200000000 = Ok g ∧
    segment_duration g = 20025000000 ∧
    num_steps g = 33 ∧
    length (segment_samples g) = 33%nat ∧
    plan_segment (PInt 20) (JNum (PInt 0), JNum (PInt 0))
      (JNum (PInt 0), JNum (PInt 0)) 1718971200000000 = Ok g0 ∧
    segment_duration g0 = 0 ∧
    num_steps g0 = 2 ∧
    length (segment_samples g0) = 2%nat ∧
    length (times_segment g0) = 2%nat.
Proof.
  destruct (plan_segment (PInt 20) (JNum (PInt 0), JNum (PInt 0))
              (JNum (PInt 0), JNum (PInt 1)) 1718971200000000)
    as [g|e] eqn:Hg; [|vm_compute in Hg; discriminate].
  destruct (plan_segment (PInt 20) (JNum (PInt 0), JNum (PInt 0))
              (JNum (PInt 0), JNum (PInt 0)) 1718971200000000)
    as [g0|e] eqn:Hg0; [|vm_compute in Hg0; discriminate].
  exists g, g0.
  destruct (segment_sample_count (PInt 10) kw_default (PInt 20) true _ _ _ _ Hg)
    as (_ & _ & Hexact & _ & _ & _ & Hlen & _).
  destruct (segment_sample_count (PInt 10) kw_default (PInt 20) true _ _ _ _ Hg0)
    as (_ & _ & _ & _ & _ & Hzero & Hlen0 & Htimes0 & _).
  assert (Hdur : segment_duration g = 20025000000).
  { vm_compute in Hg. injection Hg as <-. reflexivity. }
  assert (Hdur0 : segment_duration g0 = 0).
  { vm_compute in Hg0. injection Hg0 as <-. reflexivity. }
  assert (Hn : num_steps g = 33).
  { rewrite Hexact, Hdur; [reflexivity | rewrite Hdur; reflexivity]. }
  rewrite Hlen, Hlen0, Htimes0, Hn, (Hzero Hdur0). auto 10.
Defined.

End ProviderDown.

Section OutageThenClouds.
Import Mock.
Local Open Scope string_scope.
#[local] Existing Instance outage_then_clouds.

Lemma outage_then_clouds_answer (lat lon : float) (formatted_date : string) :
  requests_get lat lon formatted_date
  = if String.eqb formatted_date "20240621"
    then unavailable lat lon formatted_date
    else if String.eqb formatted_date "20240622"
    then overcast (PInt 40) lat lon formatted_date
    else ConnectionFailed.
Proof. reflexivity. Qed.

(** C5 as amended, on a run of 22 hours and a quarter from 10:00 on 21
    June, when the provider is down, into 22 June, when it reports 40 %
    cloud: the run completes after two lookups, the 84 samples of the first
    day are evaluated with attenuation 1 and the 48 of the second with 0.6.
    The connection would break for any other date; none is looked up. *)
Lemma answered_lookup_decides_attenuation_witness :
  ∃ ts vs total log,
    update_solar_production four_legs (PInt 10) kw_default
      "2024-06-21 10:00" (PInt 20) ["on"] []
    = (Ok (Production ts vs total), log) ∧
    length log = 2%nat ∧
    Forall (fun p =>
              attenuation (cloud_enabled ["on"]) overnight_samples p
              = if String.eqb (remove_char "-" (sample_date p)) "20240621"
                then PInt 1 else PFloat 0x1.3333333333333p-1%float)
      overnight_samples ∧
    length (List.filter
              (fun p => String.eqb (remove_char "-" (sample_date p)) "20240621")
              overnight_samples) = 84%nat ∧
    length overnight_samples = 132%nat.
Proof.
  assert (Hguard : no_route four_legs = Ok false) by by_evaluation.
  assert (Hss : journey_samples four_legs "2024-06-21 10:00" (PInt 20)
                = Ok overnight_samples) by by_evaluation.
  assert (Hget : ∀ q : sample float, q ∈ first_seen ∅ overnight_samples ->
            ∃ r, requests_get (s_lat q) (s_lon q)
                   (remove_char "-" (sample_date q)) = Response r).
  { apply answered_stream. by_evaluation. }
  destruct (answered_lookup_decides_attenuation
              four_legs (PInt 10) kw_default "2024-06-21 10:00" (PInt 20)
              ["on"] overnight_samples Hguard Hss Hget)
    as (ts & vs & total & log & Hrun & Hlog & _ & _ & Hatt).
  exists ts, vs, total, log. split; [exact Hrun|]. split.
  { rewrite Hlog. by_evaluation. }
  split; [|split; by_evaluation].
  apply Forall_forall. intros p Hp.
  destruct (Hatt p Hp) as (q & r & _ & Hreq & _ & Hfail & _ & Hsucc).
  clear Hatt Hget Hrun Hlog Hss Hguard Hp.
  rewrite outage_then_clouds_answer in Hreq.
  revert Hreq Hfail Hsucc.
  generalize (attenuation (cloud_enabled ["on"]) overnight_samples p).
  generalize (remove_char "-" (sample_date p)).
  intros fd att Hreq Hfail Hsucc.
  destruct (String.eqb fd "20240621").
  - apply Hfail. injection Hreq as <-.
    apply non_success_status. discriminate.
  - destruct (String.eqb fd "20240622"); [|clear -Hreq; discriminate Hreq].
    injection Hreq as <-. clear Hfail.
    assert (Hok : provider_success
                    {| status_code := 200;
                       json_body := Some (power_payload fd (PInt 40)) |}
                    fd (PInt 40)).
    { split; [reflexivity|].
      exists (power_payload fd (PInt 40)), [(fd, JNum (PInt 40))].
      split; [reflexivity|]. split; [reflexivity|].
      cbn [assoc]. rewrite String.eqb_refl. reflexivity. }
    rewrite (Hsucc (PInt 40) Hok eq_refl eq_refl). by_evaluation.
Defined.

End OutageThenClouds.

(** * The further properties on concrete runs *)

Section FurtherPartlyCloudy.
Import Mock.
Local Open Scope string_scope.
#[local] Existing Instance partly_cloudy.

(** X6 on the run through the night. *)
Lemma dark_journey_yields_nothing_witness :
  times_of night_run = [] ∧ values_of night_run = [] ∧
  total_of night_run = PInt 0.
Proof.
  assert (Hss : journey_samples equator_leg "2024-06-21 22:00" (PInt 20)
                = Ok night_samples) by by_evaluation.
  assert (Hdark : ∀ p : sample float,
            p ∈ night_samples -> fgt (solar_altitude p) (of_Z 0) = false).
  { apply Forall_forall. repeat constructor. }
  assert (Hrun : update_solar_production equator_leg (PInt 10) kw_default
                    "2024-06-21 22:00" (PInt 20) ["on"] []
                  = (Ok (Production (times_of night_run) (values_of night_run)
                           (total_of night_run)), snd night_run))
    by by_evaluation.
  exact (dark_journey_yields_nothing _ _ _ _ _ _ _ _ _ _ _ Hss Hdark Hrun).
Defined.

(** X7 on the run over two legs: 3 waypoints, 2 segments, 66 samples, 65 of
    them retained. *)
Lemma series_no_longer_than_stream_witness :
  ∃ ps gs,
    journey_positions two_legs = Ok ps ∧
    journey_plan two_legs "2024-06-21 06:00" (PInt 20) = Ok gs ∧
    length gs = pred (length ps) ∧
    Forall (fun g => (2 <= length (segment_samples g))%nat) gs ∧
    (2 * length gs <= length (plan_samples gs))%nat ∧
    (length (times_of two_legs_run) <= length (plan_samples gs))%nat ∧
    length (values_of two_legs_run) = length (times_of two_legs_run).
Proof.
  apply (series_no_longer_than_stream
           two_legs (PInt 10) kw_default "2024-06-21 06:00" (PInt 20) ["on"]
           (times_of two_legs_run) (values_of two_legs_run)
           (total_of two_legs_run) (snd two_legs_run)).
  by_evaluation.
Defined.

(** X11: the second feature of [two_features] is never looked at. *)
Lemma only_first_feature_is_read_witness :
  update_solar_production two_features (PInt 10) kw_default
    "2024-06-21 10:00" (PInt 20) ["on"] []
  = update_solar_production equator_leg (PInt 10) kw_default
      "2024-06-21 10:00" (PInt 20) ["on"] [].
Proof.
  eapply (only_first_feature_is_read _ _ _ (_ :: _) []); reflexivity.
Defined.

(** X12 on a start date that is no date. *)
Lemma bad_start_date_raises_ValueError_witness :
  update_solar_production equator_leg (PInt 10) kw_default
    "tomorrow" (PInt 20) ["on"] []
  = (Raise ValueError, []).
Proof.
  apply (bad_start_date_raises_ValueError equator_leg (PInt 10) kw_default
           "tomorrow" (PInt 20) ["on"]
           [(JNum (PInt 0), JNum (PInt 0)); (JNum (PInt 0), JNum (PInt 1))]);
    reflexivity.
Defined.

(** X13 on a vessel that does not move. *)
Lemma zero_speed_raises_ZeroDivisionError_witness :
  update_solar_production equator_leg (PInt 10) kw_default
    "2024-06-21 10:00" (PInt 0) ["on"] []
  = (Raise ZeroDivisionError, []).
Proof.
  apply (zero_speed_raises_ZeroDivisionError
           equator_leg (PInt 10) kw_default "2024-06-21 10:00" (PInt 0) ["on"]
           (JNum (PInt 0), JNum (PInt 0)) (JNum (PInt 0), JNum (PInt 1)) []
           1718964000000000 0%float 0%float 0%float 1%float 111.25%float);
    reflexivity.
Defined.

(** X14 on a first position with an altitude. *)
Lemma odd_position_raises_ValueError_witness :
  update_solar_production with_altitude (PInt 10) kw_default
    "2024-06-21 10:00" (PInt 20) ["on"] []
  = (Raise ValueError, []).
Proof.
  apply (odd_position_raises_ValueError with_altitude (PInt 10) kw_default
           "2024-06-21 10:00" (PInt 20) ["on"]
           [JList [JNum (PInt 0); JNum (PInt 0); JNum (PInt 12)]; point 1 0]).
  - reflexivity.
  - reflexivity.
  - repeat constructor.
  - apply Exists_cons. left. reflexivity.
Defined.

(** X10 on a feature without geometry. *)
Lemma missing_geometry_raises_KeyError_witness :
  update_solar_production no_geometry (PInt 10) kw_default
    "2024-06-21 10:00" (PInt 20) ["on"] []
  = (Raise KeyError, []).
Proof.
  apply (missing_geometry_raises_KeyError _ [("type", JStr "Feature")] []);
    [reflexivity | left; reflexivity].
Defined.

(** X9 on an array that holds the string "features". *)
Lemma non_object_never_simulated_witness :
  update_solar_production (JList [JStr "features"]) (PInt 10) kw_default
    "2024-06-21 10:00" (PInt 20) ["on"] []
  = (Ok InvalidRoute, []) ∨
  update_solar_production (JList [JStr "features"]) (PInt 10) kw_default
    "2024-06-21 10:00" (PInt 20) ["on"] []
  = (Raise TypeError, []).
Proof. apply non_object_never_simulated. reflexivity. Defined.

(** X15 on the run over two legs, which starts at 06:00. *)
Lemma no_sample_before_start_witness :
  strptime "2024-06-21 06:00" = Some 1718949600000000 ∧
  Forall (fun t => 1718949600000000 <= t) (times_of two_legs_run).
Proof.
  split; [reflexivity|].
  assert (Hrun : update_solar_production two_legs (PInt 10) kw_default
                    "2024-06-21 06:00" (PInt 20) ["on"] []
                  = (Ok (Production (times_of two_legs_run)
                           (values_of two_legs_run) (total_of two_legs_run)),
                     snd two_legs_run)) by by_evaluation.
  apply no_sample_before_start in Hrun as (gs & t0 & Hgs & Ht0 & Hfrom).
  injection Ht0 as <-.
  assert (Hdur : Forall (fun g => 0 <= segment_duration g) gs).
  { vm_compute in Hgs. injection Hgs as <-.
    repeat constructor; simpl; lia. }
  apply (Hfrom Hdur).
Defined.

(** X16 on the equator leg: 20025 s of traversal, 33 samples, the last one
    at 19200 s. *)
Lemma segment_tail_is_not_sampled_witness :
  ∃ g,
    plan_segment (PInt 20) (JNum (PInt 0), JNum (PInt 0))
      (JNum (PInt 0), JNum (PInt 1)) 0 = Ok g ∧
    segment_duration g = 20025000000 ∧
    times_segment g !! 32%nat = Some 19200000000 ∧
    Forall (fun t => t <= 19200000000) (times_segment g).
Proof.
  destruct (plan_segment (PInt 20) (JNum (PInt 0), JNum (PInt 0))
              (JNum (PInt 0), JNum (PInt 1)) 0)
    as [g|e] eqn:Hg; [|vm_compute in Hg; discriminate].
  exists g. split; [reflexivity|].
  assert (Hfacts : segment_duration g = 20025000000 ∧ num_steps g = 33).
  { vm_compute in Hg. injection Hg as <-. split; reflexivity. }
  destruct Hfacts as [Hdur Hn].
  destruct (segment_tail_is_not_sampled _ _ _ _ _ Hg ltac:(rewrite Hdur; lia))
    as (Hlast & _ & _ & _ & Hall).
  rewrite Hn in Hlast, Hall. simpl in Hlast, Hall. auto.
Defined.

(** X17 on the run through the night: 33 samples on two dates, two calls. *)
Lemma calls_count_distinct_dates_witness :
  ∃ ss,
    journey_samples equator_leg "2024-06-21 22:00" (PInt 20) = Ok ss ∧
    length (snd night_run) = length (remove_dups (map sample_date ss)) ∧
    map call_date (snd night_run) ≡ₚ remove_dups (map sample_date ss) ∧
    (length (snd night_run) <= length ss)%nat.
Proof.
  apply (calls_count_distinct_dates
           equator_leg (PInt 10) kw_default "2024-06-21 22:00" (PInt 20) ["on"]
           (times_of night_run) (values_of night_run)
           (total_of night_run) (snd night_run)).
  by_evaluation.
Defined.

(** X18 on the date of the morning run. *)
Lemma request_uses_compact_date_witness :
  fetch_cloud_cover 0%float 0%float "2024-06-21" []
  = (Ok (PFloat 0x1.999999999999ap-2%float),
     [ {| call_lat := 0%float; call_lon := 0%float;
          call_date := "2024-06-21" |} ]).
Proof.
  exact (request_uses_compact_date 0%float 0%float "2024" "06" "21" []
           eq_refl eq_refl eq_refl).
Defined.

(** X19 on the morning run. *)
Lemma first_call_is_for_start_date_witness :
  ∃ gs t0,
    journey_plan equator_leg "2024-06-21 10:00" (PInt 20) = Ok gs ∧
    strptime "2024-06-21 10:00" = Some t0 ∧
    match gs with
    | [] => snd morning_run = []
    | g :: _ =>
        ∃ rest, snd morning_run
                = {| call_lat := lats g 0%nat;
                     call_lon := lons g 0%nat;
                     call_date := strftime_date t0 |} :: rest
    end.
Proof.
  apply (first_call_is_for_start_date
           equator_leg (PInt 10) kw_default "2024-06-21 10:00" (PInt 20) ["on"]
           (times_of morning_run) (values_of morning_run)
           (total_of morning_run) (snd morning_run)).
  by_evaluation.
Defined.

End FurtherPartlyCloudy.

Section FurtherProviderDown.
Import Mock.
Local Open Scope string_scope.
#[local] Existing Instance provider_down.

(** X5 during an outage: the toggle makes no difference. *)
Lemma failing_provider_equals_disabled_witness :
  update_solar_production equator_leg (PInt 10) kw_default
    "2024-06-21 10:00" (PInt 20) ["on"] []
  = update_solar_production equator_leg (PInt 10) kw_default
      "2024-06-21 10:00" (PInt 20) [] [].
Proof.
  apply failing_provider_equals_disabled.
  intros lat lon d. eexists. split; [reflexivity|].
  apply non_success_status. discriminate.
Defined.

End FurtherProviderDown.

Section FurtherStaleTable.
Import Mock.
Local Open Scope string_scope.
#[local] Existing Instance stale_table.

(** X1 on a provider that only has the table of another day. *)
Lemma missing_date_counts_as_clear_witness :
  fetch_cloud_cover 0%float 0%float "2024-06-21" []
  = (Ok (PFloat (fdiv (of_Z 0) (of_Z 100))),
     [ {| call_lat := 0%float; call_lon := 0%float;
          call_date := "2024-06-21" |} ]).
Proof.
  apply (missing_date_counts_as_clear 0%float 0%float "2024-06-21" []
           stale_answer (payload_with "19990101" (JNum (PInt 40)))
           [("19990101", JNum (PInt 40))]);
    reflexivity.
Defined.

End FurtherStaleTable.

Section FurtherNullTable.
Import Mock.
Local Open Scope string_scope.
#[local] Existing Instance null_table.

(** X2 on a provider that has a null for the date. *)
Lemma unusable_entry_falls_back_to_zero_witness :
  fetch_cloud_cover 0%float 0%float "2024-06-21" []
  = (Ok (PInt 0),
     [ {| call_lat := 0%float; call_lon := 0%float;
          call_date := "2024-06-21" |} ]).
Proof.
  apply (unusable_entry_falls_back_to_zero 0%float 0%float "2024-06-21" []
           (null_answer "20240621") (payload_with "20240621" JNull)
           (JDict [("20240621", JNull)]));
    try reflexivity.
  right. exists [("20240621", JNull)], JNull. repeat split.
Defined.

End FurtherNullTable.

Section FurtherBreaksAtMidnight.
Import Mock.
#[local] Existing Instance breaks_at_midnight.

(** X3 on the night run when the connection breaks for 22 June: the call
    for 21 June is answered, the one for 22 June raises. *)
Lemma connection_failure_aborts_run_witness :
  ∃ answered q' rest,
    first_seen ∅ night_samples = answered ++ q' :: rest ∧
    Forall (fun p => is_Some (fetched p)) answered ∧
    fetched q' = None ∧
    update_solar_production equator_leg (PInt 10) kw_default
      "2024-06-21 22:00"%string (PInt 20) ["on"%string] []
    = (Raise RequestException, map call_of (answered ++ [q'])).
Proof.
  assert (Hguard : no_route equator_leg = Ok false) by by_evaluation.
  assert (Hss : journey_samples equator_leg "2024-06-21 22:00"%string (PInt 20)
                = Ok night_samples) by by_evaluation.
  assert (Hfirst : first_sample (sample_date midnight_sample) night_samples
                   = Some midnight_sample) by by_evaluation.
  assert (Hreq : requests_get (s_lat midnight_sample) (s_lon midnight_sample)
                   (remove_char "-"%char (sample_date midnight_sample))
                 = ConnectionFailed) by by_evaluation.
  exact (connection_failure_aborts_run equator_leg (PInt 10) kw_default
           "2024-06-21 22:00"%string (PInt 20) ["on"%string] night_samples midnight_sample
           Hguard Hss Hfirst Hreq).
Defined.

End FurtherBreaksAtMidnight.
